(** * Cart / inventory consistency of the job-platform backend

    A shallow embedding of [src/controllers/cartController.js],
    [src/routes/cart.js], the two cart validators of
    [src/middleware/validators.js] and the [authenticate] middleware,
    followed by the properties of the specification that concern them.

    Conventions of the embedding:
    - JavaScript integers (ids, quantities, stock) are [Z]; they are exact
      in a double below 2^53.  [parseInt] gives the integer its double
      holds.
    - text that the code parses or compares (route parameters, fields of
      the body) is the [string] of its UTF-8 bytes, as a string literal of
      this file is.
    - a field of the JSON body that the code uses as a number is a
      [Js.value]: a number with an integer value, or a value that is not a
      number, given by the string JavaScript converts it to.
    - the Prisma client refuses an argument that is not a number where the
      schema has an [Int]; an id that is a number is looked up as it is
      (ids are taken within the range of their column).
    - JavaScript numbers that carry prices are IEEE 754 binary64 values,
      [spec_float] with the operations of [SpecFloat] at precision 53.
    - a Prisma table is the list of its rows in insertion order; primary
      keys come from a counter kept in the store.
    - an [async] handler is a computation in a state-and-exception monad
      over the database and the log of client calls; a [throw] keeps the
      writes made before it.  Handlers run to completion one after the
      other: interleavings of concurrent requests are not modelled.

    Layout: the embedding of the code, the predicates of the specification
    and sample data come first; the properties follow, the one that settles
    a numbered statement of the specification under a comment that starts
    with its number.

    The embedding then goes on to the writes of the admin controllers that
    the cart depends on ([deleteProduct], [deactivateUser], [activateUser]),
    to [middleware/authorize.js], [utils/password.js], the deletion of a job
    posting and the review controller.  The further properties proved of
    the code come after those of the specification, under comments
    numbered X1, X2, ... *)

From Stdlib Require Import ZArith List String Ascii Bool Lia.
From Stdlib Require Import DecimalString.
From Stdlib Require Import Floats.SpecFloat.
Import ListNotations.

Local Open Scope string_scope.
Local Open Scope Z_scope.

(* ================================================================== *)
(** ** JavaScript values *)
(* ================================================================== *)

Module Js.

(** [Number]: binary64. *)
Definition prec : Z := 53.
Definition emax : Z := 1024.
Definition number : Type := spec_float.

Definition NaN : number := S754_nan.
Definition add : number -> number -> number := SFadd prec emax.
Definition mul : number -> number -> number := SFmul prec emax.

(** The double nearest to the integer [z]. *)
Definition ofZ (z : Z) : number := binary_normalize prec emax z 0 false.

(** The double nearest to [p / q] (round to nearest, ties to even), with
    sign [s]: what reading a decimal literal produces. *)
Definition ratio (s : bool) (p q : positive) : number :=
  SFdiv prec emax (S754_finite s p 0) (S754_finite false q 0).

(** A Prisma [Decimal] column value: [dmant / 10 ^ dscale]. *)
Record PDecimal : Type := mkDecimal { dmant : Z; dscale : nat }.

Definition pow10 (k : nat) : positive := Z.to_pos (10 ^ Z.of_nat k).

(** [Number(d)] for a Decimal [d]: the nearest double. *)
Definition Number (d : PDecimal) : number :=
  match dmant d with
  | Z0 => S754_zero false
  | Zpos m => ratio false m (pow10 (dscale d))
  | Zneg m => ratio true m (pow10 (dscale d))
  end.

(** The text produced by [x.toFixed(2)]. *)
Inductive FixedText : Type :=
| TNaN                                  (* "NaN" *)
| TInfinity (neg : bool)                (* "Infinity", "-Infinity" *)
| TShortest (x : number)                (* x >= 1e21: ToString(x) *)
| TDigits (neg : bool) (hundredths : Z) (* "-"? d+ "." dd *).

(** [m * 2^e < 10^21], decided on integers. *)
Definition below_1e21 (m : positive) (e : Z) : bool :=
  if 0 <=? e then Zpos m * 2 ^ e <? 10 ^ 21
  else Zpos m <? 10 ^ 21 * 2 ^ (- e).

(** The integer [n] for which [n / 100 - m * 2^e] is as close to zero as
    possible, the larger [n] when there are two. *)
Definition hundredths_of (m : positive) (e : Z) : Z :=
  if 0 <=? e then 100 * Zpos m * 2 ^ e
  else (200 * Zpos m + 2 ^ (- e)) / 2 ^ (1 - e).

Definition toFixed2 (x : number) : FixedText :=
  match x with
  | S754_nan => TNaN
  | S754_infinity s => TInfinity s
  | S754_zero _ => TDigits false 0
  | S754_finite s m e =>
      if below_1e21 m e then TDigits s (hundredths_of m e) else TShortest x
  end.

Definition parseFloat (t : FixedText) : number :=
  match t with
  | TNaN => S754_nan
  | TInfinity s => S754_infinity s
  | TShortest x => x
  | TDigits s n =>
      match n with
      | Zpos p => ratio s p 100
      | _ => S754_zero s
      end
  end.

(** Text of an integer inside a template literal. *)
Definition show (z : Z) : string := NilZero.string_of_int (Z.to_int z).

(** *** Strings

    A JavaScript string is given by its UTF-8 bytes. *)
Definition byte (c : ascii) : Z := Z.of_nat (nat_of_ascii c).

(** [WhiteSpace] and [LineTerminator] of ECMAScript, by code point: TAB,
    LF, VT, FF, CR, the space separators (category Zs: U+0020, U+00A0,
    U+1680, U+2000 to U+200A, U+202F, U+205F, U+3000), LS, PS and the byte
    order mark U+FEFF. *)
Definition isWhiteSpace (codePoint : Z) : bool :=
  ((9 <=? codePoint) && (codePoint <=? 13))
  || (codePoint =? 32) || (codePoint =? 160) || (codePoint =? 5760)
  || ((8192 <=? codePoint) && (codePoint <=? 8202))
  || (codePoint =? 8232) || (codePoint =? 8233) || (codePoint =? 8239)
  || (codePoint =? 8287) || (codePoint =? 12288) || (codePoint =? 65279).

Definition continuation (b : Z) : bool := (128 <=? b) && (b <=? 191).

(** The code point of a character of one, two or three bytes, [-1] when
    the bytes are not such a character (no white space takes four). *)
Definition codePoint1 (b1 : Z) : Z := if b1 <? 128 then b1 else -1.

Definition codePoint2 (b1 b2 : Z) : Z :=
  if (194 <=? b1) && (b1 <=? 223) && continuation b2
  then (b1 - 192) * 64 + (b2 - 128)
  else -1.

Definition codePoint3 (b1 b2 b3 : Z) : Z :=
  let cp := (b1 - 224) * 4096 + (b2 - 128) * 64 + (b3 - 128) in
  if (224 <=? b1) && (b1 <=? 239) && continuation b2 && continuation b3
     && (2048 <=? cp)
  then cp
  else -1.

Fixpoint trimStart (s : string) : string :=
  match s with
  | String c1 r1 =>
      if isWhiteSpace (codePoint1 (byte c1)) then trimStart r1
      else
        match r1 with
        | String c2 r2 =>
            if isWhiteSpace (codePoint2 (byte c1) (byte c2)) then trimStart r2
            else
              match r2 with
              | String c3 r3 =>
                  if isWhiteSpace (codePoint3 (byte c1) (byte c2) (byte c3))
                  then trimStart r3
                  else s
              | EmptyString => s
              end
        | EmptyString => s
        end
  | EmptyString => s
  end.

Fixpoint reverseOnto (s acc : string) : string :=
  match s with
  | String c r => reverseOnto r (String c acc)
  | EmptyString => acc
  end.

Definition reverse (s : string) : string := reverseOnto s "".

(** [trimStart] on text read from its end. *)
Fixpoint trimReversed (s : string) : string :=
  match s with
  | String c3 r1 =>
      if isWhiteSpace (codePoint1 (byte c3)) then trimReversed r1
      else
        match r1 with
        | String c2 r2 =>
            if isWhiteSpace (codePoint2 (byte c2) (byte c3))
            then trimReversed r2
            else
              match r2 with
              | String c1 r3 =>
                  if isWhiteSpace (codePoint3 (byte c1) (byte c2) (byte c3))
                  then trimReversed r3
                  else s
              | EmptyString => s
              end
        | EmptyString => s
        end
  | EmptyString => s
  end.

Definition trim (s : string) : string :=
  reverse (trimReversed (reverse (trimStart s))).

(** *** [parseInt] on a route parameter ([None] is [undefined]; the result
    [None] is [NaN]) *)
Definition digitValue (c : ascii) : option Z :=
  let n := Z.of_nat (nat_of_ascii c) in
  if (48 <=? n) && (n <=? 57) then Some (n - 48)
  else if (97 <=? n) && (n <=? 122) then Some (n - 87)
  else if (65 <=? n) && (n <=? 90) then Some (n - 55)
  else None.

Fixpoint parseDigits (radix : Z) (s : string) (acc : option Z) : option Z :=
  match s with
  | String c r =>
      match digitValue c with
      | Some d =>
          if d <? radix
          then parseDigits radix r
                 (Some (radix * match acc with Some a => a | None => 0 end + d))
          else acc
      | None => acc
      end
  | EmptyString => acc
  end.

Definition stripSign (s : string) : bool * string :=
  match s with
  | String "-" r => (true, r)
  | String "+" r => (false, r)
  | _ => (false, s)
  end.

Definition stripHexPrefix (s : string) : Z * string :=
  match s with
  | String "0" (String "x" r) => (16, r)
  | String "0" (String "X" r) => (16, r)
  | _ => (10, s)
  end.

(** The integer a number holds.  [Infinity] reads as [2 ^ 1024], an integer
    above every double: it passes the comparisons as [Infinity] does and is
    the id of no row. *)
Definition toInteger (x : number) : option Z :=
  match x with
  | S754_nan => None
  | S754_zero _ => Some 0
  | S754_infinity s => Some (if s then - 2 ^ 1024 else 2 ^ 1024)
  | S754_finite s m e =>
      let n := if 0 <=? e then Zpos m * 2 ^ e else Zpos m / 2 ^ (- e) in
      Some (if s then - n else n)
  end.

(** The digits are read exactly and the result is the double nearest to
    their value. *)
Definition parseInt (v : option string) : option Z :=
  match v with
  | None => None
  | Some s =>
      let '(neg, s1) := stripSign (trimStart s) in
      let '(radix, s2) := stripHexPrefix s1 in
      match parseDigits radix s2 None with
      | Some n => toInteger (ofZ (if neg then - n else n))
      | None => None
      end
  end.

(** *** [ToNumber] of a string *)

(** The digits of [radix] at the head of [s]: their value after [acc], how
    many there are after [count], and the rest. *)
Fixpoint digits (radix : Z) (s : string) (acc : Z) (count : Z)
  : Z * Z * string :=
  match s with
  | String c r =>
      match digitValue c with
      | Some d =>
          if d <? radix then digits radix r (radix * acc + d) (count + 1)
          else (acc, count, s)
      | None => (acc, count, s)
      end
  | EmptyString => (acc, count, s)
  end.

(** [0x], [0o] and [0b] literals: the radix and the digits. *)
Definition radixPrefix (s : string) : option (Z * string) :=
  match s with
  | String "0" (String "x" r) | String "0" (String "X" r) => Some (16, r)
  | String "0" (String "o" r) | String "0" (String "O" r) => Some (8, r)
  | String "0" (String "b" r) | String "0" (String "B" r) => Some (2, r)
  | _ => None
  end.

(** The double nearest to [m * 10 ^ e], with sign [neg]. *)
Definition scaled (neg : bool) (m e : Z) : number :=
  match m with
  | Zpos p =>
      if 0 <=? e
      then binary_normalize prec emax ((if neg then -1 else 1) * m * 10 ^ e)
             0 false
      else SFdiv prec emax (S754_finite neg p 0)
             (S754_finite false (Z.to_pos (10 ^ (- e))) 0)
  | _ => S754_zero neg
  end.

(** The exponent part, which ends the text; [Some 0] when there is none. *)
Definition exponentPart (s : string) : option Z :=
  match s with
  | EmptyString => Some 0
  | String c r =>
      if (byte c =? 101) || (byte c =? 69)
      then
        let '(neg, r1) := stripSign r in
        match digits 10 r1 0 0 with
        | (n, count, EmptyString) =>
            if 0 <? count then Some (if neg then - n else n) else None
        | _ => None
        end
      else None
  end.

(** [StrDecimalLiteral]: a sign, then [Infinity] or digits with an
    optional fraction and exponent. *)
Definition decimalLiteral (s : string) : number :=
  let '(neg, u) := stripSign s in
  if String.eqb u "Infinity" then S754_infinity neg
  else
    let '(m1, n1, r1) := digits 10 u 0 0 in
    let '(m, n2, r2) :=
      match r1 with
      | String "." r => digits 10 r m1 0
      | _ => (m1, -1, r1)
      end in
    if (0 <? n1) || (0 <? n2)
    then match exponentPart r2 with
         | Some e => scaled neg m (e - Z.max n2 0)
         | None => NaN
         end
    else NaN.

(** [ToNumber(s)]: white space around a numeric literal is dropped, the
    empty text is 0 and text that is no literal is [NaN]. *)
Definition toNumber (s : string) : number :=
  match trim s with
  | EmptyString => S754_zero false
  | t =>
      match radixPrefix t with
      | Some (radix, r) =>
          match digits radix r 0 0 with
          | (n, count, EmptyString) => if 0 <? count then ofZ n else NaN
          | _ => NaN
          end
      | None => decimalLiteral t
      end
  end.

(** *** Values used as numbers

    What the code reads from the JSON body where it expects a number: a
    number with an integer value, or a value that is not a number, given by
    the string JavaScript converts it to wherever the handlers use it (a
    string is its own text; an array is the texts of its elements joined by
    commas, so that [[5]] is "5"). *)
Inductive value : Type :=
| Num (z : Z)
| Str (s : string).

(** The text of a value inside a template literal. *)
Definition text (v : value) : string :=
  match v with Num z => show z | Str s => s end.

(** [n < v], [v > n] and [v < n] for a number [n]: the operands are
    compared as numbers, and a comparison with [NaN] is false. *)
Definition less (n : Z) (v : value) : bool :=
  match v with Num z => n <? z | Str s => SFltb (ofZ n) (toNumber s) end.

Definition greater (v : value) (n : Z) : bool :=
  match v with Num z => z >? n | Str s => SFltb (ofZ n) (toNumber s) end.

Definition below (v : value) (n : Z) : bool :=
  match v with Num z => z <? n | Str s => SFltb (toNumber s) (ofZ n) end.

(** [n + v]: the sum of two numbers, or the text of [n] followed by the
    text of [v]. *)
Definition plus (n : Z) (v : value) : value :=
  match v with Num z => Num (n + z) | Str s => Str (show n ++ s) end.

End Js.

(** A number with an integer value is written as the integer, also under
    [Some], where a field of the body is expected. *)
Coercion Js.Num : Z >-> Js.value.
Arguments Some {A} & a.

(* ================================================================== *)
(** ** Errors ([utils/errors.js]) *)
(* ================================================================== *)

(** An [AppError]: its message and HTTP status code. *)
Record AppError : Type := mkError { message : string; statusCode : Z }.

Definition NotFoundError (resource : string) : AppError :=
  mkError (resource ++ " not found") 404.
Definition ValidationError (msg : string) : AppError := mkError msg 400.
Definition BadRequestError (msg : string) : AppError := mkError msg 400.
Definition UnauthorizedError (msg : string) : AppError := mkError msg 401.

(** Modelled from the spec: [middleware/errorHandler.js] is not among the
    sources.  An exception that is not an [AppError] (a [TypeError], an
    error of the Prisma client) propagates as a generic internal failure,
    distinct from the operational errors above. *)
Definition InternalError (msg : string) : AppError := mkError msg 500.

(* ================================================================== *)
(** ** The database behind the Prisma client *)
(* ================================================================== *)

Module Prisma.

(** Rows, with the columns the cart code reads or writes (the schema file
    is not among the sources; ids, quantity and stock are [Int] columns,
    price is a [Decimal] column, [Cart.userId] is the unique key that
    [findUnique] looks up). *)
Record User : Type := mkUser { u_id : Z; u_isActive : bool }.

Record Product : Type := mkProduct {
  p_id : Z;
  p_title : string;
  p_price : Js.PDecimal;
  p_thumbnail : string;
  p_stock : Z;
  p_isActive : bool
}.

Record Cart : Type := mkCart { c_id : Z; c_userId : Z }.

Record CartItem : Type := mkItem {
  i_id : Z;
  i_cartId : Z;
  i_productId : Z;
  i_quantity : Z
}.

Record Store : Type := mkStore {
  users : list User;
  products : list Product;
  carts : list Cart;
  cartItems : list CartItem;
  nextCartId : Z;
  nextItemId : Z
}.

(** A [select] object over the product relation: which fields are kept. *)
Record ProductSelect : Type := mkSelect {
  sel_id : bool;
  sel_title : bool;
  sel_price : bool;
  sel_thumbnail : bool;
  sel_stock : bool;
  sel_isActive : bool
}.

(** The price of a product object sent back: the Decimal of the column, or
    the plain number that replaced it. *)
Inductive PriceValue : Type :=
| PriceDecimal (d : Js.PDecimal)
| PriceNumber (x : Js.number).

(** The product object under an item; [None] is an absent key. *)
Record ProductObject : Type := mkProductObject {
  o_id : option Z;
  o_title : option string;
  o_price : option PriceValue;
  o_thumbnail : option string;
  o_stock : option Z;
  o_isActive : option bool
}.

Definition keep {A : Type} (b : bool) (a : A) : option A :=
  if b then Some a else None.

Definition project (sel : ProductSelect) (p : Product) : ProductObject :=
  mkProductObject
    (keep (sel_id sel) (p_id p))
    (keep (sel_title sel) (p_title p))
    (keep (sel_price sel) (PriceDecimal (p_price p)))
    (keep (sel_thumbnail sel) (p_thumbnail p))
    (keep (sel_stock sel) (p_stock p))
    (keep (sel_isActive sel) (p_isActive p)).

(** What a query includes with a cart. *)
Inductive Include : Type :=
| IncludeNothing
| IncludeItems
| IncludeItemsProduct (sel : ProductSelect).

(** The calls made on the client, as they are issued. *)
Inductive Call : Type :=
| user_findUnique (id : Z)
| product_findUnique (id : Z)
| cart_findUnique (userId : Z) (inc : Include)
| cart_create (userId : Z) (inc : Include)
| cartItem_create (cartId productId quantity : Z)
| cartItem_update (id : Z) (quantity : option Z)
| cartItem_delete (id : Z)
| cartItem_deleteMany (cartId : Z).

(** *** Pure table operations *)

Definition findUser (id : Z) (s : Store) : option User :=
  find (fun u => u_id u =? id) (users s).

Definition findProduct (id : Z) (s : Store) : option Product :=
  find (fun p => p_id p =? id) (products s).

Definition findCart (userId : Z) (s : Store) : option Cart :=
  find (fun c => c_userId c =? userId) (carts s).

Definition itemsOf (cartId : Z) (s : Store) : list CartItem :=
  filter (fun i => i_cartId i =? cartId) (cartItems s).

Definition hasItem (id : Z) (s : Store) : bool :=
  existsb (fun i => i_id i =? id) (cartItems s).

Definition setQuantity (id q : Z) (l : list CartItem) : list CartItem :=
  map (fun i => if i_id i =? id
                then mkItem (i_id i) (i_cartId i) (i_productId i) q
                else i) l.

Definition withItems (s : Store) (l : list CartItem) : Store :=
  mkStore (users s) (products s) (carts s) l (nextCartId s) (nextItemId s).

Definition insertCart (userId : Z) (s : Store) : Cart * Store :=
  let c := mkCart (nextCartId s) userId in
  (c, mkStore (users s) (products s) (carts s ++ [c]) (cartItems s)
        (nextCartId s + 1) (nextItemId s)).

Definition insertItem (cartId productId q : Z) (s : Store) : Store :=
  mkStore (users s) (products s) (carts s)
    (cartItems s ++ [mkItem (nextItemId s) cartId productId q])
    (nextCartId s) (nextItemId s + 1).

Definition updateItem (id q : Z) (s : Store) : Store :=
  withItems s (setQuantity id q (cartItems s)).

Definition deleteItem (id : Z) (s : Store) : Store :=
  withItems s (filter (fun i => negb (i_id i =? id)) (cartItems s)).

Definition deleteItemsOf (cartId : Z) (s : Store) : Store :=
  withItems s (filter (fun i => negb (i_cartId i =? cartId)) (cartItems s)).

End Prisma.
Import Prisma.

(* ================================================================== *)
(** ** Handlers as computations *)
(* ================================================================== *)

(** The world a handler runs in: the database and the calls issued so far. *)
Record World : Type := mkWorld { db : Store; calls : list Call }.

Inductive Result (A : Type) : Type :=
| Ok (a : A)
| Throw (e : AppError).
Arguments Ok {A} a.
Arguments Throw {A} e.

Definition M (A : Type) : Type := World -> Result A * World.

Definition ret {A : Type} (a : A) : M A := fun w => (Ok a, w).

Definition throw {A : Type} (e : AppError) : M A := fun w => (Throw e, w).

Definition bind {A B : Type} (m : M A) (k : A -> M B) : M B :=
  fun w => match m w with
           | (Ok a, w') => k a w'
           | (Throw e, w') => (Throw e, w')
           end.

Declare Scope handler_scope.
Delimit Scope handler_scope with handler.
Notation "x <- m ;; k" := (bind m (fun x => k))
  (at level 61, m at next level, right associativity) : handler_scope.
Notation "m ;; k" := (bind m (fun _ => k))
  (at level 61, right associativity) : handler_scope.
Local Open Scope handler_scope.

(** Issue a call: record it, then read or write the database. *)
Definition query {A : Type} (c : Call) (f : Store -> A) : M A :=
  fun w => (Ok (f (db w)), mkWorld (db w) (calls w ++ [c])).

Definition command (c : Call) (f : Store -> Store) : M unit :=
  fun w => (Ok tt, mkWorld (f (db w)) (calls w ++ [c])).

(** *** The client calls used by the cart code *)

Definition prismaError {A : Type} (what : string) : M A :=
  throw (InternalError what).

(** A call that the database refuses: recorded, then thrown. *)
Definition refused {A : Type} (c : Call) (what : string) : M A :=
  fun w => (Throw (InternalError what), mkWorld (db w) (calls w ++ [c])).

Definition user_findUnique_ (id : Z) : M (option User) :=
  query (user_findUnique id) (findUser id).

Definition product_findUnique_ (id : Z) : M (option Product) :=
  query (product_findUnique id) (findProduct id).

(** A cart row together with what [include] adds to it. *)
Definition CartWithItems : Type := Cart * list CartItem.
Definition CartWithProducts : Type :=
  Cart * list (CartItem * option ProductObject).

Definition joinItems (c : Cart) (s : Store) : CartWithItems :=
  (c, itemsOf (c_id c) s).

(** [include: { product: { select } }] on a list of items. *)
Definition attachProducts (sel : ProductSelect) (s : Store)
  (l : list CartItem) : list (CartItem * option ProductObject) :=
  map (fun i => (i, option_map (project sel) (findProduct (i_productId i) s)))
    l.

Definition joinProducts (sel : ProductSelect) (c : Cart) (s : Store)
  : CartWithProducts :=
  (c, attachProducts sel s (itemsOf (c_id c) s)).

Definition cart_findUnique_plain (userId : Z) : M (option Cart) :=
  query (cart_findUnique userId IncludeNothing) (findCart userId).

Definition cart_findUnique_items (userId : Z) : M (option CartWithItems) :=
  query (cart_findUnique userId IncludeItems)
    (fun s => option_map (fun c => joinItems c s) (findCart userId s)).

Definition cart_findUnique_products (sel : ProductSelect) (userId : Z)
  : M (option CartWithProducts) :=
  query (cart_findUnique userId (IncludeItemsProduct sel))
    (fun s => option_map (fun c => joinProducts sel c s) (findCart userId s)).

Definition cart_create_items (userId : Z) : M CartWithItems :=
  fun w =>
    let '(c, s) := insertCart userId (db w) in
    (Ok (joinItems c s),
     mkWorld s (calls w ++ [cart_create userId IncludeItems])).

Definition cart_create_products (sel : ProductSelect) (userId : Z)
  : M CartWithProducts :=
  fun w =>
    let '(c, s) := insertCart userId (db w) in
    (Ok (joinProducts sel c s),
     mkWorld s (calls w ++ [cart_create userId (IncludeItemsProduct sel)])).

Definition cartItem_create_ (cartId productId quantity : Z) : M unit :=
  command (cartItem_create cartId productId quantity)
    (insertItem cartId productId quantity).

(** [update] and [delete] by primary key throw when the row is gone; an
    [undefined] quantity in [data] leaves the column as it is. *)
Definition cartItem_update_ (id : Z) (quantity : option Z) : M unit :=
  fun w =>
    if hasItem id (db w)
    then command (cartItem_update id quantity)
           (match quantity with
            | Some q => updateItem id q
            | None => fun s => s
            end) w
    else refused (cartItem_update id quantity) "Record to update not found" w.

Definition cartItem_delete_ (id : Z) : M unit :=
  fun w =>
    if hasItem id (db w)
    then command (cartItem_delete id) (deleteItem id) w
    else refused (cartItem_delete id) "Record to delete does not exist" w.

Definition cartItem_deleteMany_ (cartId : Z) : M unit :=
  command (cartItem_deleteMany cartId) (deleteItemsOf cartId).

(* ================================================================== *)
(** ** The cart view *)
(* ================================================================== *)

Record EnrichedItem : Type := mkEnriched {
  e_id : Z;
  e_cartId : Z;
  e_productId : Z;
  e_quantity : Z;
  e_product : ProductObject;
  e_subtotal : Js.number
}.

(** [{ ...cart, items, totalItems, totalPrice }]; [v_cart] is the spread
    row, [None] when the spread value was [null]. *)
Record CartView : Type := mkView {
  v_cart : option Cart;
  v_items : list EnrichedItem;
  v_totalItems : Z;
  v_totalPrice : Js.number
}.

Record Response : Type := mkResponse {
  r_status : Z;
  r_message : option string;
  r_cart : CartView
}.

(** [Number(item.product.price)]; a missing key reads [undefined]. *)
Definition priceNumber (o : ProductObject) : Js.number :=
  match o_price o with
  | Some (PriceDecimal d) => Js.Number d
  | Some (PriceNumber x) => x
  | None => Js.NaN
  end.

Definition withPrice (o : ProductObject) (x : Js.number) : ProductObject :=
  mkProductObject (o_id o) (o_title o) (Some (PriceNumber x))
    (o_thumbnail o) (o_stock o) (o_isActive o).

(** The callback given to [items.map]. *)
Definition enrich (entry : CartItem * option ProductObject)
  : Result EnrichedItem :=
  let '(item, product) := entry in
  match product with
  | None => Throw (InternalError "Cannot read properties of null")
  | Some o =>
      Ok (mkEnriched (i_id item) (i_cartId item) (i_productId item)
            (i_quantity item)
            (withPrice o (priceNumber o))
            (Js.mul (priceNumber o) (Js.ofZ (i_quantity item))))
  end.

Fixpoint enrichAll (l : list (CartItem * option ProductObject))
  : Result (list EnrichedItem) :=
  match l with
  | [] => Ok []
  | entry :: rest =>
      match enrich entry with
      | Throw e => Throw e
      | Ok x => match enrichAll rest with
                | Throw e => Throw e
                | Ok xs => Ok (x :: xs)
                end
      end
  end.

Definition totalItemsOf (items : list EnrichedItem) : Z :=
  fold_left (fun sum item => sum + e_quantity item) items 0.

Definition totalPriceOf (items : list EnrichedItem) : Js.number :=
  fold_left (fun sum item => Js.add sum (e_subtotal item)) items (Js.ofZ 0).

(** [parseFloat(totalPrice.toFixed(2))]. *)
Definition round2 (x : Js.number) : Js.number := Js.parseFloat (Js.toFixed2 x).

(** "Calculate totals" and the [cart] object of the response. *)
Definition cartView (cart : CartWithProducts) : M CartView :=
  match enrichAll (snd cart) with
  | Throw e => throw e
  | Ok enrichedItems =>
      ret (mkView (Some (fst cart)) enrichedItems
             (totalItemsOf enrichedItems)
             (round2 (totalPriceOf enrichedItems)))
  end.

(* ================================================================== *)
(** ** [controllers/cartController.js] *)
(* ================================================================== *)

(** What a handler reads from [req]. *)
Record Request : Type := mkRequest {
  user_userId : Z;                  (* req.user.userId *)
  params_userId : option string;    (* req.params.userId *)
  params_productId : option string; (* req.params.productId *)
  body_productId : option Js.value; (* req.body.productId *)
  body_quantity : option Js.value   (* req.body.quantity *)
}.

(** A value given to the client for an [Int] column or key: the client
    refuses what is not a number, before it sends anything. *)
Definition asInt {A : Type} (v : Js.value) (k : Z -> M A) : M A :=
  match v with
  | Js.Num z => k z
  | Js.Str _ => prismaError "Invalid value provided. Expected Int"
  end.

Definition selectWithActive : ProductSelect :=
  mkSelect true true true true true true.

Definition selectNoActive : ProductSelect :=
  mkSelect true true true true true false.

Definition getCart (req : Request) : M Response :=
  let userId := user_userId req in
  found <- cart_findUnique_products selectWithActive userId ;;
  cart <- match found with
          | Some c => ret c
          | None => cart_create_products selectWithActive userId
          end ;;
  view <- cartView cart ;;
  ret (mkResponse 200 None view).

(** The tail shared by [addToCart], [updateCartItem] and [removeFromCart]:
    "Fetch updated cart", "Calculate totals", respond. *)
Definition respondUpdated (userId : Z) (status : Z) (msg : string)
  : M Response :=
  updatedCart <- cart_findUnique_products selectNoActive userId ;;
  match updatedCart with
  | None => throw (InternalError "Cannot read properties of null")
  | Some cart =>
      view <- cartView cart ;;
      ret (mkResponse status (Some msg) view)
  end.

Definition addToCart (req : Request) : M Response :=
  let userId := user_userId req in
  let quantity :=
    match body_quantity req with Some q => q | None => Js.Num 1 end in
  if userId <? 1 then throw (ValidationError "Invalid user ID") else
  match body_productId req with
  | None => prismaError "Argument where needs an id"
  | Some productId =>
  asInt productId (fun productId =>
  found <- product_findUnique_ productId ;;
  match found with
  | None => throw (NotFoundError "Product")
  | Some product =>
      if negb (p_isActive product)
      then throw (BadRequestError "Product is not available")
      else if p_stock product <? 1
      then throw (BadRequestError "Product is out of stock")
      else if Js.less (p_stock product) quantity
      then throw (BadRequestError
                    ("Only " ++ Js.show (p_stock product) ++ " items available"))
      else
        found <- cart_findUnique_items userId ;;
        cart <- match found with
                | Some c => ret c
                | None => cart_create_items userId
                end ;;
        match find (fun item => i_productId item =? productId) (snd cart) with
        | Some existingItem =>
            let newQuantity := Js.plus (i_quantity existingItem) quantity in
            if Js.greater newQuantity (p_stock product)
            then throw (BadRequestError
                          ("Cannot add " ++ Js.text quantity ++ " more. Only "
                           ++ Js.show (p_stock product - i_quantity existingItem)
                           ++ " available"))
            else asInt newQuantity (fun newQuantity =>
                   cartItem_update_ (i_id existingItem) (Some newQuantity))
        | None =>
            asInt quantity (cartItem_create_ (c_id (fst cart)) productId)
        end ;;
        respondUpdated userId 201 "Item added to cart"
  end)
  end.

(** [if (isNaN(id) || id < 1) throw new ValidationError(msg)]. *)
Definition requireId (id : option Z) (msg : string) : M Z :=
  match id with
  | None => throw (ValidationError msg)
  | Some n => if n <? 1 then throw (ValidationError msg) else ret n
  end.

(** Comparisons with an [undefined] operand are false. *)
Definition gtNum (q : option Js.value) (n : Z) : bool :=
  match q with Some q => Js.greater q n | None => false end.

Definition ltNum (q : option Js.value) (n : Z) : bool :=
  match q with Some q => Js.below q n | None => false end.

(** [cartItem.update({ where: { id }, data: { quantity } })]. *)
Definition setTo (id : Z) (quantity : option Js.value) : M unit :=
  match quantity with
  | Some quantity => asInt quantity (fun q => cartItem_update_ id (Some q))
  | None => cartItem_update_ id None
  end.

Definition updateCartItem (req : Request) : M Response :=
  let quantity := body_quantity req in
  userId <- requireId (Js.parseInt (params_userId req)) "Invalid user ID" ;;
  productId <- requireId (Js.parseInt (params_productId req))
                 "Invalid product ID" ;;
  found <- cart_findUnique_items userId ;;
  match found with
  | None => throw (NotFoundError "Cart")
  | Some cart =>
      match find (fun item => i_productId item =? productId) (snd cart) with
      | None => throw (NotFoundError "Cart item")
      | Some cartItem =>
          found <- product_findUnique_ productId ;;
          match found with
          | None => throw (NotFoundError "Product")
          | Some product =>
              if gtNum quantity (p_stock product)
              then throw (BadRequestError
                            ("Only " ++ Js.show (p_stock product)
                             ++ " items available"))
              else
                (if ltNum quantity 1
                 then cartItem_delete_ (i_id cartItem)
                 else setTo (i_id cartItem) quantity) ;;
                respondUpdated userId 200 "Cart updated"
          end
      end
  end.

Definition removeFromCart (req : Request) : M Response :=
  userId <- requireId (Js.parseInt (params_userId req)) "Invalid user ID" ;;
  productId <- requireId (Js.parseInt (params_productId req))
                 "Invalid product ID" ;;
  found <- cart_findUnique_items userId ;;
  match found with
  | None => throw (NotFoundError "Cart")
  | Some cart =>
      match find (fun item => i_productId item =? productId) (snd cart) with
      | None => throw (NotFoundError "Cart item")
      | Some cartItem =>
          cartItem_delete_ (i_id cartItem) ;;
          respondUpdated userId 200 "Item removed from cart"
      end
  end.

Definition clearCart (req : Request) : M Response :=
  userId <- requireId (Js.parseInt (params_userId req)) "Invalid user ID" ;;
  found <- cart_findUnique_plain userId ;;
  match found with
  | None => throw (NotFoundError "Cart")
  | Some cart =>
      cartItem_deleteMany_ (c_id cart) ;;
      emptyCart <- cart_findUnique_items userId ;;
      ret (mkResponse 200 (Some "Cart cleared")
             (mkView (option_map fst emptyCart) [] 0 (Js.ofZ 0)))
  end.

(* ================================================================== *)
(** ** [middleware/validators.js] *)
(* ================================================================== *)

(** A field of the JSON body: absent, a number with an integer value, a
    string, an array, or another value.  express-validator checks an array
    element by element, so that [[5]] passes where "5" does: [Listed] gives
    an array by the text JavaScript converts it to and by whether the chain
    of its field lets it pass.  [NotAnInteger] stands for the values no
    chain here accepts: a number with a fraction, [true], [false], [null],
    an object. *)
Inductive BodyValue : Type :=
| Missing
| IntegerNumber (z : Z)
| Text (s : string)
| Listed (text : string) (passes : bool)
| NotAnInteger.

(** Text that spells an integer, [/^[-+]?[0-9]+$/], and the integer. *)
Definition integerText (s : string) : option Z :=
  let '(neg, u) := Js.stripSign s in
  match Js.digits 10 u 0 0 with
  | (n, count, EmptyString) =>
      if 0 <? count then Some (if neg then - n else n) else None
  | _ => None
  end.

Definition within (min max : option Z) (z : Z) : bool :=
  match min with Some lo => lo <=? z | None => true end
  && match max with Some hi => z <=? hi | None => true end.

(** [isInt({ min, max })] of express-validator; [None] is no bound.  The
    check is made on the text of the value: a number from 10^21 on is
    written with an exponent and refused, and a string that spells an
    integer passes as the number does (there is no [toInt()]: the handler
    receives the string).  The bounds are compared with the number the
    text converts to, which lies on the same side of the bounds used here,
    1 and 100, as the integer spelled. *)
Definition isInt (min max : option Z) (v : BodyValue) : bool :=
  match v with
  | IntegerNumber z => (Z.abs z <? 10 ^ 21) && within min max z
  | Text s =>
      match integerText s with
      | Some z => within min max z
      | None => false
      end
  | Listed _ passes => passes
  | Missing | NotAnInteger => false
  end.

(** One link of a validation chain: the check and its [withMessage]. *)
Definition check (ok : bool) (msg : string) : list string :=
  if ok then [] else [msg].

(** [validate]: throw the messages joined by ", ", or go on. *)
Definition validate (errors : list string) : M unit :=
  match errors with
  | [] => ret tt
  | _ => throw (ValidationError (String.concat ", " errors))
  end.

Definition validateCartItem (productId quantity : BodyValue) : M unit :=
  validate
    (check (isInt (Some 1) None productId)
       "Product ID must be a positive integer"
     ++ check (isInt (Some 1) (Some 100) quantity)
          "Quantity must be between 1 and 100").

Definition validateQuantityUpdate (quantity : BodyValue) : M unit :=
  validate
    (check (isInt (Some 1) (Some 100) quantity)
       "Quantity must be between 1 and 100").

(* ================================================================== *)
(** ** [middleware/auth.js] and [routes/cart.js] *)
(* ================================================================== *)

Inductive Route : Type :=
| GET_cart                          (* GET    /            *)
| POST_items                        (* POST   /items       *)
| PUT_item (productId : string)     (* PUT    /items/:productId *)
| DELETE_item (productId : string)  (* DELETE /items/:productId *)
| DELETE_cart                       (* DELETE /            *).

Record HttpRequest : Type := mkHttp {
  h_authorization : option string;  (* req.headers.authorization *)
  h_route : Route;
  h_productId : BodyValue;          (* req.body.productId *)
  h_quantity : BodyValue            (* req.body.quantity *)
}.

(** The field as the handler reads it.  A value that no chain accepts
    never reaches a handler that reads the field. *)
Definition asValue (v : BodyValue) : option Js.value :=
  match v with
  | IntegerNumber z => Some (Js.Num z)
  | Text s | Listed s _ => Some (Js.Str s)
  | Missing | NotAnInteger => None
  end.

Section Router.

(** [verifyToken] of [utils/jwt.js]: the [userId] claim of a token that
    verifies, or the message of the error it throws. *)
Variable verifyToken : string -> string + Z.

(** [authenticate]: the [userId] it attaches as [req.user.userId]. *)
Definition authenticate (h : HttpRequest) : M Z :=
  match h_authorization h with
  | None | Some EmptyString =>
      throw (UnauthorizedError "No authorization token provided")
  | Some authHeader =>
      if negb (String.prefix "Bearer " authHeader)
      then throw (UnauthorizedError
                    "Invalid authorization format. Use: Bearer <token>")
      else
        let token :=
          String.substring 7 (String.length authHeader - 7) authHeader in
        match token with
        | EmptyString => throw (UnauthorizedError "No token provided")
        | _ =>
            match verifyToken token with
            | inl msg => throw (UnauthorizedError msg)
            | inr decoded =>
                user <- user_findUnique_ decoded ;;
                match user with
                | None => throw (UnauthorizedError "User no longer exists")
                | Some user =>
                    if negb (u_isActive user)
                    then throw (UnauthorizedError "Account is deactivated")
                    else ret (u_id user)
                end
            end
        end
  end.

(** The request object a cart handler receives behind the router: no route
    has a [:userId] segment, so [req.params.userId] is [undefined]. *)
Definition handlerRequest (userId : Z) (h : HttpRequest) : Request :=
  mkRequest userId None
    (match h_route h with
     | PUT_item p | DELETE_item p => Some p
     | _ => None
     end)
    (asValue (h_productId h))
    (asValue (h_quantity h)).

(** [router.use(authenticate)] and the five routes. *)
Definition cartRouter (h : HttpRequest) : M Response :=
  userId <- authenticate h ;;
  let req := handlerRequest userId h in
  match h_route h with
  | GET_cart => getCart req
  | POST_items =>
      validateCartItem (h_productId h) (h_quantity h) ;; addToCart req
  | PUT_item _ => validateQuantityUpdate (h_quantity h) ;; updateCartItem req
  | DELETE_item _ => removeFromCart req
  | DELETE_cart => clearCart req
  end.

End Router.

(* ================================================================== *)
(** ** Sequential executions *)
(* ================================================================== *)

Inductive Handler : Type :=
| HGetCart | HAddToCart | HUpdateCartItem | HRemoveFromCart | HClearCart.

Definition handle (h : Handler) : Request -> M Response :=
  match h with
  | HGetCart => getCart
  | HAddToCart => addToCart
  | HUpdateCartItem => updateCartItem
  | HRemoveFromCart => removeFromCart
  | HClearCart => clearCart
  end.

(** What happens between two observations of the database: a handler runs
    to completion on a request, or the catalogue is edited (products are
    created, repriced, restocked, deactivated) by the product routes. *)
Inductive Event : Type :=
| Handle (h : Handler) (req : Request)
| Catalogue (ps : list Product).

Definition withProducts (s : Store) (ps : list Product) : Store :=
  mkStore (users s) ps (carts s) (cartItems s) (nextCartId s) (nextItemId s).

Definition step (e : Event) (w : World) : World :=
  match e with
  | Handle h req => snd (handle h req w)
  | Catalogue ps => mkWorld (withProducts (db w) ps) (calls w)
  end.

Definition run (es : list Event) (w : World) : World :=
  fold_left (fun w e => step e w) es w.

(** The store writes a handler can make, each with the guard under which
    the code reaches it. *)
Inductive Effect : Store -> Store -> Prop :=
| eff_none s : Effect s s
| eff_newCart s userId :
    findCart userId s = None -> Effect s (snd (insertCart userId s))
| eff_insert s cartId productId q p :
    findProduct productId s = Some p -> q <= p_stock p ->
    find (fun i => i_productId i =? productId) (itemsOf cartId s) = None ->
    Effect s (insertItem cartId productId q s)
| eff_update s e q p :
    In e (cartItems s) ->
    findProduct (i_productId e) s = Some p -> q <= p_stock p ->
    Effect s (updateItem (i_id e) q s)
| eff_delete s id : Effect s (deleteItem id s)
| eff_deleteMany s cartId : Effect s (deleteItemsOf cartId s)
| eff_seq s1 s2 s3 : Effect s1 s2 -> Effect s2 s3 -> Effect s1 s3.

(* ================================================================== *)
(** ** Predicates of the specification *)
(* ================================================================== *)

(** Primary keys of [CartItem]: distinct, and below the counter. *)
Definition ItemKeys (s : Store) : Prop :=
  NoDup (map i_id (cartItems s))
  /\ Forall (fun i => i_id i < nextItemId s) (cartItems s).

(** No two items of cart [cartId] share a product. *)
Definition UniqueProducts (cartId : Z) (s : Store) : Prop :=
  NoDup (map i_productId (itemsOf cartId s)).

(** Every item refers to a product of the catalogue (the foreign key of
    the schema; products are only ever deactivated, never removed). *)
Definition Referential (s : Store) : Prop :=
  forall i, In i (cartItems s) -> findProduct (i_productId i) s <> None.

Definition stockOf (s : Store) (productId : Z) : option Z :=
  option_map p_stock (findProduct productId s).

(** *** The stock read at a row's last write

    Beside the store we keep, for every item row, the stock its product had
    when the row was last written: a row that an event leaves as it was
    keeps its figure, a row that is new or changed takes the product's
    stock at that event. *)
Definition Bounds : Type := list (Z * Z).

Definition boundOf (g : Bounds) (id : Z) : option Z :=
  option_map snd (find (fun b => fst b =? id) g).

Definition sameRow (i j : CartItem) : bool :=
  (i_id i =? i_id j) && (i_cartId i =? i_cartId j)
  && (i_productId i =? i_productId j) && (i_quantity i =? i_quantity j).

Definition stampRow (before : list CartItem) (after : Store) (g : Bounds)
  (i : CartItem) : option Z :=
  if existsb (sameRow i) before
  then boundOf g (i_id i)
  else stockOf after (i_productId i).

Definition stamp (before after : Store) (g : Bounds) : Bounds :=
  flat_map (fun i => match stampRow (cartItems before) after g i with
                     | Some b => [(i_id i, b)]
                     | None => []
                     end)
    (cartItems after).

Definition stepStamped (e : Event) (wg : World * Bounds) : World * Bounds :=
  let w' := step e (fst wg) in
  (w', stamp (db (fst wg)) (db w') (snd wg)).

Definition runStamped (es : list Event) (wg : World * Bounds)
  : World * Bounds :=
  fold_left (fun wg e => stepStamped e wg) es wg.


(** Every item is within the current stock of its product. *)
Definition WithinStock (s : Store) : Prop :=
  forall i, In i (cartItems s) ->
    exists p, findProduct (i_productId i) s = Some p
              /\ i_quantity i <= p_stock p.

Definition isHandle (e : Event) : bool :=
  match e with Handle _ _ => true | Catalogue _ => false end.

(** *** Totals as the specification words them *)


(** [price * quantity] of one item at the current price of its product. *)
Definition subtotalIn (s : Store) (i : CartItem) : Js.number :=
  match findProduct (i_productId i) s with
  | Some p => Js.mul (Js.Number (p_price p)) (Js.ofZ (i_quantity i))
  | None => Js.NaN
  end.





(** The world after further reads. *)
Definition logged (w : World) (cs : list Call) : World :=
  mkWorld (db w) (calls w ++ cs).

(** The [cart] object built from a cart row and its enriched items. *)
Definition viewOf (cart : Cart) (items : list EnrichedItem) : CartView :=
  mkView (Some cart) items (totalItemsOf items) (round2 (totalPriceOf items)).

(** [v] is the view of [owner]'s cart computed from the store [s]. *)
Definition ViewFrom (sel : ProductSelect) (s : Store) (owner : Z)
  (v : CartView) : Prop :=
  exists cart items,
    findCart owner s = Some cart
    /\ enrichAll (snd (joinProducts sel cart s)) = Ok items
    /\ v = viewOf cart items.

(** [n] is [100 * x] rounded half up, for [x = m * 2^e]:
    [n - 1/2 <= 100 * x < n + 1/2], scaled to integers. *)
Definition HalfUp (m : positive) (e n : Z) : Prop :=
  let k := Z.max 0 (- e) in
  (2 * n - 1) * 2 ^ k <= 200 * (Zpos m * 2 ^ Z.max 0 e) < (2 * n + 1) * 2 ^ k.

(** A row was written within the stock of its product, or not at all. *)
Definition Fresh (s s' : Store) : Prop :=
  forall i, In i (cartItems s') ->
    In i (cartItems s)
    \/ exists p, findProduct (i_productId i) s' = Some p
                 /\ i_quantity i <= p_stock p.

(** The message that reports what may still be added. *)
Definition remainingMessage (q stock existing : Z) : string :=
  "Cannot add " ++ Js.show q ++ " more. Only " ++ Js.show (stock - existing)
  ++ " available".

(** The message that reports the stock itself. *)
Definition stockMessage (stock : Z) : string :=
  "Only " ++ Js.show stock ++ " items available".


(** The keys of a product object in a view: [id], [title], [thumbnail] and
    [stock] are there, [price] is there as a plain number, and [isActive]
    is there exactly when [withActive]. *)
Definition HasFields (withActive : bool) (o : ProductObject) : Prop :=
  o_id o <> None /\ o_title o <> None
  /\ (exists x, o_price o = Some (PriceNumber x))
  /\ o_thumbnail o <> None /\ o_stock o <> None
  /\ (withActive = false -> o_isActive o = None)
  /\ (withActive = true -> o_isActive o <> None).

(** Which handler asks for [isActive] in its [select]. *)
Definition selectsActive (h : Handler) : bool :=
  match h with HGetCart => true | _ => false end.

(** The request [req] under another authenticated identity. *)
Definition withUser (req : Request) (user : Z) : Request :=
  mkRequest user (params_userId req) (params_productId req)
    (body_productId req) (body_quantity req).

(** The request [req] with another [params.userId]. *)
Definition withParamUserId (req : Request) (userId : option string)
  : Request :=
  mkRequest (user_userId req) userId (params_productId req)
    (body_productId req) (body_quantity req).

(** The calls a handler issued: those recorded after it started. *)
Definition issued (before after : World) : list Call :=
  skipn (List.length (calls before)) (calls after).

(** How one request may change the item rows: a row is as before, or it is
    new with a quantity from 1 to 100, or it is an earlier row whose
    quantity grew by 1 to 100. *)
Definition ChangedWithinCap (before after : list CartItem) : Prop :=
  forall i, In i after ->
    In i before
    \/ (~ In (i_id i) (map i_id before) /\ 1 <= i_quantity i <= 100)
    \/ exists old, In old before /\ i_id old = i_id i
                   /\ i_quantity old < i_quantity i <= i_quantity old + 100.

(** The item rows after [addToCart] asked for [q]: as before, or one row
    appended with quantity [q], or the quantity of one row raised by [q]. *)
Definition AddedOrRaised (q : Z) (s : Store) (l' : list CartItem) : Prop :=
  l' = cartItems s
  \/ (exists cartId productId,
        l' = (cartItems s ++ [mkItem (nextItemId s) cartId productId q])%list)
  \/ (exists e, In e (cartItems s)
                /\ l' = setQuantity (i_id e) (i_quantity e + q) (cartItems s)).

(* ================================================================== *)
(** ** Sample data *)
(* ================================================================== *)

Definition lamp : Product :=
  mkProduct 7 "Lamp" (Js.mkDecimal 1000 2) "lamp.png" 5 true.

Definition store0 : Store :=
  mkStore [mkUser 1 true; mkUser 2 true] [lamp] [] [] 1 1.

Definition world0 : World := mkWorld store0 [].

(** A request as [getCart] and [addToCart] read it. *)
Definition bodyRequest (user productId quantity : Z) : Request :=
  mkRequest user None None (Some productId) (Some quantity).

(** A request as the handlers that read [req.params] expect it. *)
Definition paramRequest (user : Z) (userId productId : string)
  (quantity : option Js.value) : Request :=
  mkRequest user (Some userId) (Some productId) None quantity.

(** The catalogue after the lamp's stock is set to [stock]. *)
Definition restocked (stock : Z) : list Product :=
  [mkProduct 7 "Lamp" (Js.mkDecimal 1000 2) "lamp.png" stock true].

(** Three units added, the stock cut from 5 to 4, a fourth unit added, an
    update to 2 after the stock fell to 2, then an update to 9 that is
    refused. *)
Definition stockHistory : list Event :=
  [ Handle HAddToCart (bodyRequest 1 7 3);
    Catalogue (restocked 4);
    Handle HAddToCart (bodyRequest 1 7 1);
    Catalogue (restocked 2);
    Handle HUpdateCartItem (paramRequest 1 "1" "7" (Some 2));
    Handle HUpdateCartItem (paramRequest 1 "1" "7" (Some 9)) ].

(** The same product added three times, with a read in between. *)
Definition mergeHistory : list Event :=
  [ Handle HAddToCart (bodyRequest 1 7 2);
    Handle HAddToCart (bodyRequest 1 7 1);
    Handle HGetCart (bodyRequest 1 7 1);
    Handle HAddToCart (bodyRequest 1 7 2) ].

(** Stock 5, three units of product 7 already in the cart of user 1. *)
Definition worldWith3 : World := snd (addToCart (bodyRequest 1 7 3) world0).

(** Five units of product 7 in the cart of user 1. *)
Definition worldWith5 : World := snd (addToCart (bodyRequest 1 7 2) worldWith3).

(** The same cart after the lamp is repriced to 12.50. *)
Definition worldRepriced : World :=
  step (Catalogue [mkProduct 7 "Lamp" (Js.mkDecimal 1250 2) "lamp.png" 5 true])
    worldWith5.

(** Two products at 0.004 each, one unit of each in the cart of user 1. *)
Definition worldOfMills : World :=
  mkWorld
    (mkStore [mkUser 1 true]
       [mkProduct 1 "Nut" (Js.mkDecimal 4 3) "nut.png" 9 true;
        mkProduct 2 "Bolt" (Js.mkDecimal 4 3) "bolt.png" 9 true]
       [mkCart 1 1] [mkItem 1 1 1 1; mkItem 2 1 2 1] 2 3)
    [].



(** The lamp deactivated (soft-deleted) with ten in stock, while the cart of
    user 1 still holds three. *)
Definition worldInactive : World :=
  step (Catalogue [mkProduct 7 "Lamp" (Js.mkDecimal 1000 2) "lamp.png" 10 false])
    worldWith3.

(** User 1 holds three lamps, user 2 holds one. *)
Definition worldTwoCarts : World :=
  snd (addToCart (bodyRequest 2 7 1) worldWith3).

(** Every token verifies as user 1. *)
Definition tokenOfUser1 (token : string) : string + Z := inr 1.

(** 500 lamps in stock, 100 of them in the cart of user 1. *)
Definition worldWith100 : World :=
  mkWorld
    (mkStore [mkUser 1 true]
       [mkProduct 7 "Lamp" (Js.mkDecimal 1000 2) "lamp.png" 500 true]
       [mkCart 1 1] [mkItem 1 1 7 100] 2 2)
    [].

(** [POST /items] with a bearer token. *)
Definition postItems (productId quantity : BodyValue) : HttpRequest :=
  mkHttp (Some "Bearer t") POST_items productId quantity.

(** [PUT /items/:productId] with a bearer token. *)
Definition putItem (productId : string) (quantity : BodyValue) : HttpRequest :=
  mkHttp (Some "Bearer t") (PUT_item productId) Missing quantity.

(** U+00A0, a no-break space, followed by [s]. *)
Definition nbsp (s : string) : string :=
  String (ascii_of_nat 194) (String (ascii_of_nat 160) s).

(** [GET /] with a bearer token. *)
Definition getCartRoute : HttpRequest :=
  mkHttp (Some "Bearer t") GET_cart Missing Missing.

(** [DELETE /items/:productId] and [DELETE /] with a bearer token. *)
Definition deleteItemRoute (productId : string) : HttpRequest :=
  mkHttp (Some "Bearer t") (DELETE_item productId) Missing Missing.

Definition deleteCartRoute : HttpRequest :=
  mkHttp (Some "Bearer t") DELETE_cart Missing Missing.

(* ================================================================== *)
(** ** Further predicates on the handlers *)
(* ================================================================== *)

(** The id by which a handler selects the cart: the identity of the token
    in [getCart] and [addToCart], the route parameter in the others. *)
Definition ownerOf (h : Handler) (req : Request) : option Z :=
  match h with
  | HGetCart | HAddToCart => Some (user_userId req)
  | HUpdateCartItem | HRemoveFromCart | HClearCart =>
      Js.parseInt (params_userId req)
  end.

(** One write on the items of cart [cartId]. *)
Inductive ItemWrite (cartId : Z) (s : Store) : Store -> Prop :=
| iw_none : ItemWrite cartId s s
| iw_insert productId q :
    ItemWrite cartId s (insertItem cartId productId q s)
| iw_update e q :
    In e (cartItems s) -> i_cartId e = cartId ->
    ItemWrite cartId s (updateItem (i_id e) q s)
| iw_delete e :
    In e (cartItems s) -> i_cartId e = cartId ->
    ItemWrite cartId s (deleteItem (i_id e) s)
| iw_deleteMany : ItemWrite cartId s (deleteItemsOf cartId s).

(** What one run of a handler for [owner] does to the store: it may first
    create the cart of [owner], when there is none, and then makes at most
    one write, on the items of that owner's cart. *)
Definition RunShape (owner : option Z) (s s' : Store) : Prop :=
  exists s1,
    (s1 = s
     \/ exists u, owner = Some u /\ findCart u s = None
                  /\ s1 = snd (insertCart u s))
    /\ (s' = s1
        \/ exists u c, owner = Some u /\ findCart u s1 = Some c
                       /\ ItemWrite (c_id c) s1 s').

(** Keys of [Cart]: one cart per user, distinct ids below the counter. *)
Definition CartKeys (s : Store) : Prop :=
  NoDup (map c_userId (carts s))
  /\ NoDup (map c_id (carts s))
  /\ Forall (fun c => c_id c < nextCartId s) (carts s).

(** Catalogue edits that keep every product id (products are repriced,
    restocked, deactivated, added, never removed). *)
Definition keepsProducts (s : Store) (e : Event) : Prop :=
  match e with
  | Handle _ _ => True
  | Catalogue ps =>
      forall id, findProduct id s <> None ->
                 find (fun p => p_id p =? id) ps <> None
  end.

(** Every catalogue edit of the sequence keeps the product ids of the store
    it is applied to. *)
Fixpoint keepsAll (es : list Event) (w : World) : Prop :=
  match es with
  | [] => True
  | e :: rest => keepsProducts (db w) e /\ keepsAll rest (step e w)
  end.

(** The request [req] asking for another quantity. *)
Definition withQuantity (req : Request) (q : Z) : Request :=
  mkRequest (user_userId req) (params_userId req) (params_productId req)
    (body_productId req) (Some q).

(** The row [y] after [update({ where: { id }, data: { quantity: q } })]. *)
Definition bump (id q : Z) (y : CartItem) : CartItem :=
  if i_id y =? id
  then mkItem (i_id y) (i_cartId y) (i_productId y) q
  else y.

(** The cart [addToCart] and [getCart] work on, and the store it is in:
    the owner's cart, created when there is none. *)
Definition ensureCart (userId : Z) (s : Store) : Cart * Store :=
  match findCart userId s with
  | Some c => (c, s)
  | None => insertCart userId s
  end.

(** The write [addToCart] makes for [quantity] of [productId] with [stock]
    available, in the store [s] holding the cart [cartId]. *)
Definition addWrite (cartId productId quantity stock : Z) (s : Store) : Store :=
  match find (fun i => i_productId i =? productId) (itemsOf cartId s) with
  | Some e =>
      if i_quantity e + quantity >? stock then s
      else updateItem (i_id e) (i_quantity e + quantity) s
  | None => insertItem cartId productId quantity s
  end.

(** Requests served one after the other by the cart router. *)
Definition serve (verifyToken : string -> string + Z)
  (hs : list HttpRequest) (w : World) : World :=
  fold_left (fun w h => snd (cartRouter verifyToken h w)) hs w.

(** Every stored quantity is at least 1. *)
Definition PositiveQuantities (s : Store) : Prop :=
  Forall (fun i => 1 <= i_quantity i) (cartItems s).

(* ================================================================== *)
(** ** [controllers/productController.js] and
       [controllers/userController.js]: the admin writes the cart sees *)
(* ================================================================== *)

(** A write of an admin controller.  [Call] lists the client calls of the
    cart code: these writes change the database without an entry in the
    log. *)
Definition write (f : Store -> Store) : M unit :=
  fun w => (Ok tt, mkWorld (f (db w)) (calls w)).

Definition withUsers (s : Store) (us : list User) : Store :=
  mkStore us (products s) (carts s) (cartItems s) (nextCartId s) (nextItemId s).

(** [product.update({ where: { id }, data: { isActive } })]. *)
Definition setProductActive (id : Z) (b : bool) (ps : list Product)
  : list Product :=
  map (fun p => if p_id p =? id
                then mkProduct (p_id p) (p_title p) (p_price p)
                       (p_thumbnail p) (p_stock p) b
                else p) ps.

(** [user.update({ where: { id }, data: { isActive } })]. *)
Definition setUserActive (id : Z) (b : bool) (us : list User) : list User :=
  map (fun u => if u_id u =? id then mkUser (u_id u) b else u) us.

(** [deleteProduct]: the soft delete.  The id is not checked: [NaN] is
    refused by the client; the answer carries the id. *)
Definition deleteProduct (params_id : option string) : M Z :=
  match Js.parseInt params_id with
  | None => prismaError "Argument id must not be null"
  | Some id =>
      product <- product_findUnique_ id ;;
      match product with
      | None => throw (NotFoundError "Product")
      | Some _ =>
          write (fun s =>
                   withProducts s (setProductActive id false (products s))) ;;
          ret id
      end
  end.

(** [deactivateUser], called by the user [req.user.userId]; the answer
    carries the updated row. *)
Definition deactivateUser (params_id : option string) (user_userId : Z)
  : M User :=
  id <- requireId (Js.parseInt params_id) "Invalid user ID" ;;
  user <- user_findUnique_ id ;;
  match user with
  | None => throw (NotFoundError "User")
  | Some user =>
      if id =? user_userId
      then throw (BadRequestError "You cannot deactivate your own account")
      else
        write (fun s => withUsers s (setUserActive id false (users s))) ;;
        ret (mkUser (u_id user) false)
  end.

Definition activateUser (params_id : option string) : M User :=
  id <- requireId (Js.parseInt params_id) "Invalid user ID" ;;
  user <- user_findUnique_ id ;;
  match user with
  | None => throw (NotFoundError "User")
  | Some user =>
      write (fun s => withUsers s (setUserActive id true (users s))) ;;
      ret (mkUser (u_id user) true)
  end.

(** A request with a bearer token. *)
Definition withToken (token : string) (h : HttpRequest) : HttpRequest :=
  mkHttp (Some ("Bearer " ++ token)%string) (h_route h) (h_productId h)
    (h_quantity h).

(* ================================================================== *)
(** ** [middleware/authorize.js] *)
(* ================================================================== *)

Module Authorize.

(** [req.user] as [authenticate] leaves it, with the fields read here. *)
Record ReqUser : Type := mkReqUser { userId : Z; role : string }.

(** The JSON body of a refusal. *)
Record Body : Type := mkBody {
  b_status : string;
  b_message : string;
  b_requiredRole : option (string + list string);
  b_yourRole : option string
}.

(** What a middleware does: calls [next()], or answers. *)
Inductive Outcome : Type :=
| Next
| Json (status : Z) (body : Body).

Definition authenticationRequired : Outcome :=
  Json 401 (mkBody "error" "Authentication required" None None).

Definition includes (roles : list string) (r : string) : bool :=
  existsb (String.eqb r) roles.

Definition authorize (roles : list string) (user : option ReqUser) : Outcome :=
  match user with
  | None => authenticationRequired
  | Some u =>
      if negb (includes roles (role u))
      then Json 403
             (mkBody "error"
                "Forbidden: You do not have permission to perform this action"
                (Some match roles with
                      | [r] => inl r
                      | _ => inr roles
                      end)
                (Some (role u)))
      else Next
  end.

Section Ownership.

(** The request, and how [req.user] is read from it. *)
Variable Req : Type.
Variable user : Req -> option ReqUser.

Definition checkOwnership (ownershipCheck : Req -> bool) (req : Req)
  : Outcome :=
  match user req with
  | None => authenticationRequired
  | Some _ =>
      if negb (ownershipCheck req)
      then Json 403
             (mkBody "error"
                "Forbidden: You can only access your own resources" None None)
      else Next
  end.

Definition authorizeAdminOrOwner (ownershipCheck : Req -> bool) (req : Req)
  : Outcome :=
  match user req with
  | None => authenticationRequired
  | Some u =>
      if String.eqb (role u) "ADMIN" then Next
      else if ownershipCheck req then Next
      else Json 403
             (mkBody "error"
                "Forbidden: You can only manage your own resources" None None)
  end.

End Ownership.

End Authorize.

(* ================================================================== *)
(** ** [utils/password.js] *)
(* ================================================================== *)

Module Password.

(** A JavaScript string: its UTF-16 code units. *)
Definition JsString : Type := list N.

(** [/[lo-hi]/.test(s)]: some code unit is in the range. *)
Definition test (lo hi : N) (s : JsString) : bool :=
  existsb (fun c => (lo <=? c)%N && (c <=? hi)%N) s.

Record Strength : Type := mkStrength { isValid : bool; errors : list string }.

(** [password] is a string, or [None] for [undefined] and [null]. *)
Definition validatePasswordStrength (password : option JsString) : Strength :=
  let errors :=
    match password with
    | None | Some [] => ["Password is required"]
    | Some password =>
        ((if (List.length password <? 8)%nat
          then ["Password must be at least 8 characters"] else [])
         ++ (if negb (test 97 122 password)
             then ["Must contain lowercase letter"] else [])
         ++ (if negb (test 65 90 password)
             then ["Must contain uppercase letter"] else [])
         ++ (if negb (test 48 57 password)
             then ["Must contain number"] else []))%list
    end in
  mkStrength (List.length errors =? 0)%nat errors.

End Password.

(* ================================================================== *)
(** ** [controllers/jobController.js]: deleting a job posting *)
(* ================================================================== *)

Module Jobs.

(** A row of [jobPosting], with the columns [deleteJobPosting] reads and
    writes. *)
Record JobPosting : Type := mkJob {
  j_id : Z;
  j_recruiterId : Z;
  j_isActive : bool
}.

Definition ForbiddenError (msg : string) : AppError := mkError msg 403.

Definition findJob (id : Z) (jobs : list JobPosting) : option JobPosting :=
  find (fun j => j_id j =? id) jobs.

(** [jobPosting.update({ where: { id }, data: { isActive } })]. *)
Definition setJobActive (id : Z) (b : bool) (jobs : list JobPosting)
  : list JobPosting :=
  map (fun j => if j_id j =? id then mkJob (j_id j) (j_recruiterId j) b else j)
    jobs.

(** [deleteJobPosting], for [req.params.id] and [req.user]: the answer
    ([jobId]) or the error, and the table afterwards. *)
Definition deleteJobPosting (params_id : option string)
  (user : Authorize.ReqUser) (jobs : list JobPosting)
  : Result Z * list JobPosting :=
  let userId := Authorize.userId user in
  let userRole := Authorize.role user in
  match Js.parseInt params_id with
  | None => (Throw (ValidationError "Invalid job ID"), jobs)
  | Some id =>
      if id <? 1 then (Throw (ValidationError "Invalid job ID"), jobs)
      else
        match findJob id jobs with
        | None => (Throw (NotFoundError "Job posting"), jobs)
        | Some job =>
            if negb (j_recruiterId job =? userId)
               && negb (String.eqb userRole "ADMIN")
            then (Throw (ForbiddenError
                           "You can only delete your own job postings"),
                  jobs)
            else (Ok id, setJobActive id false jobs)
        end
  end.

(** What [DELETE /api/jobs/:id] does once [authenticate] has set
    [req.user]: the answer of [authorize("RECRUITER", "ADMIN")], or the
    handler's. *)
Inductive Answer : Type :=
| Refused (status : Z) (body : Authorize.Body)
| Handled (result : Result Z).

Definition deleteJobRoute (params_id : option string)
  (user : option Authorize.ReqUser) (jobs : list JobPosting)
  : Answer * list JobPosting :=
  match Authorize.authorize ["RECRUITER"; "ADMIN"] user, user with
  | Authorize.Json status body, _ => (Refused status body, jobs)
  | Authorize.Next, Some u =>
      let '(result, jobs') := deleteJobPosting params_id u jobs in
      (Handled result, jobs')
  | Authorize.Next, None =>
      (Handled (Throw (InternalError "Cannot read properties of undefined")),
       jobs)
  end.

End Jobs.

(* ================================================================== *)
(** ** [controllers/reviewController.js] *)
(* ================================================================== *)

Module Reviews.

(** Rows of [review] and of [product], with the columns the review code
    reads and writes.  A rating in a request body is a JSON integer or
    absent ([None] for [undefined]); the rating of a product is the number
    last written by [product.update]. *)
Record Review : Type := mkReview {
  r_id : Z;
  r_productId : Z;
  r_userId : Z;
  r_rating : Z;
  r_comment : option string
}.

Record ProductRow : Type := mkProductRow {
  pr_id : Z;
  pr_isActive : bool;
  pr_rating : Js.number
}.

Record Db : Type := mkDb {
  d_products : list ProductRow;
  d_reviews : list Review;
  d_nextId : Z
}.

Definition ForbiddenError (msg : string) : AppError := mkError msg 403.

Definition findProduct (id : Z) (d : Db) : option ProductRow :=
  find (fun p => pr_id p =? id) (d_products d).

Definition findReview (id : Z) (d : Db) : option Review :=
  find (fun r => r_id r =? id) (d_reviews d).

(** [review.findFirst({ where: { productId, userId } })]. *)
Definition findFirst (productId userId : Z) (d : Db) : option Review :=
  find (fun r => (r_productId r =? productId) && (r_userId r =? userId))
    (d_reviews d).

(** [review.findMany({ where: { productId } })]. *)
Definition reviewsOf (productId : Z) (d : Db) : list Review :=
  filter (fun r => r_productId r =? productId) (d_reviews d).

Definition withReviews (d : Db) (l : list Review) : Db :=
  mkDb (d_products d) l (d_nextId d).

Definition insertReview (r : Review) (d : Db) : Db :=
  mkDb (d_products d) (d_reviews d ++ [r]) (d_nextId d + 1).

(** [allReviews.reduce((sum, r) => sum + r.rating, 0) / allReviews.length]. *)
Definition div : Js.number -> Js.number -> Js.number := SFdiv Js.prec Js.emax.

Definition sumRatings (l : list Review) : Js.number :=
  fold_left (fun sum r => Js.add sum (Js.ofZ (r_rating r))) l (Js.ofZ 0).

Definition average (l : list Review) : Js.number :=
  div (sumRatings l) (Js.ofZ (Z.of_nat (List.length l))).

(** [product.update({ where: { id }, data: { rating } })]: throws when the
    row is gone. *)
Definition updateRating (id : Z) (rating : Js.number) (d : Db)
  : Result unit * Db :=
  if existsb (fun p => pr_id p =? id) (d_products d)
  then (Ok tt,
        mkDb (map (fun p => if pr_id p =? id
                            then mkProductRow (pr_id p) (pr_isActive p) rating
                            else p) (d_products d))
          (d_reviews d) (d_nextId d))
  else (Throw (InternalError "Record to update not found"), d).

(** [{ rating, comment } = req.body]; a comment is absent, [null] or a
    string. *)
Record Body : Type := mkBody {
  rating : option Z;
  comment : option (option string)
}.

(** [comment || null]. *)
Definition commentOrNull (c : option (option string)) : option string :=
  match c with
  | Some (Some EmptyString) | Some None | None => None
  | Some (Some s) => Some s
  end.

Definition createReview (params_productId : option string)
  (user : Authorize.ReqUser) (body : Body) (d : Db) : Result Review * Db :=
  let userId := Authorize.userId user in
  match Js.parseInt params_productId with
  | None => (Throw (ValidationError "Invalid product ID"), d)
  | Some productId =>
  if productId <? 1 then (Throw (ValidationError "Invalid product ID"), d)
  else
  match rating body with
  | None => (Throw (ValidationError "Rating must be between 1 and 5"), d)
  | Some rating =>
  if (rating =? 0) || (rating <? 1) || (rating >? 5)
  then (Throw (ValidationError "Rating must be between 1 and 5"), d)
  else
  match findProduct productId d with
  | None => (Throw (NotFoundError "Product"), d)
  | Some product =>
  if negb (pr_isActive product)
  then (Throw (BadRequestError "Cannot review inactive product"), d)
  else
  match findFirst productId userId d with
  | Some _ =>
      (Throw (BadRequestError "You have already reviewed this product"), d)
  | None =>
      let review :=
        mkReview (d_nextId d) productId userId rating
          (commentOrNull (comment body)) in
      let d1 := insertReview review d in
      let allReviews := reviewsOf productId d1 in
      let avgRating := average allReviews in
      match updateRating productId avgRating d1 with
      | (Throw e, d2) => (Throw e, d2)
      | (Ok _, d2) => (Ok review, d2)
      end
  end
  end
  end
  end.

(** [review.update({ where: { id }, data: updateData })]. *)
Definition applyUpdate (body : Body) (r : Review) : Review :=
  mkReview (r_id r) (r_productId r) (r_userId r)
    (match rating body with Some x => x | None => r_rating r end)
    (match comment body with Some c => c | None => r_comment r end).

Definition updateReview (params_id : option string)
  (user : Authorize.ReqUser) (body : Body) (d : Db) : Result Review * Db :=
  let userId := Authorize.userId user in
  match Js.parseInt params_id with
  | None => (Throw (ValidationError "Invalid review ID"), d)
  | Some reviewId =>
  if reviewId <? 1 then (Throw (ValidationError "Invalid review ID"), d)
  else
  match findReview reviewId d with
  | None => (Throw (NotFoundError "Review"), d)
  | Some review =>
  if negb (r_userId review =? userId)
     && negb (String.eqb (Authorize.role user) "ADMIN")
  then (Throw (ForbiddenError "You can only update your own reviews"), d)
  else
  if match rating body with
     | Some rating => (rating <? 1) || (rating >? 5)
     | None => false
     end
  then (Throw (ValidationError "Rating must be between 1 and 5"), d)
  else
    let d1 :=
      withReviews d
        (map (fun r => if r_id r =? reviewId then applyUpdate body r else r)
           (d_reviews d)) in
    let updatedReview := applyUpdate body review in
    match rating body with
    | Some _ =>
        let allReviews := reviewsOf (r_productId review) d1 in
        let avgRating := average allReviews in
        match updateRating (r_productId review) avgRating d1 with
        | (Throw e, d2) => (Throw e, d2)
        | (Ok _, d2) => (Ok updatedReview, d2)
        end
    | None => (Ok updatedReview, d1)
    end
  end
  end.

Definition deleteReview (params_id : option string)
  (user : Authorize.ReqUser) (d : Db) : Result unit * Db :=
  let userId := Authorize.userId user in
  let userRole := Authorize.role user in
  match Js.parseInt params_id with
  | None => (Throw (ValidationError "Invalid review ID"), d)
  | Some reviewId =>
  if reviewId <? 1 then (Throw (ValidationError "Invalid review ID"), d)
  else
  match findReview reviewId d with
  | None => (Throw (NotFoundError "Review"), d)
  | Some review =>
  let isOwner := r_userId review =? userId in
  let isModerator := String.eqb userRole "MODERATOR" in
  let isAdmin := String.eqb userRole "ADMIN" in
  if negb isOwner && negb isModerator && negb isAdmin
  then (Throw (ForbiddenError
                 "You do not have permission to delete this review"), d)
  else
    let d1 :=
      withReviews d (filter (fun r => negb (r_id r =? reviewId)) (d_reviews d)) in
    let remainingReviews := reviewsOf (r_productId review) d1 in
    let avgRating :=
      if (0 <? List.length remainingReviews)%nat
      then average remainingReviews
      else Js.ofZ 0 in
    updateRating (r_productId review) avgRating d1
  end
  end.

(** The three writing routes of [routes/reviews.js], each request run
    after the one before. *)
Inductive Request : Type :=
| Create (params_productId : option string) (user : Authorize.ReqUser)
    (body : Body)
| Update (params_id : option string) (user : Authorize.ReqUser) (body : Body)
| Delete (params_id : option string) (user : Authorize.ReqUser).

Definition step (q : Request) (d : Db) : Db :=
  match q with
  | Create p u b => snd (createReview p u b d)
  | Update p u b => snd (updateReview p u b d)
  | Delete p u => snd (deleteReview p u d)
  end.

Definition run (qs : list Request) (d : Db) : Db :=
  fold_left (fun d q => step q d) qs d.

(** Review ids are distinct and below the counter. *)
Definition ReviewKeys (d : Db) : Prop :=
  NoDup (map r_id (d_reviews d))
  /\ Forall (fun r => r_id r < d_nextId d) (d_reviews d).

(** No user has two reviews of one product. *)
Definition OneReviewEach (d : Db) : Prop :=
  NoDup (map (fun r => (r_productId r, r_userId r)) (d_reviews d)).

Definition RatingsInRange (d : Db) : Prop :=
  Forall (fun r => 1 <= r_rating r <= 5) (d_reviews d).

(** The rating a product should show for its reviews [l]. *)
Definition displayed (l : list Review) : Js.number :=
  if (0 <? List.length l)%nat then average l else Js.ofZ 0.

(** Every product's rating is the average of its reviews. *)
Definition Synced (d : Db) : Prop :=
  forall p, In p (d_products d) ->
            pr_rating p = displayed (reviewsOf (pr_id p) d).

End Reviews.
(* ================================================================== *)
(** * Properties *)
(* ================================================================== *)

(* ------------------------------------------------------------------ *)
(** *** Reading numbers from text *)

(** [parseInt] drops leading white space, reads a sign, a hexadecimal
    prefix and the digits, stops at the first character that is no digit,
    and gives the nearest double. *)
Example parseInt_reads :
  map Js.parseInt
    [Some "42"; Some "  42px"; Some (nbsp "7"); Some "0x1F"; Some "-12.9";
     Some "+7"; Some "9007199254740993"; Some ""; Some "abc"; Some "-";
     None]
  = [Some 42; Some 42; Some 7; Some 31; Some (-12);
     Some 7; Some 9007199254740992; None; None; None;
     None].
Proof. reflexivity. Qed.

(** [ToNumber] reads the whole text or gives [NaN]. *)
Example toNumber_reads :
  map Js.toNumber
    ["5"; " +007 "; "1e3"; "0x10"; "12.5e-1"; ""; "1,2"; "abc"; "5px"]
  = [Js.ofZ 5; Js.ofZ 7; Js.ofZ 1000; Js.ofZ 16;
     Js.Number (Js.mkDecimal 125 2); Js.ofZ 0; Js.NaN; Js.NaN; Js.NaN].
Proof. reflexivity. Qed.

(** A string is compared as the number it converts to and added as text:
    with 100 in the cart, 100 + "5" is "1005". *)
Example values_compared_and_added :
  Js.less 5 (Js.Str "7") = true
  /\ Js.less 5 (Js.Str "abc") = false
  /\ Js.below (Js.Str "0") 1 = true
  /\ Js.plus 100 (Js.Str "5") = Js.Str "1005"
  /\ Js.greater (Js.plus 100 (Js.Str "5")) 500 = true
  /\ Js.plus 100 (Js.Num 5) = Js.Num 105.
Proof. repeat split; reflexivity. Qed.

(* ------------------------------------------------------------------ *)
(** *** Running the handlers *)

(** Reading the cart for the response leaves the database as it is. *)
Lemma respondUpdated_db (userId status : Z) (msg : string) (w : World) :
  db (snd (respondUpdated userId status msg w)) = db w.
Proof.
  unfold respondUpdated, bind, cart_findUnique_products, query, throw, ret.
  cbn. destruct (findCart userId (db w)) as [c|]; cbn; [|reflexivity].
  unfold cartView. destruct (enrichAll _); reflexivity.
Qed.

Lemma find_itemsOf_In (P : CartItem -> bool) (cartId : Z) (s : Store)
  (e : CartItem) :
  find P (itemsOf cartId s) = Some e ->
  In e (cartItems s) /\ i_cartId e = cartId /\ P e = true.
Proof.
  intros H. apply find_some in H. destruct H as [H1 H2].
  unfold itemsOf in H1. apply filter_In in H1. destruct H1 as [H1 H3].
  repeat split; auto. lia.
Qed.

Lemma In_hasItem (e : CartItem) (s : Store) :
  In e (cartItems s) -> hasItem (i_id e) s = true.
Proof.
  intros H. unfold hasItem. apply existsb_exists. exists e. split; auto. lia.
Qed.

Lemma requireId_run (id : option Z) (msg : string) (w : World) :
  (exists n, id = Some n /\ 1 <= n /\ requireId id msg w = (Ok n, w))
  \/ ((id = None \/ exists n, id = Some n /\ n < 1)
      /\ requireId id msg w = (Throw (ValidationError msg), w)).
Proof.
  unfold requireId. destruct id as [n|].
  - destruct (n <? 1) eqn:E.
    + right. split; [right; exists n; split; [reflexivity|lia]|reflexivity].
    + left. exists n. repeat split; auto. lia.
  - right. split; [left; reflexivity|reflexivity].
Qed.

(** The operations on values, at numbers. *)
Ltac numbers :=
  cbn [asInt setTo Js.less Js.plus Js.greater Js.below Js.text].

Ltac unfold_client :=
  unfold product_findUnique_, user_findUnique_, cart_findUnique_plain,
    cart_findUnique_items, cart_findUnique_products, cart_create_items,
    cart_create_products, cartItem_create_, cartItem_update_,
    cartItem_delete_, cartItem_deleteMany_, prismaError, refused, query,
    command, throw, ret in *.

Lemma addToCart_effect (req : Request) (w : World) :
  Effect (db w) (db (snd (addToCart req w))).
Proof.
  unfold addToCart.
  set (quantity := match body_quantity req with Some q => q | None => Js.Num 1 end).
  clearbody quantity.
  destruct (user_userId req <? 1); [apply eff_none|].
  destruct (body_productId req) as [[productId|t]|];
    [|apply eff_none|apply eff_none].
  cbn [asInt]. unfold bind at 1. unfold_client. cbn [db calls].
  destruct (findProduct productId (db w)) as [product|] eqn:Hp; [|apply eff_none].
  destruct (negb (p_isActive product)); [apply eff_none|].
  destruct (p_stock product <? 1); [apply eff_none|].
  destruct (Js.less (p_stock product) quantity) eqn:Hq; [apply eff_none|].
  unfold bind. cbn [db calls].
  destruct (findCart (user_userId req) (db w)) as [c|] eqn:Hc;
    cbn [option_map fst snd db calls joinItems insertCart].
  - destruct (find _ (itemsOf (c_id c) (db w))) as [e|] eqn:He.
    + destruct (Js.greater _ _) eqn:Hn; [apply eff_none|].
      destruct quantity as [q|t]; cbn [Js.plus asInt Js.less Js.greater] in *;
        [|apply eff_none].
      apply find_itemsOf_In in He. destruct He as (Hin & Hcid & Hpid).
      cbn [db calls]. rewrite (In_hasItem _ _ Hin). cbn [db calls snd].
      rewrite respondUpdated_db. cbn [db].
      apply eff_update with (p := product); auto.
      * replace (i_productId e) with productId by lia. exact Hp.
      * lia.
    + destruct quantity as [q|t]; cbn [asInt Js.less] in *; [|apply eff_none].
      cbn [db snd]. rewrite respondUpdated_db. cbn [db].
      apply eff_insert with (p := product); auto. lia.
  - set (s1 := snd (insertCart (user_userId req) (db w))).
    assert (E1 : Effect (db w) s1) by (apply eff_newCart; exact Hc).
    change (mkStore (users (db w)) (products (db w))
              (carts (db w) ++ [mkCart (nextCartId (db w)) (user_userId req)])
              (cartItems (db w)) (nextCartId (db w) + 1) (nextItemId (db w)))
      with s1.
    cbn [c_id]. destruct (find _ (itemsOf (nextCartId (db w)) s1)) as [e|] eqn:He.
    + destruct (Js.greater _ _) eqn:Hn; [exact E1|].
      destruct quantity as [q|t]; cbn [Js.plus asInt Js.less Js.greater] in *;
        [|exact E1].
      apply find_itemsOf_In in He. destruct He as (Hin & Hcid & Hpid).
      cbn [db calls]. rewrite (In_hasItem _ _ Hin). cbn [db calls snd].
      rewrite respondUpdated_db. cbn [db].
      apply eff_seq with (s2 := s1); [exact E1|].
      apply eff_update with (p := product); auto.
      * replace (i_productId e) with productId by lia. exact Hp.
      * lia.
    + destruct quantity as [q|t]; cbn [asInt Js.less] in *; [|exact E1].
      cbn [db snd]. rewrite respondUpdated_db. cbn [db].
      apply eff_seq with (s2 := s1); [exact E1|].
      apply eff_insert with (p := product); auto. lia.
Qed.

Lemma getCart_effect (req : Request) (w : World) :
  Effect (db w) (db (snd (getCart req w))).
Proof.
  unfold getCart, bind. unfold_client. cbn [db calls].
  destruct (findCart (user_userId req) (db w)) as [c|] eqn:Hc;
    cbn [option_map fst snd db calls insertCart].
  - unfold cartView. destruct (enrichAll _); cbn; apply eff_none.
  - unfold cartView. destruct (enrichAll _); cbn;
      apply (eff_newCart _ _ Hc).
Qed.

Lemma updateCartItem_effect (req : Request) (w : World) :
  Effect (db w) (db (snd (updateCartItem req w))).
Proof.
  unfold updateCartItem. unfold bind at 1.
  destruct (requireId_run (Js.parseInt (params_userId req)) "Invalid user ID" w)
    as [(userId & _ & _ & ->)|[_ ->]]; [|apply eff_none].
  unfold bind at 1.
  destruct (requireId_run (Js.parseInt (params_productId req)) "Invalid product ID" w)
    as [(productId & _ & _ & ->)|[_ ->]]; [|apply eff_none].
  unfold bind at 1. unfold_client. cbn [db calls].
  destruct (findCart userId (db w)) as [c|] eqn:Hc;
    cbn [option_map fst snd joinItems]; [|apply eff_none].
  destruct (find _ (itemsOf (c_id c) (db w))) as [e|] eqn:He; [|apply eff_none].
  apply find_itemsOf_In in He. destruct He as (Hin & Hcid & Hpid).
  unfold bind at 1. cbn [db calls].
  destruct (findProduct productId (db w)) as [product|] eqn:Hp; [|apply eff_none].
  destruct (gtNum _ _) eqn:Hgt; [apply eff_none|].
  unfold bind.
  destruct (ltNum _ _) eqn:Hlt.
  - cbn [db calls]. rewrite (In_hasItem _ _ Hin).
    cbn [db calls snd]. rewrite respondUpdated_db. cbn [db].
    apply eff_delete.
  - destruct (body_quantity req) as [[q|t]|]; cbn [setTo asInt];
      unfold_client; cbn [db calls]; [|apply eff_none|].
    + rewrite (In_hasItem _ _ Hin).
      cbn [db calls snd]. rewrite respondUpdated_db. cbn [db].
      apply eff_update with (p := product); auto.
      * replace (i_productId e) with productId by lia. exact Hp.
      * cbn in Hgt. lia.
    + rewrite (In_hasItem _ _ Hin).
      cbn [db calls snd]. rewrite respondUpdated_db. cbn [db].
      apply eff_none.
Qed.

Lemma removeFromCart_effect (req : Request) (w : World) :
  Effect (db w) (db (snd (removeFromCart req w))).
Proof.
  unfold removeFromCart. unfold bind at 1.
  destruct (requireId_run (Js.parseInt (params_userId req)) "Invalid user ID" w)
    as [(userId & _ & _ & ->)|[_ ->]]; [|apply eff_none].
  unfold bind at 1.
  destruct (requireId_run (Js.parseInt (params_productId req)) "Invalid product ID" w)
    as [(productId & _ & _ & ->)|[_ ->]]; [|apply eff_none].
  unfold bind at 1. unfold_client. cbn [db calls].
  destruct (findCart userId (db w)) as [c|] eqn:Hc;
    cbn [option_map fst snd joinItems]; [|apply eff_none].
  destruct (find _ (itemsOf (c_id c) (db w))) as [e|] eqn:He; [|apply eff_none].
  apply find_itemsOf_In in He. destruct He as (Hin & Hcid & Hpid).
  unfold bind. cbn [db calls]. rewrite (In_hasItem _ _ Hin). cbn [db calls snd].
  rewrite respondUpdated_db. apply eff_delete.
Qed.

Lemma clearCart_effect (req : Request) (w : World) :
  Effect (db w) (db (snd (clearCart req w))).
Proof.
  unfold clearCart. unfold bind at 1.
  destruct (requireId_run (Js.parseInt (params_userId req)) "Invalid user ID" w)
    as [(userId & _ & _ & ->)|[_ ->]]; [|apply eff_none].
  unfold bind. unfold_client. cbn [db calls].
  destruct (findCart userId (db w)) as [c|] eqn:Hc; [|apply eff_none].
  cbn [db snd]. apply eff_deleteMany.
Qed.

(** Every handler only makes guarded writes. *)
Lemma handle_effect (h : Handler) (req : Request) (w : World) :
  Effect (db w) (db (snd (handle h req w))).
Proof.
  destruct h; cbn [handle].
  - apply getCart_effect.
  - apply addToCart_effect.
  - apply updateCartItem_effect.
  - apply removeFromCart_effect.
  - apply clearCart_effect.
Qed.

(* ------------------------------------------------------------------ *)
(** *** What guarded writes preserve *)

Lemma Effect_products (s s' : Store) :
  Effect s s' -> products s' = products s.
Proof. induction 1; cbn; congruence. Qed.

Lemma findProduct_products (s s' : Store) (id : Z) :
  products s' = products s -> findProduct id s' = findProduct id s.
Proof. unfold findProduct. intros ->. reflexivity. Qed.

Lemma NoDup_map_filter {A B : Type} (f : A -> B) (P : A -> bool) (l : list A) :
  NoDup (map f l) -> NoDup (map f (filter P l)).
Proof.
  induction l as [|a l IH]; cbn; intros H; [constructor|].
  inversion H as [|x xs Hnotin Hnd]; subst.
  destruct (P a); cbn; auto.
  constructor; auto.
  intros Hin. apply Hnotin. apply in_map_iff in Hin.
  destruct Hin as (y & Hy & Hin). apply filter_In in Hin.
  apply in_map_iff. exists y. tauto.
Qed.

Lemma NoDup_snoc {A : Type} (l : list A) (x : A) :
  NoDup l -> ~ In x l -> NoDup (l ++ [x]).
Proof.
  intros Hnd Hx. rewrite <- (rev_involutive (l ++ [x])). apply NoDup_rev.
  rewrite rev_app_distr. cbn. constructor; [|apply NoDup_rev; exact Hnd].
  rewrite <- in_rev. exact Hx.
Qed.

Lemma filter_filter_comm {A : Type} (P Q : A -> bool) (l : list A) :
  filter P (filter Q l) = filter Q (filter P l).
Proof.
  induction l as [|a l IH]; cbn; [reflexivity|].
  destruct (P a) eqn:HP, (Q a) eqn:HQ; cbn; rewrite ?HP, ?HQ, IH; reflexivity.
Qed.

Lemma setQuantity_cart (id q cartId : Z) (l : list CartItem) :
  map i_productId (filter (fun i => i_cartId i =? cartId) (setQuantity id q l))
  = map i_productId (filter (fun i => i_cartId i =? cartId) l).
Proof.
  unfold setQuantity.
  induction l as [|a l IH]; cbn; [reflexivity|].
  destruct (i_id a =? id); cbn; destruct (i_cartId a =? cartId); cbn;
    rewrite IH; reflexivity.
Qed.

Lemma find_none_notin (productId : Z) (l : list CartItem) :
  find (fun i => i_productId i =? productId) l = None ->
  ~ In productId (map i_productId l).
Proof.
  intros H Hin. apply in_map_iff in Hin. destruct Hin as (i & Hi & Hin).
  apply (find_none _ _ H) in Hin. cbn in Hin. lia.
Qed.

Lemma Effect_unique (s s' : Store) (cartId : Z) :
  Effect s s' -> UniqueProducts cartId s -> UniqueProducts cartId s'.
Proof.
  unfold UniqueProducts, itemsOf.
  induction 1; intros U; cbn [cartItems insertCart snd insertItem updateItem
    deleteItem deleteItemsOf withItems]; auto.
  - rewrite filter_app. cbn [filter i_cartId].
    destruct (cartId0 =? cartId) eqn:E.
    + rewrite map_app. cbn.
      apply find_none_notin in H1. unfold itemsOf in H1.
      replace cartId0 with cartId in * by lia.
      apply NoDup_snoc; [exact U|exact H1].
    + rewrite app_nil_r. exact U.
  - rewrite setQuantity_cart. exact U.
  - rewrite filter_filter_comm. apply NoDup_map_filter. exact U.
  - rewrite filter_filter_comm. apply NoDup_map_filter. exact U.
Qed.

Lemma setQuantity_ids (id q : Z) (l : list CartItem) :
  map i_id (setQuantity id q l) = map i_id l.
Proof.
  unfold setQuantity.
  induction l as [|a l IH]; cbn; [reflexivity|].
  rewrite IH. destruct (i_id a =? id); reflexivity.
Qed.

Lemma Forall_filter {A : Type} (P : A -> Prop) (Q : A -> bool) (l : list A) :
  Forall P l -> Forall P (filter Q l).
Proof.
  intros H. apply Forall_forall. intros x Hx. apply filter_In in Hx.
  rewrite Forall_forall in H. apply H. tauto.
Qed.

Lemma Effect_ItemKeys (s s' : Store) :
  Effect s s' -> ItemKeys s -> ItemKeys s'.
Proof.
  unfold ItemKeys.
  induction 1; intros [Hnd Hlt]; cbn [cartItems nextItemId insertCart snd
    insertItem updateItem deleteItem deleteItemsOf withItems]; auto.
  - split.
    + rewrite map_app. cbn.
      apply NoDup_snoc; [exact Hnd|].
      intros Hin. apply in_map_iff in Hin.
      destruct Hin as (i & Hi & Hin).
      rewrite Forall_forall in Hlt. apply Hlt in Hin. lia.
    + apply Forall_app. split.
      * eapply Forall_impl; [|exact Hlt]. cbn. intros; lia.
      * constructor; [cbn; lia|constructor].
  - split.
    + rewrite setQuantity_ids. exact Hnd.
    + apply Forall_forall. intros x Hx. unfold setQuantity in Hx.
      apply in_map_iff in Hx. destruct Hx as (y & Hy & Hin).
      rewrite Forall_forall in Hlt. apply Hlt in Hin.
      destruct (i_id y =? i_id e); subst x; cbn; lia.
  - split; [apply NoDup_map_filter; exact Hnd|apply Forall_filter; exact Hlt].
  - split; [apply NoDup_map_filter; exact Hnd|apply Forall_filter; exact Hlt].
Qed.

Lemma NoDup_ids_eq (l : list CartItem) (a b : CartItem) :
  NoDup (map i_id l) -> In a l -> In b l -> i_id a = i_id b -> a = b.
Proof.
  induction l as [|x l IH]; cbn; intros Hnd Ha Hb E; [contradiction|].
  inversion Hnd as [|y ys Hnotin Hnd']; subst.
  destruct Ha as [->|Ha], Hb as [->|Hb]; auto.
  - exfalso. apply Hnotin. rewrite E. apply in_map. exact Hb.
  - exfalso. apply Hnotin. rewrite <- E. apply in_map. exact Ha.
Qed.

Lemma Effect_fresh (s s' : Store) :
  Effect s s' -> ItemKeys s -> Fresh s s'.
Proof.
  unfold Fresh.
  induction 1; intros K i Hi; cbn [cartItems insertCart snd insertItem
    updateItem deleteItem deleteItemsOf withItems] in Hi; auto.
  - apply in_app_or in Hi. destruct Hi as [Hi|[<-|[]]]; [left; exact Hi|].
    right. exists p. cbn [i_productId i_quantity]. split; [exact H|exact H0].
  - unfold setQuantity in Hi. apply in_map_iff in Hi.
    destruct Hi as (y & Hy & Hin).
    destruct (i_id y =? i_id e) eqn:E.
    + assert (y = e) by (apply (NoDup_ids_eq (cartItems s)); [apply K|auto|auto|lia]).
      subst y i. right. exists p. cbn. split; [exact H0|exact H1].
    + subst i. left. exact Hin.
  - apply filter_In in Hi. left. tauto.
  - apply filter_In in Hi. left. tauto.
  - pose proof (Effect_ItemKeys _ _ H K) as K2.
    destruct (IHEffect2 K2 i Hi) as [Hin|(p & Hp & Hq)].
    + destruct (IHEffect1 K i Hin) as [Hin'|(p & Hp & Hq)]; [left; exact Hin'|].
      right. exists p. split; [|exact Hq].
      rewrite (findProduct_products s2 s3); [exact Hp|].
      apply Effect_products. exact H0.
    + right. exists p. tauto.
Qed.

(* ------------------------------------------------------------------ *)
(** *** Events *)

Lemma step_cases (e : Event) (w : World) :
  Effect (db w) (db (step e w))
  \/ (cartItems (db (step e w)) = cartItems (db w)
      /\ nextItemId (db (step e w)) = nextItemId (db w)).
Proof.
  destruct e as [h req|ps]; cbn [step].
  - left. apply handle_effect.
  - right. split; reflexivity.
Qed.

Lemma step_ItemKeys (e : Event) (w : World) :
  ItemKeys (db w) -> ItemKeys (db (step e w)).
Proof.
  destruct (step_cases e w) as [E|[E1 E2]].
  - apply Effect_ItemKeys. exact E.
  - unfold ItemKeys. rewrite E1, E2. tauto.
Qed.

Lemma step_unique (e : Event) (w : World) (cartId : Z) :
  UniqueProducts cartId (db w) -> UniqueProducts cartId (db (step e w)).
Proof.
  destruct (step_cases e w) as [E|[E1 _]].
  - apply Effect_unique. exact E.
  - unfold UniqueProducts, itemsOf. rewrite E1. tauto.
Qed.


Lemma run_unique (es : list Event) (w : World) (cartId : Z) :
  UniqueProducts cartId (db w) -> UniqueProducts cartId (db (run es w)).
Proof.
  revert w. induction es as [|e es IH]; intros w U; cbn [run fold_left].
  - exact U.
  - apply IH. apply step_unique. exact U.
Qed.

(* ------------------------------------------------------------------ *)
(** *** Stamps *)






(* ------------------------------------------------------------------ *)
(** *** The response tail and the view *)

Lemma respondUpdated_run (userId status : Z) (msg : string) (w : World) :
  respondUpdated userId status msg w =
  let w1 := logged w [cart_findUnique userId (IncludeItemsProduct selectNoActive)] in
  match findCart userId (db w) with
  | None => (Throw (InternalError "Cannot read properties of null"), w1)
  | Some c =>
      match enrichAll (snd (joinProducts selectNoActive c (db w))) with
      | Throw e => (Throw e, w1)
      | Ok items => (Ok (mkResponse status (Some msg) (viewOf c items)), w1)
      end
  end.
Proof.
  unfold respondUpdated, bind, cart_findUnique_products, query, throw, ret, logged.
  cbn [db calls].
  destruct (findCart userId (db w)) as [c|]; cbn [option_map]; [|reflexivity].
  unfold cartView, throw, ret. cbn [fst snd joinProducts].
  destruct (enrichAll _); reflexivity.
Qed.

Lemma enrichAll_ok (sel : ProductSelect) (s : Store) (l : list CartItem) :
  (forall i, In i l -> findProduct (i_productId i) s <> None) ->
  exists items,
    enrichAll (attachProducts sel s l) = Ok items.
Proof.
  unfold attachProducts.
  induction l as [|a l IH]; intros H; cbn [map enrichAll].
  - exists []. reflexivity.
  - destruct IH as (items & ->); [intros i Hi; apply H; right; exact Hi|].
    unfold enrich. destruct (findProduct (i_productId a) s) eqn:E.
    + cbn [option_map]. eexists. reflexivity.
    + exfalso. apply (H a); [left; reflexivity|exact E].
Qed.

(** What [enrichAll] keeps of each row, for a [select] that has the
    price. *)
Lemma enrichAll_rows (sel : ProductSelect) (s : Store) (l : list CartItem)
  (items : list EnrichedItem) :
  sel_price sel = true ->
  enrichAll (attachProducts sel s l) = Ok items ->
  map e_id items = map i_id l
  /\ map e_quantity items = map i_quantity l
  /\ map e_subtotal items = map (subtotalIn s) l.
Proof.
  unfold attachProducts. intros Hsel. revert items.
  induction l as [|a l IH]; intros items H; cbn [map enrichAll] in H.
  - inversion H. repeat split.
  - unfold enrich in H at 1.
    destruct (findProduct (i_productId a) s) as [p|] eqn:E; cbn [option_map] in H;
      [|discriminate].
    destruct (enrichAll _) as [xs|] eqn:EA; [|discriminate].
    inversion H; subst items. cbn [map e_id e_quantity e_subtotal].
    destruct (IH xs eq_refl) as (H1 & H2 & H3). rewrite H1, H2, H3.
    repeat split. f_equal. unfold subtotalIn, priceNumber, project. rewrite E.
    cbn [o_price]. rewrite Hsel. reflexivity.
Qed.




Ltac dmatch_in H :=
  match type of H with
  | context [match ?x with _ => _ end] =>
      lazymatch x with
      | context [match _ with _ => _ end] => fail
      | _ => destruct x eqn:?
      end
  | context [if ?x then _ else _] =>
      lazymatch x with
      | context [match _ with _ => _ end] => fail
      | _ => destruct x eqn:?
      end
  end.

Ltac run_inv H :=
  unfold bind, requireId, setTo in H; unfold asInt in H; unfold_client;
  cbn [db calls fst snd option_map joinItems insertCart] in H;
  repeat (dmatch_in H; try discriminate H;
          cbn [db calls fst snd option_map joinItems insertCart] in H).

Lemma addToCart_tail (req : Request) (w w' : World) (r : Response) :
  addToCart req w = (Ok r, w') ->
  exists w0, respondUpdated (user_userId req) 201 "Item added to cart" w0
             = (Ok r, w').
Proof.
  intros H. unfold addToCart in H. run_inv H; eexists; exact H.
Qed.

Lemma updateCartItem_tail (req : Request) (w w' : World) (r : Response) :
  updateCartItem req w = (Ok r, w') ->
  exists userId w0,
    Js.parseInt (params_userId req) = Some userId
    /\ respondUpdated userId 200 "Cart updated" w0 = (Ok r, w').
Proof.
  intros H. unfold updateCartItem in H.
  run_inv H; eexists; eexists; (split; [reflexivity|exact H]).
Qed.

Lemma removeFromCart_tail (req : Request) (w w' : World) (r : Response) :
  removeFromCart req w = (Ok r, w') ->
  exists userId w0,
    Js.parseInt (params_userId req) = Some userId
    /\ respondUpdated userId 200 "Item removed from cart" w0 = (Ok r, w').
Proof.
  intros H. unfold removeFromCart in H.
  run_inv H; eexists; eexists; (split; [reflexivity|exact H]).
Qed.

(* ------------------------------------------------------------------ *)
(** *** Rounding *)


(** [HalfUp] determines the rounded integer. *)
Lemma HalfUp_unique (m : positive) (e n1 n2 : Z) :
  HalfUp m e n1 -> HalfUp m e n2 -> n1 = n2.
Proof.
  unfold HalfUp. cbv zeta.
  assert (P : 0 < 2 ^ Z.max 0 (- e)) by (apply Z.pow_pos_nonneg; lia).
  set (k := 2 ^ Z.max 0 (- e)) in *.
  set (x := 200 * (Z.pos m * 2 ^ Z.max 0 e)).
  intros [L1 U1] [L2 U2].
  assert (A : (2 * n1 - 1) * k < (2 * n2 + 1) * k) by lia.
  assert (B : (2 * n2 - 1) * k < (2 * n1 + 1) * k) by lia.
  apply Z.mul_lt_mono_pos_r in A; [|exact P].
  apply Z.mul_lt_mono_pos_r in B; [|exact P].
  lia.
Qed.


(* ------------------------------------------------------------------ *)
(** *** Views returned by the handlers *)

Lemma findCart_insert (userId : Z) (s : Store) :
  findCart userId s = None ->
  findCart userId (snd (insertCart userId s))
  = Some (mkCart (nextCartId s) userId).
Proof.
  unfold findCart. cbn [insertCart snd carts]. intros H.
  induction (carts s) as [|c l IH]; cbn in *.
  - rewrite Z.eqb_refl. reflexivity.
  - destruct (c_userId c =? userId); [discriminate|]. apply IH. exact H.
Qed.

Lemma respondUpdated_view (userId status : Z) (msg : string)
  (w0 w' : World) (r : Response) :
  respondUpdated userId status msg w0 = (Ok r, w') ->
  ViewFrom selectNoActive (db w') userId (r_cart r)
  /\ r_status r = status /\ r_message r = Some msg.
Proof.
  rewrite respondUpdated_run. cbn zeta.
  destruct (findCart userId (db w0)) as [c|] eqn:Hc; [|discriminate].
  destruct (enrichAll _) as [items|] eqn:He; [|discriminate].
  intros H. inversion H; subst. cbn [logged db r_cart r_status r_message].
  repeat split. exists c, items. auto.
Qed.

Lemma getCart_view (req : Request) (w w' : World) (r : Response) :
  getCart req w = (Ok r, w') ->
  ViewFrom selectWithActive (db w') (user_userId req) (r_cart r).
Proof.
  unfold getCart, bind. unfold_client. cbn [db calls].
  destruct (findCart (user_userId req) (db w)) as [c|] eqn:Hc;
    cbn [option_map insertCart]; unfold cartView, throw, ret.
  - destruct (enrichAll _) as [items|] eqn:He; [|discriminate].
    intros H. inversion H; subst. cbn [db r_cart].
    exists c, items. cbn [fst]. auto.
  - destruct (enrichAll _) as [items|] eqn:He; [|discriminate].
    intros H. inversion H; subst. cbn [db r_cart].
    eexists; exists items. split; [|split; [exact He|reflexivity]].
    apply (findCart_insert _ _ Hc).
Qed.

(* ================================================================== *)
(** ** Invariants over sequential executions *)
(* ================================================================== *)

(** [updateCartItem] refuses a quantity above the stock it reads, and
    writes nothing. *)
Lemma updateCartItem_refuses_above_stock (req : Request) (w : World)
  (userId productId q : Z) (cart : Cart) (e : CartItem) (p : Product) :
  Js.parseInt (params_userId req) = Some userId -> 1 <= userId ->
  Js.parseInt (params_productId req) = Some productId -> 1 <= productId ->
  findCart userId (db w) = Some cart ->
  find (fun i => i_productId i =? productId) (itemsOf (c_id cart) (db w))
  = Some e ->
  findProduct productId (db w) = Some p ->
  body_quantity req = Some q -> p_stock p < q ->
  updateCartItem req w
  = (Throw (BadRequestError (stockMessage (p_stock p))),
     logged w [cart_findUnique userId IncludeItems;
               product_findUnique productId]).
Proof.
  intros Hu Hu1 Hpid Hpid1 Hc Hf Hp Hq Hs.
  assert (Eu : (userId <? 1) = false) by (apply Z.ltb_ge; lia).
  assert (Ep : (productId <? 1) = false) by (apply Z.ltb_ge; lia).
  assert (Eg : gtNum (Some q) (p_stock p) = true)
    by (cbn; rewrite Z.gtb_ltb; apply Z.ltb_lt; lia).
  unfold updateCartItem, requireId. rewrite Hu, Hpid, Eu, Ep, Hq. numbers.
  unfold bind. unfold_client. cbn [db calls]. rewrite Hc.
  cbn [option_map joinItems snd]. rewrite Hf. cbn [db calls].
  rewrite Hp, Eg. unfold logged, stockMessage. rewrite <- app_assoc.
  reflexivity.
Qed.



(** While the catalogue is not edited, the bound is the current stock. *)
Corollary handlers_keep_within_stock (es : list Event) (w : World) :
  forallb isHandle es = true ->
  ItemKeys (db w) -> WithinStock (db w) -> WithinStock (db (run es w)).
Proof.
  revert w. induction es as [|e es IH]; intros w H K B; [exact B|].
  cbn [forallb] in H. apply andb_prop in H. destruct H as [He H].
  cbn [run fold_left]. apply IH; [exact H|apply step_ItemKeys; exact K|].
  destruct e as [h req|ps]; [|discriminate He]. cbn [step].
  pose proof (handle_effect h req w) as E.
  intros i Hi. destruct (Effect_fresh _ _ E K i Hi) as [Hin|F]; [|exact F].
  destruct (B i Hin) as (p & Hp & Hq). exists p. split; [|exact Hq].
  rewrite (findProduct_products (db w)); [exact Hp|].
  apply Effect_products. exact E.
Qed.

Example stockHistory_result :
  cartItems (db (fst (runStamped stockHistory (world0, [])))) = [mkItem 1 1 7 2]
  /\ snd (runStamped stockHistory (world0, [])) = [(1, 2)].
Proof. split; reflexivity. Qed.


(** C6 (uniqueness).  Along every sequence of handler runs and catalogue
    edits from a store in which no cart holds a product twice (an empty
    cart table in particular), the cart of every owner holds each product
    at most once: [addToCart] merges into the item it finds. *)
Theorem cart_holds_each_product_once (es : list Event) (w : World)
  (owner : Z) (cart : Cart) :
  (forall cartId, UniqueProducts cartId (db w)) ->
  findCart owner (db (run es w)) = Some cart ->
  NoDup (map i_productId (itemsOf (c_id cart) (db (run es w)))).
Proof.
  intros U _. apply run_unique. apply U.
Qed.

Lemma empty_store_unique (s : Store) (cartId : Z) :
  cartItems s = [] -> UniqueProducts cartId s.
Proof. unfold UniqueProducts, itemsOf. intros ->. constructor. Qed.

Example mergeHistory_result :
  cartItems (db (run mergeHistory world0)) = [mkItem 1 1 7 5].
Proof. reflexivity. Qed.

Lemma cart_holds_each_product_once_witness :
  (forall cartId, UniqueProducts cartId (db world0))
  /\ findCart 1 (db (run mergeHistory world0)) = Some (mkCart 1 1)
  /\ NoDup (map i_productId (itemsOf 1 (db (run mergeHistory world0)))).
Proof.
  assert (U : forall cartId, UniqueProducts cartId (db world0))
    by (intros cartId; apply empty_store_unique; reflexivity).
  assert (F : findCart 1 (db (run mergeHistory world0)) = Some (mkCart 1 1))
    by reflexivity.
  split; [exact U|]. split; [exact F|].
  exact (cart_holds_each_product_once mergeHistory world0 1 (mkCart 1 1) U F).
Defined.

(* ================================================================== *)
(** ** [addToCart]: merging into an existing item *)
(* ================================================================== *)

Example worldWith3_items : cartItems (db worldWith3) = [mkItem 1 1 7 3].
Proof. reflexivity. Qed.

(** The scenario of the specification: stock 5, add 3, add 3 again, add 2. *)
Example scenario_add_3_3_2 :
  fst (addToCart (bodyRequest 1 7 3) worldWith3)
  = Throw (BadRequestError "Cannot add 3 more. Only 2 available")
  /\ exists r w',
       addToCart (bodyRequest 1 7 2) worldWith3 = (Ok r, w')
       /\ r_status r = 201
       /\ v_totalItems (r_cart r) = 5
       /\ v_totalPrice (r_cart r) = Js.ofZ 50.
Proof.
  split; [reflexivity|]. eexists; eexists. split; [reflexivity|].
  repeat split; reflexivity.
Qed.

(** C3 as stated fails: with an item of quantity 3 in the cart and stock 5,
    asking for 6 more exceeds the stock, yet the error reports the stock
    figure 5, not the remaining increment 2. *)
Lemma addToCart_merge_counterexample :
  ~ (forall (req : Request) (w : World) (productId q : Z) (p : Product)
            (cart : Cart) (e : CartItem),
        1 <= user_userId req ->
        body_productId req = Some productId ->
        body_quantity req = Some q ->
        1 <= q ->
        findProduct productId (db w) = Some p ->
        p_isActive p = true ->
        findCart (user_userId req) (db w) = Some cart ->
        find (fun i => i_productId i =? productId) (itemsOf (c_id cart) (db w))
        = Some e ->
        i_quantity e + q > p_stock p ->
        fst (addToCart req w)
        = Throw (BadRequestError
                   (remainingMessage q (p_stock p) (i_quantity e)))).
Proof.
  intros H.
  pose proof (H (bodyRequest 1 7 6) worldWith3 7 6 lamp (mkCart 1 1)
                (mkItem 1 1 7 3) ltac:(cbn; lia) eq_refl eq_refl ltac:(lia)
                eq_refl eq_refl eq_refl eq_refl ltac:(cbn; lia)) as C.
  assert (E : fst (addToCart (bodyRequest 1 7 6) worldWith3)
              = Throw (BadRequestError "Only 5 items available"))
    by reflexivity.
  rewrite E in C. vm_compute in C. discriminate C.
Qed.

(** C3, amended.  For a user id of at least 1, an existing active product
    and a requested quantity [q >= 1]:
    - [q] above the stock is refused with the stock figure, whatever the
      cart holds (and a stock below 1 with "out of stock");
    - otherwise, a cart without the product gets a new row with quantity
      [q] (the cart row is created first when the owner has none);
    - otherwise the row found has quantity [e]; when [e + q] exceeds the
      stock the request is refused with the remaining increment
      [stock - e] and nothing is written, else that row is set to [e + q]
      in place. *)
Theorem addToCart_merge (req : Request) (w : World) (productId q : Z)
  (p : Product) :
  1 <= user_userId req ->
  body_productId req = Some productId ->
  body_quantity req = Some q ->
  1 <= q ->
  findProduct productId (db w) = Some p ->
  p_isActive p = true ->
  let userId := user_userId req in
  let hasProduct := fun i => i_productId i =? productId in
  (p_stock p < 1 ->
   addToCart req w
   = (Throw (BadRequestError "Product is out of stock"),
      logged w [product_findUnique productId]))
  /\ (1 <= p_stock p < q ->
      addToCart req w
      = (Throw (BadRequestError (stockMessage (p_stock p))),
         logged w [product_findUnique productId]))
  /\ (q <= p_stock p ->
      findCart userId (db w) = None ->
      find hasProduct (itemsOf (nextCartId (db w)) (db w)) = None ->
      db (snd (addToCart req w))
      = insertItem (nextCartId (db w)) productId q
          (snd (insertCart userId (db w))))
  /\ (forall cart,
        q <= p_stock p ->
        findCart userId (db w) = Some cart ->
        match find hasProduct (itemsOf (c_id cart) (db w)) with
        | None =>
            db (snd (addToCart req w)) = insertItem (c_id cart) productId q (db w)
        | Some e =>
            if i_quantity e + q >? p_stock p
            then addToCart req w
                 = (Throw (BadRequestError
                             (remainingMessage q (p_stock p) (i_quantity e))),
                    logged w [product_findUnique productId;
                              cart_findUnique userId IncludeItems])
            else db (snd (addToCart req w))
                 = updateItem (i_id e) (i_quantity e + q) (db w)
        end).
Proof.
  intros Hu Hpid Hq Hq1 Hp Hact userId hasProduct.
  assert (Eu : (user_userId req <? 1) = false) by (apply Z.ltb_ge; lia).
  unfold addToCart. rewrite Eu, Hpid, Hq. numbers.
  unfold logged, stockMessage, remainingMessage.
  split; [|split; [|split]].
  - intros Hs. assert (E : (p_stock p <? 1) = true) by (apply Z.ltb_lt; lia).
    unfold bind at 1. unfold_client. cbn [db calls]. rewrite Hp, Hact.
    cbn [negb]. rewrite E. reflexivity.
  - intros Hs. assert (E : (p_stock p <? 1) = false) by (apply Z.ltb_ge; lia).
    assert (E2 : (p_stock p <? q) = true) by (apply Z.ltb_lt; lia).
    unfold bind at 1. unfold_client. cbn [db calls]. rewrite Hp, Hact.
    cbn [negb]. rewrite E, E2. reflexivity.
  - intros Hs Hc Hf.
    assert (E : (p_stock p <? 1) = false) by (apply Z.ltb_ge; lia).
    assert (E2 : (p_stock p <? q) = false) by (apply Z.ltb_ge; lia).
    unfold bind at 1. unfold_client. cbn [db calls]. rewrite Hp, Hact.
    cbn [negb]. rewrite E, E2. unfold bind. cbn [db calls]. fold userId.
    rewrite Hc.
    cbn [option_map insertCart joinItems fst snd c_id db calls].
    unfold itemsOf in *. cbn [cartItems]. fold hasProduct. rewrite Hf.
    cbn [db snd]. rewrite respondUpdated_db. reflexivity.
  - intros cart Hs Hc.
    assert (E : (p_stock p <? 1) = false) by (apply Z.ltb_ge; lia).
    assert (E2 : (p_stock p <? q) = false) by (apply Z.ltb_ge; lia).
    destruct (find hasProduct (itemsOf (c_id cart) (db w))) as [e|] eqn:Hf;
      [destruct (i_quantity e + q >? p_stock p) eqn:Hn|];
      unfold bind at 1; unfold_client; cbn [db calls]; rewrite Hp, Hact;
      cbn [negb]; rewrite E, E2; unfold bind; cbn [db calls]; fold userId;
      rewrite Hc; cbn [option_map joinItems fst snd db calls];
      fold hasProduct; rewrite Hf.
    + rewrite Hn, <- app_assoc. reflexivity.
    + rewrite Hn. apply find_itemsOf_In in Hf. destruct Hf as (Hin & _ & _).
      cbn [db calls]. rewrite (In_hasItem _ _ Hin). cbn [db snd].
      rewrite respondUpdated_db. reflexivity.
    + cbn [db snd]. rewrite respondUpdated_db. reflexivity.
Qed.

Lemma addToCart_merge_witness :
  1 <= user_userId (bodyRequest 1 7 3)
  /\ findProduct 7 (db worldWith3) = Some lamp
  /\ fst (addToCart (bodyRequest 1 7 3) worldWith3)
     = Throw (BadRequestError "Cannot add 3 more. Only 2 available").
Proof.
  assert (Hu : 1 <= user_userId (bodyRequest 1 7 3)) by (cbn; lia).
  assert (Hp : findProduct 7 (db worldWith3) = Some lamp) by reflexivity.
  split; [exact Hu|]. split; [exact Hp|].
  pose proof (addToCart_merge (bodyRequest 1 7 3) worldWith3 7 3 lamp
                Hu eq_refl eq_refl ltac:(lia) Hp eq_refl) as M.
  cbv zeta in M. destruct M as (_ & _ & _ & M).
  specialize (M (mkCart 1 1) ltac:(cbn; lia) eq_refl).
  vm_compute in M. vm_compute. inversion M. reflexivity.
Defined.

(* ================================================================== *)
(** ** [updateCartItem] below 1 and [removeFromCart] *)
(* ================================================================== *)

Lemma Referential_delete (id : Z) (s : Store) :
  Referential s -> Referential (deleteItem id s).
Proof.
  intros R i Hi. cbn in Hi. apply filter_In in Hi. apply (R i). tauto.
Qed.

Lemma respondUpdated_ok (userId status : Z) (msg : string) (w : World)
  (cart : Cart) :
  findCart userId (db w) = Some cart ->
  Referential (db w) ->
  exists items,
    respondUpdated userId status msg w
    = (Ok (mkResponse status (Some msg) (viewOf cart items)),
       logged w [cart_findUnique userId (IncludeItemsProduct selectNoActive)]).
Proof.
  intros Hc R. rewrite respondUpdated_run. cbn zeta. rewrite Hc.
  cbn [joinProducts snd].
  destruct (enrichAll_ok selectNoActive (db w) (itemsOf (c_id cart) (db w)))
    as (items & ->).
  - intros i Hi. apply R. unfold itemsOf in Hi. apply filter_In in Hi. tauto.
  - exists items. reflexivity.
Qed.

(** The outcome of the response tail depends on the store only. *)
Lemma respondUpdated_same_store (userId status : Z) (m1 m2 : string)
  (w1 w2 : World) :
  db w1 = db w2 ->
  match fst (respondUpdated userId status m1 w1),
        fst (respondUpdated userId status m2 w2) with
  | Ok r1, Ok r2 => r_cart r1 = r_cart r2
  | Throw e1, Throw e2 => e1 = e2
  | _, _ => False
  end.
Proof.
  intros E. rewrite !respondUpdated_run. cbn zeta. rewrite E.
  destruct (findCart userId (db w2)) as [c|]; cbn [fst]; [|reflexivity].
  destruct (enrichAll _); cbn [fst r_cart]; reflexivity.
Qed.

(** The handler's own branch for a quantity below 1, when the handler is
    given a [params.userId]: with an item for the product in that cart, and
    the product in the catalogue with a stock that is not negative,
    [updateCartItem] deletes the item, leaves the store as [removeFromCart]
    does and answers with the same cart view. *)
Lemma updateCartItem_below_one (req : Request) (w : World) (userId productId q : Z)
  (cart : Cart) (e : CartItem) (p : Product) :
  Js.parseInt (params_userId req) = Some userId -> 1 <= userId ->
  Js.parseInt (params_productId req) = Some productId -> 1 <= productId ->
  findCart userId (db w) = Some cart ->
  find (fun i => i_productId i =? productId) (itemsOf (c_id cart) (db w))
  = Some e ->
  findProduct productId (db w) = Some p -> 0 <= p_stock p ->
  body_quantity req = Some q -> q < 1 ->
  db (snd (updateCartItem req w)) = deleteItem (i_id e) (db w)
  /\ db (snd (removeFromCart req w)) = db (snd (updateCartItem req w))
  /\ match fst (removeFromCart req w), fst (updateCartItem req w) with
     | Ok r1, Ok r2 => r_cart r1 = r_cart r2
     | Throw e1, Throw e2 => e1 = e2
     | _, _ => False
     end
  /\ (Referential (db w) ->
      exists r, fst (updateCartItem req w) = Ok r /\ r_status r = 200).
Proof.
  intros Hu Hu1 Hpid Hpid1 Hc Hf Hp Hs Hq Hq1.
  assert (Eu : (userId <? 1) = false) by (apply Z.ltb_ge; lia).
  assert (Ep : (productId <? 1) = false) by (apply Z.ltb_ge; lia).
  assert (Eg : gtNum (Some q) (p_stock p) = false)
    by (cbn; rewrite Z.gtb_ltb; apply Z.ltb_ge; lia).
  assert (El : ltNum (Some q) 1 = true) by (cbn; apply Z.ltb_lt; lia).
  pose proof (find_itemsOf_In _ _ _ _ Hf) as (Hin & _ & _).
  pose proof (In_hasItem _ _ Hin) as Hh.
  assert (U : updateCartItem req w
              = respondUpdated userId 200 "Cart updated"
                  (mkWorld (deleteItem (i_id e) (db w))
                     (((calls w ++ [cart_findUnique userId IncludeItems])
                       ++ [product_findUnique productId])
                      ++ [cartItem_delete (i_id e)]))).
  { unfold updateCartItem, requireId. rewrite Hu, Hpid, Eu, Ep, Hq. numbers.
    unfold bind. unfold_client. cbn [db calls]. rewrite Hc.
    cbn [option_map joinItems snd]. rewrite Hf. cbn [db calls].
    rewrite Hp, Eg, El. cbn [db calls]. rewrite Hh. reflexivity. }
  assert (R : removeFromCart req w
              = respondUpdated userId 200 "Item removed from cart"
                  (mkWorld (deleteItem (i_id e) (db w))
                     ((calls w ++ [cart_findUnique userId IncludeItems])
                      ++ [cartItem_delete (i_id e)]))).
  { unfold removeFromCart, requireId. rewrite Hu, Hpid, Eu, Ep.
    unfold bind. unfold_client. cbn [db calls]. rewrite Hc.
    cbn [option_map joinItems snd]. rewrite Hf. cbn [db calls].
    rewrite Hh. reflexivity. }
  rewrite U, R. rewrite !respondUpdated_db. cbn [db].
  split; [reflexivity|]. split; [reflexivity|]. split.
  - apply respondUpdated_same_store. reflexivity.
  - intros Ref.
    destruct (respondUpdated_ok userId 200 "Cart updated"
                (mkWorld (deleteItem (i_id e) (db w))
                   (((calls w ++ [cart_findUnique userId IncludeItems])
                     ++ [product_findUnique productId])
                    ++ [cartItem_delete (i_id e)])) cart) as (items & ->).
    + exact Hc.
    + apply Referential_delete. exact Ref.
    + eexists. split; reflexivity.
Qed.

(* ================================================================== *)
(** ** Totals *)
(* ================================================================== *)



Lemma itemsOf_deleteItemsOf (cartId : Z) (s : Store) :
  itemsOf cartId (deleteItemsOf cartId s) = [].
Proof.
  unfold itemsOf. cbn [deleteItemsOf withItems cartItems].
  induction (cartItems s) as [|a l IH]; cbn; [reflexivity|].
  destruct (i_cartId a =? cartId) eqn:E; cbn; [exact IH|].
  rewrite E. exact IH.
Qed.

Lemma clearCart_run (req : Request) (w : World) (userId : Z) (cart : Cart) :
  Js.parseInt (params_userId req) = Some userId -> 1 <= userId ->
  findCart userId (db w) = Some cart ->
  clearCart req w
  = (Ok (mkResponse 200 (Some "Cart cleared")
           (mkView (Some cart) [] 0 (Js.ofZ 0))),
     mkWorld (deleteItemsOf (c_id cart) (db w))
       (calls w ++ [cart_findUnique userId IncludeNothing;
                    cartItem_deleteMany (c_id cart);
                    cart_findUnique userId IncludeItems])).
Proof.
  intros Hu Hu1 Hc.
  assert (Eu : (userId <? 1) = false) by (apply Z.ltb_ge; lia).
  unfold clearCart, requireId. rewrite Hu, Eu.
  unfold bind. unfold_client. cbn [db calls]. rewrite Hc. cbn [db calls].
  change (findCart userId (deleteItemsOf (c_id cart) (db w)))
    with (findCart userId (db w)).
  rewrite Hc. cbn [option_map joinItems fst]. rewrite <- !app_assoc.
  reflexivity.
Qed.

Lemma clearCart_inv (req : Request) (w w' : World) (r : Response) :
  clearCart req w = (Ok r, w') ->
  exists userId cart,
    Js.parseInt (params_userId req) = Some userId /\ 1 <= userId
    /\ findCart userId (db w) = Some cart.
Proof.
  intros H. unfold clearCart in H. unfold bind at 1 in H.
  destruct (requireId_run (Js.parseInt (params_userId req)) "Invalid user ID" w)
    as [(userId & Hu & Hu1 & E)|[_ E]]; rewrite E in H; [|discriminate].
  unfold bind in H. unfold_client. cbn [db calls] in H.
  destruct (findCart userId (db w)) as [c|] eqn:Hc; [|discriminate].
  exists userId, c. auto.
Qed.




(** The total follows the catalogue: the same cart read again after the
    lamp is repriced from 10.00 to 12.50. *)
Example total_follows_price :
  option_map (fun r => v_totalPrice (r_cart r))
    (match fst (getCart (bodyRequest 1 7 1) worldWith5) with
     | Ok r => Some r | Throw _ => None end)
  = Some (Js.ofZ 50)
  /\ option_map (fun r => v_totalPrice (r_cart r))
       (match fst (getCart (bodyRequest 1 7 1) worldRepriced) with
        | Ok r => Some r | Throw _ => None end)
     = Some (Js.Number (Js.mkDecimal 625 1)).
Proof. split; reflexivity. Qed.

(** Rounding is applied to the sum: 0.004 + 0.004 is shown as 0.01, where
    rounding each subtotal first would show 0. *)
Example total_rounded_once :
  option_map (fun r => (map e_subtotal (v_items (r_cart r)),
                        v_totalPrice (r_cart r)))
    (match fst (getCart (bodyRequest 1 1 1) worldOfMills) with
     | Ok r => Some r | Throw _ => None end)
  = Some ([Js.Number (Js.mkDecimal 4 3); Js.Number (Js.mkDecimal 4 3)],
          Js.Number (Js.mkDecimal 1 2))
  /\ round2 (Js.Number (Js.mkDecimal 4 3)) = Js.ofZ 0.
Proof. split; reflexivity. Qed.

(** The rounding acts on the double that was computed: the double nearest
    to 1.005 lies below it and is shown as 1. *)
Example round2_of_1_005 :
  round2 (Js.Number (Js.mkDecimal 1005 3)) = Js.ofZ 1
  /\ round2 (Js.mul (Js.Number (Js.mkDecimal 1 1)) (Js.ofZ 3))
     = Js.Number (Js.mkDecimal 3 1).
Proof. split; reflexivity. Qed.

(** [getCart] answers on every store whose items have their product. *)
Lemma getCart_ok (req : Request) (w : World) :
  Referential (db w) -> exists r w', getCart req w = (Ok r, w').
Proof.
  intros R. unfold getCart, bind. unfold_client. cbn [db calls].
  destruct (findCart (user_userId req) (db w)) as [c|] eqn:Hc;
    cbn [option_map insertCart]; unfold cartView, throw, ret;
    cbn [joinProducts fst snd].
  - destruct (enrichAll_ok selectWithActive (db w) (itemsOf (c_id c) (db w)))
      as (items & ->).
    + intros i Hi. apply R. unfold itemsOf in Hi. apply filter_In in Hi. tauto.
    + eexists. eexists. reflexivity.
  - match goal with
    | |- context [enrichAll (attachProducts _ ?s (itemsOf ?c ?s))] =>
        destruct (enrichAll_ok selectWithActive s (itemsOf c s)) as (items & E)
    end.
    + intros i Hi. unfold itemsOf in Hi. apply filter_In in Hi.
      apply (R i). tauto.
    + cbn [c_id] in *. rewrite E. eexists. eexists. reflexivity.
Qed.

Lemma Referential_insertCart (userId : Z) (s : Store) :
  Referential s -> Referential (snd (insertCart userId s)).
Proof. intros R i Hi. apply (R i). exact Hi. Qed.

Lemma Referential_insertItem (cartId productId q : Z) (s : Store) :
  Referential s -> findProduct productId s <> None ->
  Referential (insertItem cartId productId q s).
Proof.
  intros R Hp i Hi. cbn [insertItem cartItems] in Hi.
  change (findProduct (i_productId i) (insertItem cartId productId q s))
    with (findProduct (i_productId i) s).
  apply in_app_or in Hi. destruct Hi as [Hi|[<-|[]]]; [apply R; exact Hi|].
  exact Hp.
Qed.

Lemma Referential_updateItem (id q : Z) (s : Store) :
  Referential s -> Referential (updateItem id q s).
Proof.
  intros R i Hi. cbn [updateItem withItems cartItems] in Hi.
  change (findProduct (i_productId i) (updateItem id q s))
    with (findProduct (i_productId i) s).
  unfold setQuantity in Hi. apply in_map_iff in Hi.
  destruct Hi as (y & Hy & Hin). apply R in Hin.
  destruct (i_id y =? id); subst i; exact Hin.
Qed.

(** Under the preconditions of the specification, and when the merged
    quantity fits the stock, [addToCart] answers 201 with a view. *)
Lemma addToCart_answers (req : Request) (w : World) (productId q : Z)
  (p : Product) :
  1 <= user_userId req ->
  body_productId req = Some productId ->
  body_quantity req = Some q ->
  findProduct productId (db w) = Some p ->
  p_isActive p = true ->
  1 <= p_stock p -> q <= p_stock p ->
  Referential (db w) ->
  (forall e, In e (cartItems (db w)) -> i_productId e = productId ->
             i_quantity e + q <= p_stock p) ->
  exists r w',
    addToCart req w = (Ok r, w')
    /\ r_status r = 201 /\ r_message r = Some "Item added to cart".
Proof.
  intros Hu Hpid Hq Hp Hact Hs1 Hs R Hfit.
  assert (Eu : (user_userId req <? 1) = false) by (apply Z.ltb_ge; lia).
  assert (E1 : (p_stock p <? 1) = false) by (apply Z.ltb_ge; lia).
  assert (E2 : (p_stock p <? q) = false) by (apply Z.ltb_ge; lia).
  assert (Hp' : findProduct productId (db w) <> None) by congruence.
  unfold addToCart. rewrite Eu, Hpid, Hq. numbers.
  unfold bind at 1. unfold_client. cbn [db calls]. rewrite Hp, Hact.
  cbn [negb]. rewrite E1, E2. unfold bind. cbn [db calls].
  destruct (findCart (user_userId req) (db w)) as [c|] eqn:Hc;
    cbn [option_map joinItems insertCart fst snd c_id db calls].
  - destruct (find _ (itemsOf (c_id c) (db w))) as [e|] eqn:Hf.
    + apply find_itemsOf_In in Hf. destruct Hf as (Hin & _ & Hpe).
      assert (En : (i_quantity e + q >? p_stock p) = false).
      { rewrite Z.gtb_ltb. apply Z.ltb_ge. apply Hfit; [exact Hin|lia]. }
      rewrite En. cbn [db calls]. rewrite (In_hasItem _ _ Hin).
      match goal with
      | |- context [respondUpdated ?u ?st ?m ?w0] =>
          destruct (respondUpdated_ok u st m w0 c) as (items & ->)
      end.
      * exact Hc.
      * apply Referential_updateItem. exact R.
      * eexists. eexists. repeat split.
    + match goal with
      | |- context [respondUpdated ?u ?st ?m ?w0] =>
          destruct (respondUpdated_ok u st m w0 c) as (items & ->)
      end.
      * exact Hc.
      * apply Referential_insertItem; assumption.
      * eexists. eexists. repeat split.
  - pose proof (findCart_insert _ _ Hc) as Hc'.
    pose proof (Referential_insertCart (user_userId req) _ R) as R'.
    cbn [insertCart snd] in Hc', R'.
    match goal with
    | |- context [find ?f (itemsOf ?c ?s1)] =>
        destruct (find f (itemsOf c s1)) as [e|] eqn:Hf
    end.
    + apply find_itemsOf_In in Hf. destruct Hf as (Hin & _ & Hpe).
      assert (En : (i_quantity e + q >? p_stock p) = false).
      { rewrite Z.gtb_ltb. apply Z.ltb_ge. apply Hfit; [exact Hin|lia]. }
      rewrite En. cbn [db calls]. rewrite (In_hasItem _ _ Hin).
      match goal with
      | |- context [respondUpdated ?u ?st ?m ?w0] =>
          destruct (respondUpdated_ok u st m w0
                      (mkCart (nextCartId (db w)) (user_userId req)))
            as (items & ->)
      end.
      * exact Hc'.
      * apply Referential_updateItem. exact R'.
      * eexists. eexists. repeat split.
    + match goal with
      | |- context [respondUpdated ?u ?st ?m ?w0] =>
          destruct (respondUpdated_ok u st m w0
                      (mkCart (nextCartId (db w)) (user_userId req)))
            as (items & ->)
      end.
      * exact Hc'.
      * apply Referential_insertItem; assumption.
      * eexists. eexists. repeat split.
Qed.

(* ================================================================== *)
(** ** The product object under each item *)
(* ================================================================== *)

Lemma enrichAll_shape (sel : ProductSelect) (s : Store) (l : list CartItem)
  (items : list EnrichedItem) :
  enrichAll (attachProducts sel s l) = Ok items ->
  forall e, In e items ->
    exists p, e_product e
              = withPrice (project sel p) (priceNumber (project sel p))
              /\ e_subtotal e
                 = Js.mul (priceNumber (project sel p)) (Js.ofZ (e_quantity e)).
Proof.
  unfold attachProducts.
  revert items.
  induction l as [|a l IH]; intros items H e He; cbn [map enrichAll] in H.
  - inversion H; subst. destruct He.
  - unfold enrich in H at 1.
    destruct (findProduct (i_productId a) s) as [p|]; cbn [option_map] in H;
      [|discriminate].
    destruct (enrichAll _) as [xs|] eqn:EA; [|discriminate].
    inversion H; subst items. destruct He as [<-|He].
    + exists p. split; reflexivity.
    + apply (IH xs eq_refl e He).
Qed.

Lemma ViewFrom_shape (withActive : bool) (s : Store) (owner : Z) (v : CartView) :
  ViewFrom (mkSelect true true true true true withActive) s owner v ->
  forall e, In e (v_items v) ->
    HasFields withActive (e_product e)
    /\ exists x, o_price (e_product e) = Some (PriceNumber x)
                 /\ e_subtotal e = Js.mul x (Js.ofZ (e_quantity e)).
Proof.
  intros (cart & items & _ & He & ->) e Hin. cbn [viewOf v_items] in Hin.
  cbn [joinProducts snd] in He.
  destruct (enrichAll_shape _ _ _ _ He e Hin) as (p & -> & Hs).
  split.
  - unfold HasFields, withPrice, project.
    cbn [o_id o_title o_price o_thumbnail o_stock o_isActive sel_id sel_title
         sel_price sel_thumbnail sel_stock sel_isActive keep].
    repeat split; try discriminate.
    + eexists; reflexivity.
    + intros ->. reflexivity.
    + intros ->. discriminate.
  - eexists. split; [reflexivity|]. rewrite Hs. reflexivity.
Qed.

(** C9, as the code has it.  Whenever a handler answers, every item of the
    view carries a product object with [id], [title], [thumbnail], [stock]
    and a [price] that is a plain number, and a subtotal that is this price
    times the quantity; the key [isActive] is there in the answer of
    [getCart] only, and absent from the answers of [addToCart],
    [updateCartItem] and [removeFromCart]. *)
Theorem view_shape (h : Handler) (req : Request) (w w' : World) (r : Response) :
  handle h req w = (Ok r, w') ->
  forall e, In e (v_items (r_cart r)) ->
    HasFields (selectsActive h) (e_product e)
    /\ exists x, o_price (e_product e) = Some (PriceNumber x)
                 /\ e_subtotal e = Js.mul x (Js.ofZ (e_quantity e)).
Proof.
  destruct h; cbn [handle selectsActive]; intros H.
  - apply (ViewFrom_shape true (db w') (user_userId req)).
    apply (getCart_view _ _ _ _ H).
  - destruct (addToCart_tail _ _ _ _ H) as (w0 & T).
    apply (ViewFrom_shape false (db w') (user_userId req)).
    apply (respondUpdated_view _ _ _ _ _ _ T).
  - destruct (updateCartItem_tail _ _ _ _ H) as (userId & w0 & _ & T).
    apply (ViewFrom_shape false (db w') userId).
    apply (respondUpdated_view _ _ _ _ _ _ T).
  - destruct (removeFromCart_tail _ _ _ _ H) as (userId & w0 & _ & T).
    apply (ViewFrom_shape false (db w') userId).
    apply (respondUpdated_view _ _ _ _ _ _ T).
  - destruct (clearCart_inv _ _ _ _ H) as (userId & cart & Hu & Hu1 & Hc).
    rewrite (clearCart_run _ _ _ _ Hu Hu1 Hc) in H. inversion H; subst.
    intros e [].
Qed.

(** At the scenario's first request the answer of [addToCart] has one item,
    whose product object has no [isActive]. *)
Lemma view_shape_witness :
  exists r w',
    handle HAddToCart (bodyRequest 1 7 3) world0 = (Ok r, w')
    /\ map (fun e => o_isActive (e_product e)) (v_items (r_cart r)) = [None]
    /\ forall e, In e (v_items (r_cart r)) ->
         HasFields false (e_product e).
Proof.
  eexists. eexists. split; [reflexivity|]. split; [reflexivity|].
  intros e He.
  apply (view_shape HAddToCart (bodyRequest 1 7 3) world0 _ _ eq_refl e He).
Defined.

(* ================================================================== *)
(** ** Products that are missing or inactive *)
(* ================================================================== *)

Lemma addToCart_missing_product (req : Request) (w : World) (productId : Z) :
  1 <= user_userId req ->
  body_productId req = Some productId ->
  findProduct productId (db w) = None ->
  addToCart req w
  = (Throw (NotFoundError "Product"), logged w [product_findUnique productId]).
Proof.
  intros Hu Hpid Hp.
  assert (Eu : (user_userId req <? 1) = false) by (apply Z.ltb_ge; lia).
  unfold addToCart. rewrite Eu, Hpid. numbers. unfold bind. unfold_client.
  cbn [db calls]. rewrite Hp. reflexivity.
Qed.

Lemma addToCart_inactive_product (req : Request) (w : World) (productId : Z)
  (p : Product) :
  1 <= user_userId req ->
  body_productId req = Some productId ->
  findProduct productId (db w) = Some p ->
  p_isActive p = false ->
  addToCart req w
  = (Throw (BadRequestError "Product is not available"),
     logged w [product_findUnique productId]).
Proof.
  intros Hu Hpid Hp Hact.
  assert (Eu : (user_userId req <? 1) = false) by (apply Z.ltb_ge; lia).
  unfold addToCart. rewrite Eu, Hpid. numbers. unfold bind. unfold_client.
  cbn [db calls]. rewrite Hp, Hact. reflexivity.
Qed.

(** The handlers on an item whose product is inactive: [addToCart] refuses
    the product and [getCart] still shows the item; [updateCartItem] reads
    the product for its stock only, so that, given a [params.userId], it
    sets the quantity from 3 to 8. *)
Example handlers_on_inactive_product :
  option_map p_isActive (findProduct 7 (db worldInactive)) = Some false
  /\ cartItems (db worldInactive) = [mkItem 1 1 7 3]
  /\ addToCart (bodyRequest 1 7 1) worldInactive
     = (Throw (BadRequestError "Product is not available"),
        logged worldInactive [product_findUnique 7])
  /\ (exists r w', getCart (bodyRequest 1 7 1) worldInactive = (Ok r, w')
                   /\ map e_quantity (v_items (r_cart r)) = [3])
  /\ exists r w',
       updateCartItem (paramRequest 1 "1" "7" (Some 8)) worldInactive
       = (Ok r, w')
       /\ cartItems (db w') = [mkItem 1 1 7 8].
Proof.
  split; [reflexivity|]. split; [reflexivity|]. split; [reflexivity|].
  split; eexists; eexists; split; reflexivity.
Qed.

(* ================================================================== *)
(** ** Whose cart a request reaches *)
(* ================================================================== *)

(** [getCart] and [addToCart] select the cart by [req.user.userId]. *)
Lemma token_selects_cart (req : Request) (userId : option string) (w : World) :
  getCart (withParamUserId req userId) w = getCart req w
  /\ addToCart (withParamUserId req userId) w = addToCart req w.
Proof. split; reflexivity. Qed.

(** The other three handlers never read [req.user]: the cart is selected
    by [req.params.userId]. *)
Lemma token_ignored (req : Request) (user : Z) (w : World) :
  updateCartItem (withUser req user) w = updateCartItem req w
  /\ removeFromCart (withUser req user) w = removeFromCart req w
  /\ clearCart (withUser req user) w = clearCart req w.
Proof. repeat split; reflexivity. Qed.

(** C2 at the failing input.  Behind the router, an authenticated request
    of user 1 to update, remove or clear is refused with "Invalid user ID":
    the handler reads [req.params.userId], which no route binds, and never
    the identity of the token.  Called with a [params.userId], two requests
    that carry the identity of user 1 and differ in that parameter only
    reach different carts: with "2" they change the cart of user 2. *)
Theorem cart_selected_by_url_parameter :
  cartItems (db worldTwoCarts) = [mkItem 1 1 7 3; mkItem 2 2 7 1]
  /\ cartRouter tokenOfUser1 (putItem "7" (IntegerNumber 2)) worldTwoCarts
     = (Throw (ValidationError "Invalid user ID"),
        logged worldTwoCarts [user_findUnique 1])
  /\ cartRouter tokenOfUser1 (deleteItemRoute "7") worldTwoCarts
     = (Throw (ValidationError "Invalid user ID"),
        logged worldTwoCarts [user_findUnique 1])
  /\ cartRouter tokenOfUser1 deleteCartRoute worldTwoCarts
     = (Throw (ValidationError "Invalid user ID"),
        logged worldTwoCarts [user_findUnique 1])
  /\ cartItems (db (snd (removeFromCart (paramRequest 1 "1" "7" None)
                           worldTwoCarts)))
     = [mkItem 2 2 7 1]
  /\ cartItems (db (snd (removeFromCart (paramRequest 1 "2" "7" None)
                           worldTwoCarts)))
     = [mkItem 1 1 7 3]
  /\ cartItems (db (snd (updateCartItem (paramRequest 1 "2" "7" (Some 4))
                           worldTwoCarts)))
     = [mkItem 1 1 7 3; mkItem 2 2 7 4]
  /\ cartItems (db (snd (clearCart (paramRequest 1 "2" "7" None)
                           worldTwoCarts)))
     = [mkItem 1 1 7 3].
Proof. repeat split; reflexivity. Qed.

Section BehindTheRouter.

Variable verifyToken : string -> string + Z.

Lemma authenticate_db (h : HttpRequest) (w : World) :
  db (snd (authenticate verifyToken h w)) = db w.
Proof.
  unfold authenticate.
  destruct (h_authorization h) as [[|c s]|]; [reflexivity| |reflexivity].
  destruct (negb _); [reflexivity|].
  destruct (substring _ _ _); [reflexivity|].
  destruct (verifyToken _) as [msg|decoded]; [reflexivity|].
  unfold bind. unfold_client. cbn [db calls].
  destruct (findUser decoded (db w)) as [u|]; [|reflexivity].
  destruct (negb _); reflexivity.
Qed.

(** Behind the router [req.params.userId] is [undefined]: once a request is
    authenticated (and, for PUT, its quantity validated), the three
    handlers that read it refuse the request. *)
Lemma routes_without_userId_fail (h : HttpRequest) (w w1 : World) (userId : Z) :
  authenticate verifyToken h w = (Ok userId, w1) ->
  match h_route h with
  | PUT_item _ =>
      isInt (Some 1) (Some 100) (h_quantity h) = true ->
      cartRouter verifyToken h w = (Throw (ValidationError "Invalid user ID"), w1)
  | DELETE_item _ | DELETE_cart =>
      cartRouter verifyToken h w = (Throw (ValidationError "Invalid user ID"), w1)
  | _ => True
  end.
Proof.
  intros A. destruct (h_route h) eqn:R; try exact I.
  - intros V. unfold cartRouter. unfold bind at 1. rewrite A, R.
    unfold validateQuantityUpdate, check, bind. rewrite V. reflexivity.
  - unfold cartRouter, bind. rewrite A, R. reflexivity.
  - unfold cartRouter, bind. rewrite A, R. reflexivity.
Qed.

(** What a request changes behind the router is what its handler changes:
    the invariants of the handlers hold at the public interface. *)
Lemma cartRouter_effect (h : HttpRequest) (w : World) :
  Effect (db w) (db (snd (cartRouter verifyToken h w))).
Proof.
  unfold cartRouter. unfold bind at 1.
  pose proof (authenticate_db h w) as D.
  destruct (authenticate verifyToken h w) as [[userId|err] w1];
    cbn [snd] in D; [|cbn [snd]; rewrite D; apply eff_none].
  rewrite <- D.
  destruct (h_route h).
  - apply getCart_effect.
  - unfold validateCartItem, check, bind.
    destruct (isInt (Some 1) None (h_productId h));
      destruct (isInt (Some 1) (Some 100) (h_quantity h));
      cbn [app validate]; unfold ret, throw; try apply eff_none.
    apply addToCart_effect.
  - unfold validateQuantityUpdate, check, bind.
    destruct (isInt (Some 1) (Some 100) (h_quantity h));
      cbn [app validate]; unfold ret, throw; apply eff_none.
  - apply removeFromCart_effect.
  - apply clearCart_effect.
Qed.

End BehindTheRouter.

(** The router, one step at a time. *)
Lemma cartRouter_run (verifyToken : string -> string + Z)
  (h : HttpRequest) (w : World) :
  cartRouter verifyToken h w
  = match authenticate verifyToken h w with
    | (Ok userId, w1) =>
        let req := handlerRequest userId h in
        match h_route h with
        | GET_cart => getCart req w1
        | POST_items =>
            (validateCartItem (h_productId h) (h_quantity h) ;;
             addToCart req) w1
        | PUT_item _ =>
            (validateQuantityUpdate (h_quantity h) ;; updateCartItem req) w1
        | DELETE_item _ => removeFromCart req w1
        | DELETE_cart => clearCart req w1
        end
    | (Throw e, w1) => (Throw e, w1)
    end.
Proof.
  unfold cartRouter. unfold bind at 1.
  destruct (authenticate verifyToken h w) as [[userId|err] w1];
    [|reflexivity].
  cbv zeta. destruct (h_route h); reflexivity.
Qed.

(** A request leaves the store as it is, or it is an authenticated
    [GET /], or an authenticated and validated [POST /items]. *)
Lemma cartRouter_cases (verifyToken : string -> string + Z)
  (h : HttpRequest) (w : World) :
  db (snd (cartRouter verifyToken h w)) = db w
  \/ exists userId w1,
       authenticate verifyToken h w = (Ok userId, w1)
       /\ ((h_route h = GET_cart
            /\ cartRouter verifyToken h w
               = getCart (handlerRequest userId h) w1)
           \/ (h_route h = POST_items
               /\ cartRouter verifyToken h w
                  = addToCart (handlerRequest userId h) w1)).
Proof.
  rewrite cartRouter_run.
  pose proof (authenticate_db verifyToken h w) as D.
  destruct (authenticate verifyToken h w) as [[userId|err] w1];
    cbn [snd fst] in *; [|left; exact D].
  rewrite <- D. cbv zeta.
  destruct (h_route h) eqn:R.
  - right. exists userId, w1. split; [reflexivity|]. left. split; reflexivity.
  - unfold validateCartItem, check, bind.
    destruct (isInt (Some 1) None (h_productId h));
      destruct (isInt (Some 1) (Some 100) (h_quantity h));
      cbn [app validate]; unfold ret, throw; try (left; reflexivity).
    right. exists userId, w1. split; [reflexivity|]. right. split; reflexivity.
  - unfold validateQuantityUpdate, check, bind.
    destruct (isInt (Some 1) (Some 100) (h_quantity h));
      cbn [app validate]; unfold ret, throw; left; reflexivity.
  - left; reflexivity.
  - left; reflexivity.
Qed.

(** A request on a route other than [GET /] and [POST /items] is not
    answered with a cart and leaves the store as it is. *)
Lemma router_writes_nothing_elsewhere (verifyToken : string -> string + Z)
  (h : HttpRequest) (w : World) :
  h_route h = GET_cart \/ h_route h = POST_items
  \/ ((forall r, fst (cartRouter verifyToken h w) <> Ok r)
      /\ db (snd (cartRouter verifyToken h w)) = db w).
Proof.
  pose proof (authenticate_db verifyToken h w) as D.
  destruct (h_route h) eqn:R; [left; reflexivity|right; left; reflexivity|..];
    right; right;
    (destruct (authenticate verifyToken h w) as [[userId|err] w1] eqn:A;
     cbn [fst snd] in D;
     [|rewrite cartRouter_run, A; split; [discriminate|exact D]]);
    pose proof (routes_without_userId_fail verifyToken h w w1 userId A) as F;
    rewrite R in F.
  - destruct (isInt (Some 1) (Some 100) (h_quantity h)) eqn:V.
    + rewrite (F eq_refl). split; [discriminate|exact D].
    + rewrite cartRouter_run, A, R. cbv zeta.
      unfold validateQuantityUpdate, check, bind. rewrite V.
      cbn [app validate]. unfold throw. split; [discriminate|exact D].
  - rewrite F. split; [discriminate|exact D].
  - rewrite F. split; [discriminate|exact D].
Qed.

(* ================================================================== *)
(** ** [clearCart] *)
(* ================================================================== *)

Lemma itemsOf_deleteItemsOf_other (cartId other : Z) (s : Store) :
  other <> cartId ->
  itemsOf other (deleteItemsOf cartId s) = itemsOf other s.
Proof.
  intros N. unfold itemsOf. cbn [deleteItemsOf withItems cartItems].
  induction (cartItems s) as [|a l IH]; cbn; [reflexivity|].
  destruct (i_cartId a =? cartId) eqn:E; cbn.
  - destruct (i_cartId a =? other) eqn:E2; [lia|exact IH].
  - rewrite IH. reflexivity.
Qed.

(* ================================================================== *)
(** ** The quantity validators in front of the handlers *)
(* ================================================================== *)

(** C10 as stated fails in its last part: one validated request of 100
    units, merged into an item of 100, sets the quantity to 200. *)
Lemma quantity_cap_counterexample :
  ~ (forall (verifyToken : string -> string + Z) (h : HttpRequest) (w : World)
            (i : CartItem),
        In i (cartItems (db (snd (cartRouter verifyToken h w)))) ->
        ~ In i (cartItems (db w)) ->
        i_quantity i <= 100).
Proof.
  intros H.
  specialize (H tokenOfUser1 (postItems (IntegerNumber 7) (IntegerNumber 100))
                worldWith100 (mkItem 1 1 7 200)).
  assert (A : In (mkItem 1 1 7 200)
                (cartItems (db (snd (cartRouter tokenOfUser1
                   (postItems (IntegerNumber 7) (IntegerNumber 100))
                   worldWith100)))))
    by (vm_compute; left; reflexivity).
  assert (B : ~ In (mkItem 1 1 7 200) (cartItems (db worldWith100))).
  { cbn. intros [E|[]]. discriminate E. }
  specialize (H A B). cbn in H. lia.
Qed.

Lemma getCart_items (req : Request) (w : World) :
  cartItems (db (snd (getCart req w))) = cartItems (db w).
Proof.
  unfold getCart, bind. unfold_client. cbn [db calls].
  destruct (findCart (user_userId req) (db w)) as [c|];
    cbn [option_map insertCart]; unfold cartView;
    destruct (enrichAll _); reflexivity.
Qed.

Lemma addToCart_items (req : Request) (w : World) :
  match body_quantity req with
  | Some (Js.Str _) => cartItems (db (snd (addToCart req w))) = cartItems (db w)
  | Some (Js.Num q) =>
      AddedOrRaised q (db w) (cartItems (db (snd (addToCart req w))))
  | None => AddedOrRaised 1 (db w) (cartItems (db (snd (addToCart req w))))
  end.
Proof.
  assert (G : forall quantity,
             (match body_quantity req with Some q => q | None => Js.Num 1 end)
             = quantity ->
             (fun l => match quantity with
                       | Js.Str _ => l = cartItems (db w)
                       | Js.Num q => AddedOrRaised q (db w) l
                       end) (cartItems (db (snd (addToCart req w))))).
  { intros quantity Hq.
    set (Q := fun l => match quantity with
                       | Js.Str _ => l = cartItems (db w)
                       | Js.Num q => AddedOrRaised q (db w) l
                       end).
    assert (N : Q (cartItems (db w)))
      by (unfold Q; destruct quantity; [left|]; reflexivity).
    change (Q (cartItems (db (snd (addToCart req w))))).
    unfold addToCart. rewrite Hq.
    destruct (user_userId req <? 1); [exact N|].
    destruct (body_productId req) as [[productId|t]|]; [|exact N|exact N].
    cbn [asInt]. unfold bind at 1. unfold_client. cbn [db calls].
    destruct (findProduct productId (db w)) as [product|]; [|exact N].
    destruct (negb (p_isActive product)); [exact N|].
    destruct (p_stock product <? 1); [exact N|].
    destruct (Js.less (p_stock product) quantity); [exact N|].
    unfold bind. cbn [db calls].
    destruct (findCart (user_userId req) (db w)) as [c|];
      cbn [option_map fst snd db calls joinItems insertCart c_id].
    - destruct (find _ (itemsOf (c_id c) (db w))) as [e|] eqn:He.
      + destruct (Js.greater _ _); [exact N|].
        unfold Q. clear N Q.
        destruct quantity as [q|t]; cbn [asInt Js.plus]; [|reflexivity].
        apply find_itemsOf_In in He. destruct He as (Hin & _ & _).
        cbn [db calls]. rewrite (In_hasItem _ _ Hin). cbn [db calls snd].
        rewrite respondUpdated_db. cbn [db].
        right. right. exists e. split; [exact Hin|reflexivity].
      + unfold Q. clear N Q.
        destruct quantity as [q|t]; cbn [asInt]; [|reflexivity].
        cbn [db snd]. rewrite respondUpdated_db. cbn [db].
        right. left. eexists. eexists. reflexivity.
    - match goal with
      | |- context [find ?f (itemsOf ?c ?s)] =>
          destruct (find f (itemsOf c s)) as [e|] eqn:He
      end.
      + destruct (Js.greater _ _); [exact N|].
        unfold Q. clear N Q.
        destruct quantity as [q|t]; cbn [asInt Js.plus]; [|reflexivity].
        apply find_itemsOf_In in He. destruct He as (Hin & _ & _).
        cbn [db calls]. rewrite (In_hasItem _ _ Hin). cbn [db calls snd].
        rewrite respondUpdated_db. cbn [db].
        right. right. exists e. split; [exact Hin|reflexivity].
      + unfold Q. clear N Q.
        destruct quantity as [q|t]; cbn [asInt]; [|reflexivity].
        cbn [db snd]. rewrite respondUpdated_db. cbn [db].
        right. left. eexists. eexists. reflexivity. }
  destruct (body_quantity req) as [[q|t]|]; apply (G _ eq_refl).
Qed.

Lemma ChangedWithinCap_refl (l : list CartItem) : ChangedWithinCap l l.
Proof. intros i Hi. left. exact Hi. Qed.

Lemma addToCart_within_cap (req : Request) (w : World) (q : Z) :
  ItemKeys (db w) ->
  body_quantity req = Some q -> 1 <= q <= 100 ->
  ChangedWithinCap (cartItems (db w)) (cartItems (db (snd (addToCart req w)))).
Proof.
  intros [Hnd Hlt] Hq Hr.
  pose proof (addToCart_items req w) as H. rewrite Hq in H.
  destruct H as [->|[(cartId & productId & ->)|(e & Hin & ->)]].
  - apply ChangedWithinCap_refl.
  - intros i Hi. apply in_app_or in Hi. destruct Hi as [Hi|[<-|[]]].
    + left. exact Hi.
    + right. left. cbn [i_id i_quantity]. split; [|exact Hr].
      intros Hin. apply in_map_iff in Hin. destruct Hin as (j & Hj & Hin).
      rewrite Forall_forall in Hlt. apply Hlt in Hin. lia.
  - intros i Hi. unfold setQuantity in Hi. apply in_map_iff in Hi.
    destruct Hi as (y & Hy & Hy').
    destruct (i_id y =? i_id e) eqn:E.
    + assert (y = e)
        by (apply (NoDup_ids_eq (cartItems (db w))); [exact Hnd|auto|auto|lia]).
      subst y i. right. right. exists e. cbn. split; [exact Hin|]. lia.
    + subst i. left. exact Hy'.
Qed.

Lemma integerText_within (s : string) (min max : option Z) :
  isInt min max (Text s) = true
  <-> exists z, integerText s = Some z /\ within min max z = true.
Proof.
  cbn [isInt]. destruct (integerText s) as [z|]; split.
  - intros H. exists z. split; [reflexivity|exact H].
  - intros (z' & E & H). inversion E. subst z'. exact H.
  - discriminate.
  - intros (z' & E & _). discriminate E.
Qed.

Lemma within_1_100 (z : Z) :
  within (Some 1) (Some 100) z = true <-> 1 <= z <= 100.
Proof. unfold within. rewrite andb_true_iff, !Z.leb_le. tauto. Qed.

(** A quantity that is not a number reaches no item row. *)
Lemma addToCart_text_quantity (req : Request) (w : World) (t : string) :
  body_quantity req = Some (Js.Str t) ->
  cartItems (db (snd (addToCart req w))) = cartItems (db w).
Proof.
  intros Hq. pose proof (addToCart_items req w) as H. rewrite Hq in H.
  exact H.
Qed.

(** C10, amended.  Behind the router, the quantity of an add-item or
    update-quantity request passes its validator exactly when it is an
    integer number from 1 to 100, a string that spells one (signs and
    leading zeros allowed), or an array the chain lets pass; an
    authenticated request with any other quantity is answered with a
    validation error before the handler runs (the world is as
    [authenticate] left it), whatever the stock.  A string or an array
    that passes reaches the handler as it is and changes no item.  Hence
    one request never creates an item with a quantity above 100 and never
    raises the quantity of an item by more than 100; the quantity of an
    item that [addToCart] merges into may pass 100. *)
Theorem quantity_cap (verifyToken : string -> string + Z) (h : HttpRequest)
  (w : World) :
  (isInt (Some 1) (Some 100) (h_quantity h) = true
   <-> match h_quantity h with
       | IntegerNumber z => 1 <= z <= 100
       | Text s => exists z, integerText s = Some z /\ 1 <= z <= 100
       | Listed _ passes => passes = true
       | Missing | NotAnInteger => False
       end)
  /\ (forall userId w1,
        authenticate verifyToken h w = (Ok userId, w1) ->
        h_route h = POST_items \/ (exists p, h_route h = PUT_item p) ->
        isInt (Some 1) (Some 100) (h_quantity h) = false ->
        exists msg,
          cartRouter verifyToken h w = (Throw (ValidationError msg), w1))
  /\ (forall text,
        h_quantity h = Text text
        \/ (exists passes, h_quantity h = Listed text passes) ->
        cartItems (db (snd (cartRouter verifyToken h w))) = cartItems (db w))
  /\ (ItemKeys (db w) ->
      ChangedWithinCap (cartItems (db w))
        (cartItems (db (snd (cartRouter verifyToken h w))))).
Proof.
  assert (T : forall text,
             h_quantity h = Text text
             \/ (exists passes, h_quantity h = Listed text passes) ->
             cartItems (db (snd (cartRouter verifyToken h w)))
             = cartItems (db w)).
  { intros text Q. unfold cartRouter. unfold bind at 1.
    pose proof (authenticate_db verifyToken h w) as D.
    destruct (authenticate verifyToken h w) as [[userId|err] w1];
      cbn [snd] in D; [|cbn [snd]; rewrite D; reflexivity].
    rewrite <- D.
    destruct (h_route h).
    - apply getCart_items.
    - unfold validateCartItem, check, bind.
      destruct (isInt (Some 1) None (h_productId h));
        destruct (isInt (Some 1) (Some 100) (h_quantity h));
        cbn [app validate]; unfold ret, throw; try reflexivity.
      apply (addToCart_text_quantity _ _ text).
      unfold handlerRequest. cbn [body_quantity].
      destruct Q as [->|(passes & ->)]; reflexivity.
    - unfold validateQuantityUpdate, check, bind.
      destruct (isInt (Some 1) (Some 100) (h_quantity h));
        cbn [app validate]; unfold ret, throw; reflexivity.
    - reflexivity.
    - reflexivity. }
  split; [|split; [|split; [exact T|]]].
  - destruct (h_quantity h) as [|z|s|s passes|].
    + split; [discriminate|intros []].
    + cbn [isInt]. rewrite andb_true_iff, within_1_100, Z.ltb_lt. split.
      * tauto.
      * intros H. split; [|exact H]. change (10 ^ 21) with 1000000000000000000000.
        lia.
    + rewrite integerText_within. split; intros (z & E & H); exists z;
        (split; [exact E|apply within_1_100; exact H]).
    + reflexivity.
    + split; [discriminate|intros []].
  - intros userId w1 A R V. unfold cartRouter. unfold bind at 1. rewrite A.
    destruct R as [R|(p & R)]; rewrite R.
    + unfold validateCartItem, check, bind. rewrite V.
      destruct (isInt (Some 1) None (h_productId h)); eexists; reflexivity.
    + unfold validateQuantityUpdate, check, bind. rewrite V.
      eexists; reflexivity.
  - intros K.
    destruct (h_quantity h) as [|q|s|s passes|] eqn:Q;
      try (rewrite (T s) by (rewrite <- Q; eauto);
           apply ChangedWithinCap_refl).
    all: unfold cartRouter; unfold bind at 1;
      pose proof (authenticate_db verifyToken h w) as D;
      (destruct (authenticate verifyToken h w) as [[userId|err] w1];
       cbn [snd] in D; [|cbn [snd]; rewrite D; apply ChangedWithinCap_refl]);
      rewrite <- D in *;
      (destruct (h_route h);
       [ rewrite getCart_items; apply ChangedWithinCap_refl
       | unfold validateCartItem, check, bind
       | unfold validateQuantityUpdate, check, bind;
         destruct (isInt (Some 1) (Some 100) (h_quantity h));
         cbn [app validate]; unfold ret, throw; apply ChangedWithinCap_refl
       | apply ChangedWithinCap_refl
       | apply ChangedWithinCap_refl ]).
    + rewrite Q. cbn [isInt].
      destruct (isInt (Some 1) None (h_productId h)); apply ChangedWithinCap_refl.
    + destruct (isInt (Some 1) None (h_productId h));
        destruct (isInt (Some 1) (Some 100) (h_quantity h)) eqn:V;
        cbn [app validate]; unfold ret, throw;
        try apply ChangedWithinCap_refl.
      rewrite Q in V. cbn [isInt] in V. apply andb_prop in V.
      destruct V as [_ V]. apply within_1_100 in V.
      apply (addToCart_within_cap _ _ q); [exact K| |exact V].
      unfold handlerRequest. cbn [body_quantity]. rewrite Q. reflexivity.
    + rewrite Q. cbn [isInt].
      destruct (isInt (Some 1) None (h_productId h)); apply ChangedWithinCap_refl.
Qed.

Lemma quantity_cap_witness :
  authenticate tokenOfUser1 (postItems (IntegerNumber 7) (IntegerNumber 101))
    worldWith100
  = (Ok 1, logged worldWith100 [user_findUnique 1])
  /\ cartRouter tokenOfUser1 (postItems (IntegerNumber 7) (IntegerNumber 101))
       worldWith100
     = (Throw (ValidationError "Quantity must be between 1 and 100"),
        logged worldWith100 [user_findUnique 1])
  /\ cartRouter tokenOfUser1 (postItems (IntegerNumber 7) (IntegerNumber 0))
       worldWith100
     = (Throw (ValidationError "Quantity must be between 1 and 100"),
        logged worldWith100 [user_findUnique 1])
  /\ map (isInt (Some 1) (Some 100))
       [Text "5"; Text "+007"; Text "100"; Text "101"; Text "0"; Text " 5";
        Text "5.0"; Text "1e1"; Text ""; Text "-"; IntegerNumber (10 ^ 21);
        Missing; NotAnInteger]
     = [true; true; true; false; false; false;
        false; false; false; false; false;
        false; false]
  /\ isInt (Some 1) None (IntegerNumber (10 ^ 21)) = false
  /\ fst (cartRouter tokenOfUser1 (postItems (IntegerNumber 7) (Text "5"))
            world0)
     = Throw (InternalError "Invalid value provided. Expected Int")
  /\ fst (cartRouter tokenOfUser1 (postItems (IntegerNumber 7) (Text "5"))
            worldWith100)
     = Throw (BadRequestError "Cannot add 5 more. Only 400 available")
  /\ cartItems (db (snd (cartRouter tokenOfUser1
          (postItems (IntegerNumber 7) (Text "5")) worldWith100)))
     = [mkItem 1 1 7 100]
  /\ ChangedWithinCap (cartItems (db worldWith100))
       (cartItems (db (snd (cartRouter tokenOfUser1
          (postItems (IntegerNumber 7) (IntegerNumber 100)) worldWith100)))).
Proof.
  assert (A : authenticate tokenOfUser1
                (postItems (IntegerNumber 7) (IntegerNumber 101)) worldWith100
              = (Ok 1, logged worldWith100 [user_findUnique 1]))
    by reflexivity.
  split; [exact A|]. split; [reflexivity|]. split; [reflexivity|].
  split; [reflexivity|]. split; [reflexivity|]. split; [reflexivity|].
  split; [reflexivity|]. split.
  - destruct (quantity_cap tokenOfUser1
                (postItems (IntegerNumber 7) (Text "5")) worldWith100)
      as (_ & _ & T & _).
    rewrite (T "5" (or_introl eq_refl)). reflexivity.
  - destruct (quantity_cap tokenOfUser1
                (postItems (IntegerNumber 7) (IntegerNumber 100)) worldWith100)
      as (_ & _ & _ & C).
    apply C. split; [repeat constructor; cbn; intros []|].
    repeat constructor.
Defined.

(* ================================================================== *)
(** ** The routes that read [req.params.userId] *)
(* ================================================================== *)

(** C8 at the public interface.  [DELETE /] binds no [:userId], and
    [clearCart] reads its owner from [req.params.userId]: every request
    that [authenticate] accepts on this route is answered with "Invalid
    user ID" before the cart is looked up.  No cart is cleared and no empty
    view is returned, for any owner; the items stay where they were. *)
Theorem clearCart_behind_router (verifyToken : string -> string + Z)
  (h : HttpRequest) (w w1 : World) (userId : Z) :
  authenticate verifyToken h w = (Ok userId, w1) ->
  h_route h = DELETE_cart ->
  cartRouter verifyToken h w
  = (Throw (ValidationError "Invalid user ID"), w1)
  /\ db w1 = db w
  /\ issued w1 (snd (cartRouter verifyToken h w)) = []
  /\ forall cartId,
       itemsOf cartId (db (snd (cartRouter verifyToken h w)))
       = itemsOf cartId (db w).
Proof.
  intros A R.
  pose proof (authenticate_db verifyToken h w) as D. rewrite A in D.
  cbn [snd] in D.
  pose proof (routes_without_userId_fail verifyToken h w w1 userId A) as F.
  rewrite R in F. rewrite F. cbn [snd].
  split; [reflexivity|]. split; [exact D|]. split.
  - unfold issued. apply skipn_all.
  - intros cartId. rewrite D. reflexivity.
Qed.

Lemma clearCart_behind_router_witness :
  authenticate tokenOfUser1 deleteCartRoute worldOfMills
  = (Ok 1, logged worldOfMills [user_findUnique 1])
  /\ itemsOf 1 (db worldOfMills) = [mkItem 1 1 1 1; mkItem 2 1 2 1]
  /\ cartRouter tokenOfUser1 deleteCartRoute worldOfMills
     = (Throw (ValidationError "Invalid user ID"),
        logged worldOfMills [user_findUnique 1])
  /\ itemsOf 1 (db (snd (cartRouter tokenOfUser1 deleteCartRoute worldOfMills)))
     = [mkItem 1 1 1 1; mkItem 2 1 2 1].
Proof.
  assert (A : authenticate tokenOfUser1 deleteCartRoute worldOfMills
              = (Ok 1, logged worldOfMills [user_findUnique 1]))
    by reflexivity.
  split; [exact A|]. split; [reflexivity|].
  destruct (clearCart_behind_router tokenOfUser1 deleteCartRoute worldOfMills
              _ 1 A eq_refl) as (E & _ & _ & I).
  split; [exact E|]. rewrite I. reflexivity.
Defined.

(** C4 at the public interface.  The removal shortcut cannot be taken: on
    [PUT /items/:productId], [validateQuantityUpdate] refuses a quantity
    that is a number below 1 with "Quantity must be between 1 and 100"
    before the handler runs, so the handler's branch for [quantity < 1] is
    never reached with such a quantity; and whatever the quantity, a
    request on this route is not answered with a cart and leaves the
    store, the item included, as it was. *)
Theorem removal_shortcut_refused (verifyToken : string -> string + Z)
  (h : HttpRequest) (w : World) (productId : string) :
  h_route h = PUT_item productId ->
  (forall userId w1 z,
      authenticate verifyToken h w = (Ok userId, w1) ->
      h_quantity h = IntegerNumber z -> z < 1 ->
      cartRouter verifyToken h w
      = (Throw (ValidationError "Quantity must be between 1 and 100"), w1))
  /\ (forall r, fst (cartRouter verifyToken h w) <> Ok r)
  /\ db (snd (cartRouter verifyToken h w)) = db w.
Proof.
  intros R. split.
  - intros userId w1 z A Q Hz. rewrite cartRouter_run, A, R. cbv zeta.
    unfold validateQuantityUpdate, check, bind. rewrite Q. cbn [isInt].
    assert (V : within (Some 1) (Some 100) z = false).
    { unfold within. apply andb_false_iff. left. apply Z.leb_gt. lia. }
    rewrite V, andb_false_r. reflexivity.
  - destruct (router_writes_nothing_elsewhere verifyToken h w) as [G|[G|G]];
      [rewrite R in G; discriminate G|rewrite R in G; discriminate G|exact G].
Qed.

Lemma removal_shortcut_refused_witness :
  h_route (putItem "7" (IntegerNumber 0)) = PUT_item "7"
  /\ cartItems (db worldWith5) = [mkItem 1 1 7 5]
  /\ cartRouter tokenOfUser1 (putItem "7" (IntegerNumber 0)) worldWith5
     = (Throw (ValidationError "Quantity must be between 1 and 100"),
        logged worldWith5 [user_findUnique 1])
  /\ cartItems (db (snd (cartRouter tokenOfUser1
                           (putItem "7" (IntegerNumber 0)) worldWith5)))
     = [mkItem 1 1 7 5]
  /\ cartRouter tokenOfUser1 (putItem "7" (IntegerNumber 1)) worldWith5
     = (Throw (ValidationError "Invalid user ID"),
        logged worldWith5 [user_findUnique 1]).
Proof.
  assert (R : h_route (putItem "7" (IntegerNumber 0)) = PUT_item "7")
    by reflexivity.
  split; [exact R|]. split; [reflexivity|].
  destruct (removal_shortcut_refused tokenOfUser1 (putItem "7" (IntegerNumber 0))
              worldWith5 "7" R) as (V & _ & D).
  split; [|split; [rewrite D; reflexivity|reflexivity]].
  apply (V 1 _ 0); [reflexivity|reflexivity|lia].
Defined.

(** The item rows after [addToCart]: as before, or with one row appended
    under a fresh id, or with the quantity of one row, of an active
    product, set anew. *)
Lemma addToCart_items_active (req : Request) (w : World) :
  cartItems (db (snd (addToCart req w))) = cartItems (db w)
  \/ (exists cartId productId q,
        cartItems (db (snd (addToCart req w)))
        = (cartItems (db w) ++ [mkItem (nextItemId (db w)) cartId productId q])%list)
  \/ (exists e p q,
        In e (cartItems (db w))
        /\ findProduct (i_productId e) (db w) = Some p
        /\ p_isActive p = true
        /\ cartItems (db (snd (addToCart req w)))
           = setQuantity (i_id e) q (cartItems (db w))).
Proof.
  set (Q := fun l =>
              l = cartItems (db w)
              \/ (exists cartId productId q,
                    l = (cartItems (db w)
                         ++ [mkItem (nextItemId (db w)) cartId productId q])%list)
              \/ (exists e p q,
                    In e (cartItems (db w))
                    /\ findProduct (i_productId e) (db w) = Some p
                    /\ p_isActive p = true
                    /\ l = setQuantity (i_id e) q (cartItems (db w)))).
  change (Q (cartItems (db (snd (addToCart req w))))).
  assert (N : Q (cartItems (db w))) by (left; reflexivity).
  unfold addToCart.
  set (quantity := match body_quantity req with Some q => q | None => Js.Num 1 end).
  clearbody quantity.
  destruct (user_userId req <? 1); [exact N|].
  destruct (body_productId req) as [[productId|t]|]; [|exact N|exact N].
  cbn [asInt]. unfold bind at 1. unfold_client. cbn [db calls].
  destruct (findProduct productId (db w)) as [product|] eqn:Hp; [|exact N].
  destruct (p_isActive product) eqn:Ha; cbn [negb]; [|exact N].
  destruct (p_stock product <? 1); [exact N|].
  destruct (Js.less (p_stock product) quantity); [exact N|].
  unfold bind. cbn [db calls].
  destruct (findCart (user_userId req) (db w)) as [c|];
    cbn [option_map fst snd db calls joinItems insertCart c_id].
  - destruct (find _ (itemsOf (c_id c) (db w))) as [e|] eqn:He.
    + destruct (Js.greater _ _); [exact N|].
      destruct quantity as [q|t]; cbn [asInt Js.plus]; [|exact N].
      apply find_itemsOf_In in He. destruct He as (Hin & _ & Hpid).
      cbn [db calls]. rewrite (In_hasItem _ _ Hin). cbn [db calls snd].
      rewrite respondUpdated_db. cbn [db].
      right. right. exists e, product, (i_quantity e + q).
      split; [exact Hin|]. split; [|split; [exact Ha|reflexivity]].
      replace (i_productId e) with productId by lia. exact Hp.
    + destruct quantity as [q|t]; cbn [asInt]; [|exact N].
      cbn [db snd]. rewrite respondUpdated_db. cbn [db].
      right. left. eexists. eexists. eexists. reflexivity.
  - match goal with
    | |- context [find ?f (itemsOf ?c ?s)] =>
        destruct (find f (itemsOf c s)) as [e|] eqn:He
    end.
    + destruct (Js.greater _ _); [exact N|].
      destruct quantity as [q|t]; cbn [asInt Js.plus]; [|exact N].
      apply find_itemsOf_In in He. destruct He as (Hin & _ & Hpid).
      cbn [db calls]. rewrite (In_hasItem _ _ Hin). cbn [db calls snd].
      rewrite respondUpdated_db. cbn [db].
      right. right. exists e, product, (i_quantity e + q).
      split; [exact Hin|]. split; [|split; [exact Ha|reflexivity]].
      replace (i_productId e) with productId by lia. exact Hp.
    + destruct quantity as [q|t]; cbn [asInt]; [|exact N].
      cbn [db snd]. rewrite respondUpdated_db. cbn [db].
      right. left. eexists. eexists. eexists. reflexivity.
Qed.

(** With a cart, [getCart] writes nothing. *)
Lemma getCart_db_found (req : Request) (w : World) (cart : Cart) :
  findCart (user_userId req) (db w) = Some cart ->
  db (snd (getCart req w)) = db w.
Proof.
  intros Hc. unfold getCart, bind. unfold_client. cbn [db calls].
  rewrite Hc. cbn [option_map]. unfold cartView.
  destruct (enrichAll _); reflexivity.
Qed.

(** A row of an inactive product stays as it is through [addToCart]. *)
Lemma inactive_row_kept (req : Request) (w : World) (e : CartItem)
  (p : Product) :
  ItemKeys (db w) ->
  In e (cartItems (db w)) ->
  findProduct (i_productId e) (db w) = Some p ->
  p_isActive p = false ->
  In e (cartItems (db (snd (addToCart req w))))
  /\ forall i, In i (cartItems (db (snd (addToCart req w)))) ->
       i_id i = i_id e -> i = e.
Proof.
  intros [Hnd Hlt] Hin Hp Ha.
  destruct (addToCart_items_active req w)
    as [->|[(cartId & productId & q & ->)|(e0 & p0 & q & Hin0 & Hp0 & Ha0 & ->)]].
  - split; [exact Hin|]. intros i Hi E.
    apply (NoDup_ids_eq (cartItems (db w))); assumption.
  - split; [apply in_or_app; left; exact Hin|]. intros i Hi E.
    apply in_app_or in Hi. destruct Hi as [Hi|[<-|[]]].
    + apply (NoDup_ids_eq (cartItems (db w))); assumption.
    + rewrite Forall_forall in Hlt. apply Hlt in Hin. cbn [i_id] in E. lia.
  - assert (N : (i_id e =? i_id e0) = false).
    { apply Z.eqb_neq. intros E.
      assert (e = e0)
        by (apply (NoDup_ids_eq (cartItems (db w))); assumption).
      subst e0. rewrite Hp in Hp0. inversion Hp0. subst p0.
      rewrite Ha in Ha0. discriminate Ha0. }
    split.
    + unfold setQuantity. apply in_map_iff. exists e. rewrite N.
      split; [reflexivity|exact Hin].
    + intros i Hi E. unfold setQuantity in Hi. apply in_map_iff in Hi.
      destruct Hi as (y & Hy & Hy').
      assert (Ey : i_id y = i_id e).
      { rewrite <- E, <- Hy. destruct (i_id y =? i_id e0); reflexivity. }
      assert (y = e)
        by (apply (NoDup_ids_eq (cartItems (db w))); assumption).
      subst y. rewrite N in Hy. symmetry. exact Hy.
Qed.

(** C7 at the public interface (inactive-product rule).  An add-item
    request with a quantity that passes the validator, from a user id of at
    least 1 and for a product id that is a number in the range of an [Int],
    fails with "Product not found" when the product is missing and with
    "Product is not available" when it is inactive, after one read and
    without a write.  A read of the cart lists every item of the cart with its
    quantity, whether its product is active or not.  And no request at all,
    on any route, changes a row whose product is inactive: the row is
    still there with its quantity, and it is the only row with its id. *)
Theorem inactive_product_rule (verifyToken : string -> string + Z)
  (h : HttpRequest) (w : World) :
  (forall userId w1 productId,
      authenticate verifyToken h w = (Ok userId, w1) -> 1 <= userId ->
      h_route h = POST_items ->
      h_productId h = IntegerNumber productId ->
      1 <= productId < 2 ^ 31 ->
      isInt (Some 1) (Some 100) (h_quantity h) = true ->
      db w1 = db w
      /\ match findProduct productId (db w) with
         | None =>
             cartRouter verifyToken h w
             = (Throw (NotFoundError "Product"),
                logged w1 [product_findUnique productId])
         | Some p =>
             p_isActive p = false ->
             cartRouter verifyToken h w
             = (Throw (BadRequestError "Product is not available"),
                logged w1 [product_findUnique productId])
         end)
  /\ (forall userId w1 cart,
        authenticate verifyToken h w = (Ok userId, w1) ->
        h_route h = GET_cart ->
        Referential (db w) ->
        findCart userId (db w) = Some cart ->
        exists r w',
          cartRouter verifyToken h w = (Ok r, w')
          /\ db w' = db w
          /\ map e_id (v_items (r_cart r))
             = map i_id (itemsOf (c_id cart) (db w))
          /\ map e_quantity (v_items (r_cart r))
             = map i_quantity (itemsOf (c_id cart) (db w)))
  /\ (forall e p,
        ItemKeys (db w) ->
        In e (cartItems (db w)) ->
        findProduct (i_productId e) (db w) = Some p ->
        p_isActive p = false ->
        In e (cartItems (db (snd (cartRouter verifyToken h w))))
        /\ forall i,
             In i (cartItems (db (snd (cartRouter verifyToken h w)))) ->
             i_id i = i_id e -> i = e).
Proof.
  pose proof (authenticate_db verifyToken h w) as D.
  split; [|split].
  - intros userId w1 productId A Hu R Q Hr V2. rewrite A in D.
    cbn [snd] in D. split; [exact D|].
    assert (V1 : isInt (Some 1) None (h_productId h) = true).
    { rewrite Q. unfold isInt, within.
      change (2 ^ 31) with 2147483648 in Hr.
      change (10 ^ 21) with 1000000000000000000000.
      rewrite andb_true_r. apply andb_true_iff.
      split; [apply Z.ltb_lt|apply Z.leb_le]; lia. }
    rewrite cartRouter_run, A, R. cbv zeta.
    unfold validateCartItem, check, bind. rewrite V1, V2.
    cbn [app validate]. unfold ret.
    assert (B : body_productId (handlerRequest userId h) = Some productId)
      by (unfold handlerRequest; cbn [body_productId]; rewrite Q; reflexivity).
    rewrite <- D.
    destruct (findProduct productId (db w1)) as [p|] eqn:Hp.
    + intros Ha.
      apply (addToCart_inactive_product _ _ productId p); assumption.
    + apply (addToCart_missing_product _ _ productId); assumption.
  - intros userId w1 cart A R Ref Hc. rewrite A in D. cbn [snd] in D.
    rewrite cartRouter_run, A, R. cbv zeta. rewrite <- D in Ref, Hc.
    destruct (getCart_ok (handlerRequest userId h) w1 Ref) as (r & w' & G).
    exists r, w'. split; [exact G|].
    pose proof (getCart_db_found (handlerRequest userId h) w1 cart Hc) as Dg.
    rewrite G in Dg. cbn [snd] in Dg.
    split; [rewrite Dg; exact D|].
    destruct (getCart_view _ _ _ _ G) as (cart' & items & Hc' & He & Hv).
    cbn [handlerRequest user_userId] in Hc'. rewrite Dg, Hc in Hc'.
    inversion Hc'. subst cart'. rewrite Hv. cbn [viewOf v_items].
    cbn [joinProducts snd] in He.
    destruct (enrichAll_rows selectWithActive _ _ items eq_refl He)
      as (H1 & H2 & _).
    rewrite Dg, D in H1, H2. split; assumption.
  - intros e p K Hin Hp Ha.
    assert (Same : db (snd (cartRouter verifyToken h w)) = db w ->
                   In e (cartItems (db (snd (cartRouter verifyToken h w))))
                   /\ forall i,
                        In i (cartItems (db (snd (cartRouter verifyToken h w)))) ->
                        i_id i = i_id e -> i = e).
    { intros ->. split; [exact Hin|]. intros i Hi E.
      apply (NoDup_ids_eq (cartItems (db w))); [apply K|assumption..]. }
    destruct (cartRouter_cases verifyToken h w)
      as [E|(userId & w1 & A & [[R E]|[R E]])]; [exact (Same E)|..];
      rewrite A in D; cbn [snd] in D.
    + rewrite E, getCart_items, D. split; [exact Hin|]. intros i Hi Ei.
      apply (NoDup_ids_eq (cartItems (db w))); [apply K|assumption..].
    + rewrite E. rewrite <- D in K, Hin, Hp.
      apply (inactive_row_kept _ w1 e p); assumption.
Qed.

Lemma inactive_product_rule_witness :
  authenticate tokenOfUser1 (postItems (IntegerNumber 7) (IntegerNumber 1))
    worldInactive
  = (Ok 1, logged worldInactive [user_findUnique 1])
  /\ option_map p_isActive (findProduct 7 (db worldInactive)) = Some false
  /\ cartRouter tokenOfUser1 (postItems (IntegerNumber 7) (IntegerNumber 1))
       worldInactive
     = (Throw (BadRequestError "Product is not available"),
        logged worldInactive [user_findUnique 1; product_findUnique 7])
  /\ cartRouter tokenOfUser1 (postItems (IntegerNumber 8) (IntegerNumber 1))
       worldInactive
     = (Throw (NotFoundError "Product"),
        logged worldInactive [user_findUnique 1; product_findUnique 8])
  /\ In (mkItem 1 1 7 3)
       (cartItems (db (snd (cartRouter tokenOfUser1
                              (postItems (IntegerNumber 7) (IntegerNumber 1))
                              worldInactive))))
  /\ option_map (fun r => map e_quantity (v_items (r_cart r)))
       (match fst (cartRouter tokenOfUser1 getCartRoute worldInactive) with
        | Ok r => Some r
        | Throw _ => None
        end)
     = Some [3].
Proof.
  assert (A : authenticate tokenOfUser1
                (postItems (IntegerNumber 7) (IntegerNumber 1)) worldInactive
              = (Ok 1, logged worldInactive [user_findUnique 1]))
    by reflexivity.
  split; [exact A|]. split; [reflexivity|].
  destruct (inactive_product_rule tokenOfUser1
              (postItems (IntegerNumber 7) (IntegerNumber 1)) worldInactive)
    as (P & _ & K).
  destruct (P 1 _ 7 A ltac:(lia) eq_refl eq_refl ltac:(lia) eq_refl)
    as (_ & P7).
  split; [exact (P7 eq_refl)|]. split; [reflexivity|]. split; [|reflexivity].
  apply (K (mkItem 1 1 7 3)
           (mkProduct 7 "Lamp" (Js.mkDecimal 1000 2) "lamp.png" 10 false)).
  - split; [repeat constructor; cbn; intros []|].
    repeat constructor.
  - left. reflexivity.
  - reflexivity.
  - reflexivity.
Defined.

(* ================================================================== *)
(** * Further properties of the cart handlers *)
(* ================================================================== *)

(* ------------------------------------------------------------------ *)
(** *** The shape of a run *)

Lemma RunShape_none (owner : option Z) (s : Store) : RunShape owner s s.
Proof. exists s. split; left; reflexivity. Qed.

Lemma RunShape_write (u : Z) (c : Cart) (s s' : Store) :
  findCart u s = Some c -> ItemWrite (c_id c) s s' ->
  RunShape (Some u) s s'.
Proof.
  intros Hc W. exists s. split; [left; reflexivity|].
  right. exists u, c. auto.
Qed.

Lemma RunShape_created (u : Z) (s s' : Store) :
  findCart u s = None ->
  ItemWrite (nextCartId s) (snd (insertCart u s)) s' ->
  RunShape (Some u) s s'.
Proof.
  intros Hc W. exists (snd (insertCart u s)). split.
  - right. exists u. auto.
  - right. exists u, (mkCart (nextCartId s) u). split; [reflexivity|].
    split; [apply findCart_insert; exact Hc|exact W].
Qed.

Lemma getCart_shape (req : Request) (w : World) :
  RunShape (Some (user_userId req)) (db w) (db (snd (getCart req w))).
Proof.
  unfold getCart, bind. unfold_client. cbn [db calls].
  destruct (findCart (user_userId req) (db w)) as [c|] eqn:Hc;
    cbn [option_map fst snd db calls insertCart].
  - unfold cartView. destruct (enrichAll _); cbn; apply RunShape_none.
  - unfold cartView. destruct (enrichAll _); cbn;
      apply (RunShape_created _ _ _ Hc); apply iw_none.
Qed.

Lemma addToCart_shape (req : Request) (w : World) :
  RunShape (Some (user_userId req)) (db w) (db (snd (addToCart req w))).
Proof.
  unfold addToCart.
  set (quantity := match body_quantity req with Some q => q | None => Js.Num 1 end).
  clearbody quantity.
  destruct (user_userId req <? 1); [apply RunShape_none|].
  destruct (body_productId req) as [[productId|t]|];
    [|apply RunShape_none|apply RunShape_none].
  cbn [asInt]. unfold bind at 1. unfold_client. cbn [db calls].
  destruct (findProduct productId (db w)) as [product|];
    [|apply RunShape_none].
  destruct (negb (p_isActive product)); [apply RunShape_none|].
  destruct (p_stock product <? 1); [apply RunShape_none|].
  destruct (Js.less (p_stock product) quantity); [apply RunShape_none|].
  unfold bind. cbn [db calls].
  destruct (findCart (user_userId req) (db w)) as [c|] eqn:Hc;
    cbn [option_map fst snd db calls joinItems insertCart c_id].
  - destruct (find _ (itemsOf (c_id c) (db w))) as [e|] eqn:He.
    + destruct (Js.greater _ _); [apply RunShape_none|].
      destruct quantity as [q|t]; cbn [asInt Js.plus]; [|apply RunShape_none].
      apply find_itemsOf_In in He. destruct He as (Hin & Hcid & _).
      cbn [db calls]. rewrite (In_hasItem _ _ Hin). cbn [db calls snd].
      rewrite respondUpdated_db. cbn [db].
      apply (RunShape_write _ c _ _ Hc). apply iw_update; assumption.
    + destruct quantity as [q|t]; cbn [asInt]; [|apply RunShape_none].
      cbn [db snd]. rewrite respondUpdated_db. cbn [db].
      apply (RunShape_write _ c _ _ Hc). apply iw_insert.
  - match goal with
    | |- context [find ?f (itemsOf ?c ?s)] =>
        destruct (find f (itemsOf c s)) as [e|] eqn:He
    end.
    + destruct (Js.greater _ _);
        [apply (RunShape_created _ _ _ Hc); apply iw_none|].
      destruct quantity as [q|t]; cbn [asInt Js.plus];
        [|apply (RunShape_created _ _ _ Hc); apply iw_none].
      apply find_itemsOf_In in He. destruct He as (Hin & Hcid & _).
      cbn [db calls]. rewrite (In_hasItem _ _ Hin). cbn [db calls snd].
      rewrite respondUpdated_db. cbn [db].
      apply (RunShape_created _ _ _ Hc). apply iw_update; assumption.
    + destruct quantity as [q|t]; cbn [asInt];
        [|apply (RunShape_created _ _ _ Hc); apply iw_none].
      cbn [db snd]. rewrite respondUpdated_db. cbn [db].
      apply (RunShape_created _ _ _ Hc). apply iw_insert.
Qed.

Lemma updateCartItem_shape (req : Request) (w : World) :
  RunShape (Js.parseInt (params_userId req)) (db w)
    (db (snd (updateCartItem req w))).
Proof.
  unfold updateCartItem. unfold bind at 1.
  destruct (requireId_run (Js.parseInt (params_userId req)) "Invalid user ID" w)
    as [(userId & Hu & _ & ->)|[_ ->]]; [|apply RunShape_none].
  rewrite Hu. unfold bind at 1.
  destruct (requireId_run (Js.parseInt (params_productId req))
              "Invalid product ID" w)
    as [(productId & _ & _ & ->)|[_ ->]]; [|apply RunShape_none].
  unfold bind at 1. unfold_client. cbn [db calls].
  destruct (findCart userId (db w)) as [c|] eqn:Hc;
    cbn [option_map fst snd joinItems]; [|apply RunShape_none].
  destruct (find _ (itemsOf (c_id c) (db w))) as [e|] eqn:He;
    [|apply RunShape_none].
  apply find_itemsOf_In in He. destruct He as (Hin & Hcid & _).
  unfold bind at 1. cbn [db calls].
  destruct (findProduct productId (db w)) as [product|];
    [|apply RunShape_none].
  destruct (gtNum _ _); [apply RunShape_none|].
  unfold bind.
  destruct (ltNum _ _).
  - cbn [db calls]. rewrite (In_hasItem _ _ Hin).
    cbn [db calls snd]. rewrite respondUpdated_db. cbn [db].
    apply (RunShape_write _ c _ _ Hc). apply iw_delete; assumption.
  - destruct (body_quantity req) as [[q|t]|]; cbn [setTo asInt];
      unfold_client; cbn [db calls]; [|apply RunShape_none|];
      rewrite (In_hasItem _ _ Hin);
      cbn [db calls snd]; rewrite respondUpdated_db; cbn [db];
      apply (RunShape_write _ c _ _ Hc).
    + apply iw_update; assumption.
    + apply iw_none.
Qed.

Lemma removeFromCart_shape (req : Request) (w : World) :
  RunShape (Js.parseInt (params_userId req)) (db w)
    (db (snd (removeFromCart req w))).
Proof.
  unfold removeFromCart. unfold bind at 1.
  destruct (requireId_run (Js.parseInt (params_userId req)) "Invalid user ID" w)
    as [(userId & Hu & _ & ->)|[_ ->]]; [|apply RunShape_none].
  rewrite Hu. unfold bind at 1.
  destruct (requireId_run (Js.parseInt (params_productId req))
              "Invalid product ID" w)
    as [(productId & _ & _ & ->)|[_ ->]]; [|apply RunShape_none].
  unfold bind at 1. unfold_client. cbn [db calls].
  destruct (findCart userId (db w)) as [c|] eqn:Hc;
    cbn [option_map fst snd joinItems]; [|apply RunShape_none].
  destruct (find _ (itemsOf (c_id c) (db w))) as [e|] eqn:He;
    [|apply RunShape_none].
  apply find_itemsOf_In in He. destruct He as (Hin & Hcid & _).
  unfold bind. cbn [db calls]. rewrite (In_hasItem _ _ Hin).
  cbn [db calls snd]. rewrite respondUpdated_db. cbn [db].
  apply (RunShape_write _ c _ _ Hc). apply iw_delete; assumption.
Qed.

Lemma clearCart_shape (req : Request) (w : World) :
  RunShape (Js.parseInt (params_userId req)) (db w)
    (db (snd (clearCart req w))).
Proof.
  unfold clearCart. unfold bind at 1.
  destruct (requireId_run (Js.parseInt (params_userId req)) "Invalid user ID" w)
    as [(userId & Hu & _ & ->)|[_ ->]]; [|apply RunShape_none].
  rewrite Hu. unfold bind. unfold_client. cbn [db calls].
  destruct (findCart userId (db w)) as [c|] eqn:Hc; [|apply RunShape_none].
  cbn [db snd]. apply (RunShape_write _ c _ _ Hc). apply iw_deleteMany.
Qed.

Lemma handle_shape (h : Handler) (req : Request) (w : World) :
  RunShape (ownerOf h req) (db w) (db (snd (handle h req w))).
Proof.
  destruct h; cbn [handle ownerOf].
  - apply getCart_shape.
  - apply addToCart_shape.
  - apply updateCartItem_shape.
  - apply removeFromCart_shape.
  - apply clearCart_shape.
Qed.

(* ------------------------------------------------------------------ *)
(** *** What a run never touches *)

Lemma ItemWrite_tables (cartId : Z) (s s' : Store) :
  ItemWrite cartId s s' ->
  users s' = users s /\ products s' = products s /\ carts s' = carts s
  /\ nextCartId s' = nextCartId s.
Proof. destruct 1; repeat split; reflexivity. Qed.

(** X1.  A run of a cart handler never writes to the users or to the
    products, and changes the cart table in one way only: it appends the
    cart of the owner it serves, when that owner has none. *)
Theorem handlers_leave_catalogue (h : Handler) (req : Request) (w : World) :
  users (db (snd (handle h req w))) = users (db w)
  /\ products (db (snd (handle h req w))) = products (db w)
  /\ (carts (db (snd (handle h req w))) = carts (db w)
      \/ exists u,
           ownerOf h req = Some u /\ findCart u (db w) = None
           /\ carts (db (snd (handle h req w)))
              = (carts (db w) ++ [mkCart (nextCartId (db w)) u])%list).
Proof.
  destruct (handle_shape h req w) as (s1 & H1 & H2).
  assert (T : users (db (snd (handle h req w))) = users s1
              /\ products (db (snd (handle h req w))) = products s1
              /\ carts (db (snd (handle h req w))) = carts s1).
  { destruct H2 as [->|(u & c & _ & _ & W)]; [repeat split|].
    destruct (ItemWrite_tables _ _ _ W) as (A & B & C & _). auto. }
  destruct T as (A & B & C). rewrite A, B, C.
  destruct H1 as [->|(u & Hu & Hc & ->)].
  - repeat split. left. reflexivity.
  - repeat split. right. exists u. auto.
Qed.

(* ------------------------------------------------------------------ *)
(** *** One cart per user *)

Lemma findCart_none_notin (u : Z) (s : Store) :
  findCart u s = None -> ~ In u (map c_userId (carts s)).
Proof.
  intros H Hin. apply in_map_iff in Hin. destruct Hin as (c & Hc & Hin).
  apply (find_none _ _ H) in Hin. cbn in Hin. lia.
Qed.

Lemma CartKeys_insertCart (u : Z) (s : Store) :
  findCart u s = None -> CartKeys s -> CartKeys (snd (insertCart u s)).
Proof.
  intros Hc (K1 & K2 & K3). unfold CartKeys.
  cbn [insertCart snd carts nextCartId]. rewrite !map_app. cbn [map].
  split; [|split].
  - apply NoDup_snoc; [exact K1|]. apply findCart_none_notin. exact Hc.
  - apply NoDup_snoc; [exact K2|]. cbn [c_id].
    intros Hin. apply in_map_iff in Hin. destruct Hin as (c & E & Hin).
    rewrite Forall_forall in K3. apply K3 in Hin. lia.
  - apply Forall_app. split.
    + eapply Forall_impl; [|exact K3]. cbn. intros; lia.
    + constructor; [cbn; lia|constructor].
Qed.

Lemma RunShape_CartKeys (owner : option Z) (s s' : Store) :
  RunShape owner s s' -> CartKeys s -> CartKeys s'.
Proof.
  intros (s1 & H1 & H2) K.
  assert (K1 : CartKeys s1).
  { destruct H1 as [->|(u & _ & Hc & ->)]; [exact K|].
    apply CartKeys_insertCart; assumption. }
  destruct H2 as [->|(u & c & _ & _ & W)]; [exact K1|].
  destruct (ItemWrite_tables _ _ _ W) as (_ & _ & C & N).
  unfold CartKeys. rewrite C, N. exact K1.
Qed.

Lemma step_CartKeys (e : Event) (w : World) :
  CartKeys (db w) -> CartKeys (db (step e w)).
Proof.
  destruct e as [h req|ps]; cbn [step].
  - apply (RunShape_CartKeys _ _ _ (handle_shape h req w)).
  - intros K. exact K.
Qed.

(** X2.  One cart per user: along every sequence of handler runs and
    catalogue edits, from a cart table with one cart per user and distinct
    ids below the counter, the cart table stays so; two cart rows of the
    same user are the same row. *)
Theorem one_cart_per_user (es : list Event) (w : World) :
  CartKeys (db w) ->
  CartKeys (db (run es w))
  /\ forall c1 c2,
       In c1 (carts (db (run es w))) -> In c2 (carts (db (run es w))) ->
       c_userId c1 = c_userId c2 -> c1 = c2.
Proof.
  intros K.
  assert (K' : CartKeys (db (run es w))).
  { revert w K. induction es as [|e es IH]; intros w K; [exact K|].
    cbn [run fold_left]. apply IH. apply step_CartKeys. exact K. }
  split; [exact K'|].
  destruct K' as (K1 & _ & _). revert K1.
  generalize (carts (db (run es w))). intros l.
  induction l as [|x l IH]; cbn; intros Hnd c1 c2 H1 H2 E; [contradiction|].
  inversion Hnd as [|y ys Hnotin Hnd']; subst.
  destruct H1 as [->|H1], H2 as [->|H2]; auto.
  - exfalso. apply Hnotin. rewrite E. apply in_map. exact H2.
  - exfalso. apply Hnotin. rewrite <- E. apply in_map. exact H1.
Qed.

Lemma one_cart_per_user_witness :
  CartKeys (db world0)
  /\ carts (db (run mergeHistory world0)) = [mkCart 1 1]
  /\ CartKeys (db (run mergeHistory world0)).
Proof.
  assert (K : CartKeys (db world0)) by (repeat split; constructor).
  split; [exact K|]. split; [reflexivity|].
  exact (proj1 (one_cart_per_user mergeHistory world0 K)).
Defined.

(* ------------------------------------------------------------------ *)
(** *** Carts are independent *)

Lemma setQuantity_other (id q other : Z) (l : list CartItem) :
  (forall y, In y l -> i_id y = id -> i_cartId y <> other) ->
  filter (fun i => i_cartId i =? other) (setQuantity id q l)
  = filter (fun i => i_cartId i =? other) l.
Proof.
  unfold setQuantity. induction l as [|a l IH]; intros H; [reflexivity|].
  cbn [map filter]. rewrite IH by (intros y Hy; apply H; right; exact Hy).
  destruct (i_id a =? id) eqn:E; [|reflexivity].
  cbn [i_cartId]. destruct (i_cartId a =? other) eqn:E2; [|reflexivity].
  exfalso. apply (H a); [left; reflexivity|lia|lia].
Qed.

Lemma deleteById_other (id other : Z) (l : list CartItem) :
  (forall y, In y l -> i_id y = id -> i_cartId y <> other) ->
  filter (fun i => i_cartId i =? other)
    (filter (fun i => negb (i_id i =? id)) l)
  = filter (fun i => i_cartId i =? other) l.
Proof.
  induction l as [|a l IH]; intros H; [reflexivity|].
  cbn [filter]. specialize (IH (fun y Hy => H y (or_intror Hy))).
  destruct (i_id a =? id) eqn:E; cbn [negb filter].
  - rewrite IH. destruct (i_cartId a =? other) eqn:E2; [|reflexivity].
    exfalso. apply (H a); [left; reflexivity|lia|lia].
  - rewrite IH. reflexivity.
Qed.

Lemma ItemWrite_other (cartId other : Z) (s s' : Store) :
  ItemKeys s -> ItemWrite cartId s s' -> other <> cartId ->
  itemsOf other s' = itemsOf other s.
Proof.
  intros [Hnd _] W N. unfold itemsOf.
  destruct W as [|productId q|e q Hin Hc|e Hin Hc|];
    cbn [insertItem updateItem deleteItem withItems cartItems].
  - reflexivity.
  - rewrite filter_app. cbn [filter i_cartId].
    destruct (cartId =? other) eqn:E; [lia|]. apply app_nil_r.
  - apply setQuantity_other. intros y Hy E.
    rewrite (NoDup_ids_eq _ y e Hnd Hy Hin E). lia.
  - apply deleteById_other. intros y Hy E.
    rewrite (NoDup_ids_eq _ y e Hnd Hy Hin E). lia.
  - apply itemsOf_deleteItemsOf_other. exact N.
Qed.

(** X3.  Carts are independent: with distinct item keys, a run of a
    handler leaves the items of every cart untouched, except the cart the
    request selects (by the token in [getCart] and [addToCart], by
    [params.userId] in the others). *)
Theorem other_carts_untouched (h : Handler) (req : Request) (w : World)
  (other : Z) :
  ItemKeys (db w) ->
  (forall u c, ownerOf h req = Some u ->
               findCart u (db (snd (handle h req w))) = Some c ->
               c_id c <> other) ->
  itemsOf other (db (snd (handle h req w))) = itemsOf other (db w).
Proof.
  intros K Hother.
  destruct (handle_shape h req w) as (s1 & H1 & H2).
  assert (I1 : cartItems s1 = cartItems (db w)
               /\ nextItemId s1 = nextItemId (db w)).
  { destruct H1 as [->|(u & _ & _ & ->)]; split; reflexivity. }
  destruct I1 as (I1 & I2).
  assert (K1 : ItemKeys s1) by (unfold ItemKeys; rewrite I1, I2; exact K).
  destruct H2 as [E|(u & c & Hu & Hc & W)].
  - rewrite E. unfold itemsOf. rewrite I1. reflexivity.
  - rewrite (ItemWrite_other (c_id c) other s1 _ K1 W).
    + unfold itemsOf. rewrite I1. reflexivity.
    + intros E. apply (Hother u c Hu); [|symmetry; exact E].
      destruct (ItemWrite_tables _ _ _ W) as (_ & _ & C & _).
      unfold findCart in *. rewrite C. exact Hc.
Qed.

Lemma other_carts_untouched_witness :
  ItemKeys (db worldTwoCarts)
  /\ itemsOf 1 (db (snd (handle HAddToCart (bodyRequest 2 7 2) worldTwoCarts)))
     = itemsOf 1 (db worldTwoCarts)
  /\ itemsOf 2 (db (snd (handle HAddToCart (bodyRequest 2 7 2) worldTwoCarts)))
     = [mkItem 2 2 7 3]
  /\ itemsOf 1 (db (snd (handle HRemoveFromCart
                           (paramRequest 1 (nbsp "2") "7" None) worldTwoCarts)))
     = itemsOf 1 (db worldTwoCarts)
  /\ itemsOf 2 (db (snd (handle HRemoveFromCart
                           (paramRequest 1 (nbsp "2") "7" None) worldTwoCarts)))
     = [].
Proof.
  assert (K : ItemKeys (db worldTwoCarts)).
  { split; [repeat constructor; cbn; intuition discriminate|].
    repeat constructor; cbn; lia. }
  split; [exact K|]. split; [|split; [reflexivity|split; [|reflexivity]]].
  - apply (other_carts_untouched HAddToCart (bodyRequest 2 7 2) worldTwoCarts
             1 K).
    intros u c Hu Hc. cbn in Hu. inversion Hu; subst u.
    vm_compute in Hc. inversion Hc. cbn. lia.
  - apply (other_carts_untouched HRemoveFromCart
             (paramRequest 1 (nbsp "2") "7" None) worldTwoCarts 1 K).
    intros u c Hu Hc. vm_compute in Hu. inversion Hu; subst u.
    vm_compute in Hc. inversion Hc. cbn. lia.
Defined.

(* ------------------------------------------------------------------ *)
(** *** Reading the cart *)

Lemma cartView_fst (cart : CartWithProducts) (w1 w2 : World) :
  fst (cartView cart w1) = fst (cartView cart w2).
Proof. unfold cartView. destruct (enrichAll (snd cart)); reflexivity. Qed.

(** X4.  [getCart] is get-or-create, and reading twice is reading once: a
    second [getCart] of the same user changes nothing in the store and
    gives the outcome of the first. *)
Theorem getCart_twice (req : Request) (w : World) :
  db (snd (getCart req (snd (getCart req w)))) = db (snd (getCart req w))
  /\ fst (getCart req (snd (getCart req w))) = fst (getCart req w)
  /\ findCart (user_userId req) (db (snd (getCart req w))) <> None.
Proof.
  assert (G : forall w0 c,
             findCart (user_userId req) (db w0) = Some c ->
             db (snd (getCart req w0)) = db w0
             /\ fst (getCart req w0)
                = match enrichAll
                          (snd (joinProducts selectWithActive c (db w0))) with
                  | Throw e => Throw e
                  | Ok items => Ok (mkResponse 200 None (viewOf c items))
                  end).
  { intros w0 c Hc. unfold getCart, bind. unfold_client. cbn [db calls].
    rewrite Hc. cbn [option_map]. unfold cartView, throw, ret.
    cbn [fst snd joinProducts].
    destruct (enrichAll _); split; reflexivity. }
  destruct (findCart (user_userId req) (db w)) as [c|] eqn:Hc.
  - destruct (G w c Hc) as (D & F).
    assert (Hc1 : findCart (user_userId req) (db (snd (getCart req w))) = Some c)
      by (rewrite D; exact Hc).
    destruct (G _ c Hc1) as (D1 & F1).
    split; [exact D1|]. split; [|congruence].
    rewrite F1, F, D. reflexivity.
  - assert (R : db (snd (getCart req w))
                = snd (insertCart (user_userId req) (db w))
                /\ fst (getCart req w)
                   = match enrichAll
                             (snd (joinProducts selectWithActive
                                     (mkCart (nextCartId (db w))
                                        (user_userId req))
                                     (snd (insertCart (user_userId req)
                                             (db w))))) with
                     | Throw e => Throw e
                     | Ok items =>
                         Ok (mkResponse 200 None
                               (viewOf (mkCart (nextCartId (db w))
                                          (user_userId req)) items))
                     end).
    { unfold getCart, bind. unfold_client. cbn [db calls]. rewrite Hc.
      cbn [option_map insertCart]. unfold cartView, throw, ret.
      cbn [fst snd joinProducts].
      destruct (enrichAll _); split; reflexivity. }
    destruct R as (D & F).
    pose proof (findCart_insert _ _ Hc) as Hc1. rewrite <- D in Hc1.
    destruct (G _ _ Hc1) as (D1 & F1).
    split; [exact D1|]. split; [|congruence].
    rewrite F1, F, D. reflexivity.
Qed.

(* ------------------------------------------------------------------ *)
(** *** Items keep their products *)

Lemma Referential_deleteItemsOf (cartId : Z) (s : Store) :
  Referential s -> Referential (deleteItemsOf cartId s).
Proof.
  intros R i Hi. cbn in Hi. apply filter_In in Hi. apply (R i). tauto.
Qed.

Lemma Effect_Referential (s s' : Store) :
  Effect s s' -> Referential s -> Referential s'.
Proof.
  induction 1; intros R.
  - exact R.
  - intros i Hi. apply (R i). exact Hi.
  - apply Referential_insertItem; [exact R|congruence].
  - apply Referential_updateItem. exact R.
  - apply Referential_delete. exact R.
  - apply Referential_deleteItemsOf. exact R.
  - auto.
Qed.

Lemma step_Referential (e : Event) (w : World) :
  keepsProducts (db w) e -> Referential (db w) -> Referential (db (step e w)).
Proof.
  destruct e as [h req|ps]; cbn [step keepsProducts]; intros Kp R.
  - apply (Effect_Referential _ _ (handle_effect h req w) R).
  - intros i Hi. cbn [db withProducts cartItems] in Hi.
    apply (Kp (i_productId i)). apply R. exact Hi.
Qed.

Lemma getCart_status (req : Request) (w w' : World) (r : Response) :
  getCart req w = (Ok r, w') -> r_status r = 200 /\ r_message r = None.
Proof.
  unfold getCart, bind. unfold_client. cbn [db calls].
  destruct (findCart (user_userId req) (db w));
    cbn [option_map insertCart]; unfold cartView, throw, ret;
    destruct (enrichAll _); intros H; inversion H; split; reflexivity.
Qed.

(** X5.  No dangling items: from a store in which every item has its
    product, along every sequence of handler runs and of catalogue edits
    that remove no product, every item keeps a product, and therefore
    [getCart] answers 200 for every user. *)
Theorem items_keep_products (es : list Event) (w : World) (req : Request) :
  Referential (db w) -> keepsAll es w ->
  Referential (db (run es w))
  /\ exists r w', getCart req (run es w) = (Ok r, w') /\ r_status r = 200.
Proof.
  intros R K.
  assert (R' : Referential (db (run es w))).
  { revert w R K. induction es as [|e es IH]; intros w R K; [exact R|].
    cbn [run fold_left]. destruct K as [K1 K2].
    apply IH; [apply step_Referential; assumption|exact K2]. }
  split; [exact R'|].
  destruct (getCart_ok req _ R') as (r & w' & G).
  exists r, w'. split; [exact G|]. apply (getCart_status _ _ _ _ G).
Qed.

Lemma items_keep_products_witness :
  Referential (db world0) /\ keepsAll stockHistory world0
  /\ Referential (db (run stockHistory world0)).
Proof.
  assert (R : Referential (db world0)) by (intros i Hi; destruct Hi).
  assert (K : keepsAll stockHistory world0).
  { cbn. repeat split; try exact I.
    all: intros id H;
      destruct (match id with Z.pos q => (7 =? q)%positive | _ => false end);
      [discriminate|exact H]. }
  split; [exact R|]. split; [exact K|].
  exact (proj1 (items_keep_products stockHistory world0 (bodyRequest 1 7 1) R K)).
Defined.

(* ------------------------------------------------------------------ *)
(** *** Removing an item *)

Lemma NoDup_map_eq {A B : Type} (f : A -> B) (l : list A) (a b : A) :
  NoDup (map f l) -> In a l -> In b l -> f a = f b -> a = b.
Proof.
  induction l as [|x l IH]; cbn; intros Hnd Ha Hb E; [contradiction|].
  inversion Hnd as [|y ys Hnotin Hnd']; subst.
  destruct Ha as [->|Ha], Hb as [->|Hb]; auto.
  - exfalso. apply Hnotin. rewrite E. apply in_map. exact Hb.
  - exfalso. apply Hnotin. rewrite <- E. apply in_map. exact Ha.
Qed.

Lemma itemsOf_deleteItem (cartId id : Z) (s : Store) :
  itemsOf cartId (deleteItem id s)
  = filter (fun i => negb (i_id i =? id)) (itemsOf cartId s).
Proof.
  unfold itemsOf. cbn [deleteItem withItems cartItems].
  apply filter_filter_comm.
Qed.

Lemma removeFromCart_found (req : Request) (w : World) (userId productId : Z)
  (cart : Cart) (e : CartItem) :
  Js.parseInt (params_userId req) = Some userId -> 1 <= userId ->
  Js.parseInt (params_productId req) = Some productId -> 1 <= productId ->
  findCart userId (db w) = Some cart ->
  find (fun i => i_productId i =? productId) (itemsOf (c_id cart) (db w))
  = Some e ->
  removeFromCart req w
  = respondUpdated userId 200 "Item removed from cart"
      (mkWorld (deleteItem (i_id e) (db w))
         ((calls w ++ [cart_findUnique userId IncludeItems])
          ++ [cartItem_delete (i_id e)])).
Proof.
  intros Hu Hu1 Hpid Hpid1 Hc Hf.
  assert (Eu : (userId <? 1) = false) by (apply Z.ltb_ge; lia).
  assert (Ep : (productId <? 1) = false) by (apply Z.ltb_ge; lia).
  pose proof (find_itemsOf_In _ _ _ _ Hf) as (Hin & _ & _).
  unfold removeFromCart, requireId. rewrite Hu, Hpid, Eu, Ep.
  unfold bind. unfold_client. cbn [db calls]. rewrite Hc.
  cbn [option_map joinItems snd]. rewrite Hf. cbn [db calls].
  rewrite (In_hasItem _ _ Hin). reflexivity.
Qed.

(** X6.  [removeFromCart], for ids that read as integers of at least 1:
    without a cart it fails with "Cart not found", without an item for the
    product with "Cart item not found", writing nothing; otherwise it
    deletes the row it found, after which the cart (holding each product
    once) has no item for the product and keeps all its other items. *)
Theorem removeFromCart_removes (req : Request) (w : World)
  (userId productId : Z) :
  Js.parseInt (params_userId req) = Some userId -> 1 <= userId ->
  Js.parseInt (params_productId req) = Some productId -> 1 <= productId ->
  let hasProduct := fun i => i_productId i =? productId in
  let failed := logged w [cart_findUnique userId IncludeItems] in
  match findCart userId (db w) with
  | None => removeFromCart req w = (Throw (NotFoundError "Cart"), failed)
  | Some cart =>
      match find hasProduct (itemsOf (c_id cart) (db w)) with
      | None =>
          removeFromCart req w = (Throw (NotFoundError "Cart item"), failed)
      | Some e =>
          let s' := db (snd (removeFromCart req w)) in
          s' = deleteItem (i_id e) (db w)
          /\ (UniqueProducts (c_id cart) (db w) ->
              find hasProduct (itemsOf (c_id cart) s') = None)
          /\ (ItemKeys (db w) ->
              forall i, In i (itemsOf (c_id cart) (db w)) ->
                        i_productId i <> productId ->
                        In i (itemsOf (c_id cart) s'))
      end
  end.
Proof.
  intros Hu Hu1 Hpid Hpid1 hasProduct failed.
  assert (Eu : (userId <? 1) = false) by (apply Z.ltb_ge; lia).
  assert (Ep : (productId <? 1) = false) by (apply Z.ltb_ge; lia).
  destruct (findCart userId (db w)) as [cart|] eqn:Hc.
  - destruct (find hasProduct (itemsOf (c_id cart) (db w))) as [e|] eqn:Hf.
    + cbv zeta.
      rewrite (removeFromCart_found req w userId productId cart e)
        by assumption.
      rewrite respondUpdated_db. cbn [db].
      pose proof (find_some _ _ Hf) as [He Hpe].
      split; [reflexivity|split].
      * intros U. rewrite itemsOf_deleteItem.
        match goal with
        | |- ?o = None => destruct o as [y|] eqn:Hy; [|reflexivity]
        end.
        exfalso. apply find_some in Hy. destruct Hy as [Hy Hpy].
        apply filter_In in Hy. destruct Hy as [Hy Hid].
        assert (y = e).
        { apply (NoDup_map_eq i_productId (itemsOf (c_id cart) (db w)));
            [exact U|exact Hy|exact He|].
          unfold hasProduct in *. lia. }
        subst y. rewrite Z.eqb_refl in Hid. discriminate Hid.
      * intros [K _] i Hi Hp. rewrite itemsOf_deleteItem.
        apply filter_In. split; [exact Hi|].
        destruct (i_id i =? i_id e) eqn:E; [|reflexivity].
        exfalso. apply Hp.
        assert (In i (cartItems (db w)) /\ In e (cartItems (db w))) as [A B].
        { unfold itemsOf in Hi, He. apply filter_In in Hi.
          apply filter_In in He. tauto. }
        assert (i = e) by (apply (NoDup_ids_eq _ _ _ K A B); lia).
        subst i. unfold hasProduct in Hpe. lia.
    + unfold removeFromCart, requireId. rewrite Hu, Hpid, Eu, Ep.
      unfold bind. unfold_client. cbn [db calls]. rewrite Hc.
      cbn [option_map joinItems snd]. fold hasProduct. rewrite Hf.
      reflexivity.
  - unfold removeFromCart, requireId. rewrite Hu, Hpid, Eu, Ep.
    unfold bind. unfold_client. cbn [db calls]. rewrite Hc. reflexivity.
Qed.

Lemma removeFromCart_removes_witness :
  db (snd (removeFromCart (paramRequest 1 "1" "7" None) worldTwoCarts))
  = deleteItem 1 (db worldTwoCarts)
  /\ itemsOf 1 (db (snd (removeFromCart (paramRequest 1 "1" "7" None)
                           worldTwoCarts))) = []
  /\ removeFromCart (paramRequest 1 "1" "7" None) world0
     = (Throw (NotFoundError "Cart"),
        logged world0 [cart_findUnique 1 IncludeItems]).
Proof.
  pose proof (removeFromCart_removes (paramRequest 1 "1" "7" None)
                worldTwoCarts 1 7 eq_refl ltac:(lia) eq_refl ltac:(lia)) as H.
  pose proof (removeFromCart_removes (paramRequest 1 "1" "7" None)
                world0 1 7 eq_refl ltac:(lia) eq_refl ltac:(lia)) as H0.
  cbv zeta in H, H0.
  change (findCart 1 (db worldTwoCarts)) with (Some (mkCart 1 1)) in H.
  cbv iota in H. cbn [c_id] in H.
  change (find (fun i => i_productId i =? 7) (itemsOf 1 (db worldTwoCarts)))
    with (Some (mkItem 1 1 7 3)) in H.
  cbv iota in H. destruct H as (Hdb & _ & _).
  split; [exact Hdb|]. split; [rewrite Hdb; reflexivity|].
  exact H0.
Defined.

(* ------------------------------------------------------------------ *)
(** *** Setting a quantity *)

Lemma find_itemsOf_setQuantity (id q productId cartId : Z)
  (l : list CartItem) :
  find (fun i => i_productId i =? productId)
    (filter (fun i => i_cartId i =? cartId) (setQuantity id q l))
  = option_map (bump id q)
      (find (fun i => i_productId i =? productId)
         (filter (fun i => i_cartId i =? cartId) l)).
Proof.
  unfold setQuantity, bump.
  induction l as [|x l IH]; [reflexivity|].
  cbn [map filter].
  destruct (i_id x =? id) eqn:E; cbn [i_cartId];
    destruct (i_cartId x =? cartId); cbn [find i_productId]; auto;
    destruct (i_productId x =? productId); cbn [option_map]; auto;
    rewrite E; reflexivity.
Qed.

Lemma updateCartItem_sets (req : Request) (w : World)
  (userId productId q : Z) (cart : Cart) (e : CartItem) (p : Product) :
  Js.parseInt (params_userId req) = Some userId -> 1 <= userId ->
  Js.parseInt (params_productId req) = Some productId -> 1 <= productId ->
  body_quantity req = Some q ->
  findCart userId (db w) = Some cart ->
  find (fun i => i_productId i =? productId) (itemsOf (c_id cart) (db w))
  = Some e ->
  findProduct productId (db w) = Some p ->
  1 <= q <= p_stock p ->
  db (snd (updateCartItem req w)) = updateItem (i_id e) q (db w).
Proof.
  intros Hu Hu1 Hpid Hpid1 Hq Hc Hf Hp Hr.
  assert (Eu : (userId <? 1) = false) by (apply Z.ltb_ge; lia).
  assert (Ep : (productId <? 1) = false) by (apply Z.ltb_ge; lia).
  assert (Eg : (q >? p_stock p) = false)
    by (rewrite Z.gtb_ltb; apply Z.ltb_ge; lia).
  assert (El : (q <? 1) = false) by (apply Z.ltb_ge; lia).
  pose proof (find_itemsOf_In _ _ _ _ Hf) as (Hin & _ & _).
  unfold updateCartItem, requireId. rewrite Hu, Hpid, Eu, Ep, Hq. numbers.
  unfold bind. unfold_client. cbn [db calls]. rewrite Hc.
  cbn [option_map joinItems snd]. rewrite Hf. cbn [db calls]. rewrite Hp.
  cbn [gtNum ltNum Js.greater Js.below]. rewrite Eg, El. cbn [db calls].
  rewrite (In_hasItem _ _ Hin). rewrite respondUpdated_db. reflexivity.
Qed.

Lemma setQuantity_twice (id q1 q2 : Z) (l : list CartItem) :
  setQuantity id q2 (setQuantity id q1 l) = setQuantity id q2 l.
Proof.
  unfold setQuantity. rewrite map_map. apply map_ext. intros a.
  destruct (i_id a =? id) eqn:E; cbn [i_id]; rewrite E; reflexivity.
Qed.

Lemma updateItem_twice (id q1 q2 : Z) (s : Store) :
  updateItem id q2 (updateItem id q1 s) = updateItem id q2 s.
Proof.
  unfold updateItem, withItems. cbn [cartItems users products carts
    nextCartId nextItemId]. rewrite setQuantity_twice. reflexivity.
Qed.

Lemma find_itemsOf_updateItem (id q productId cartId : Z) (s : Store) :
  find (fun i => i_productId i =? productId)
    (itemsOf cartId (updateItem id q s))
  = option_map (bump id q)
      (find (fun i => i_productId i =? productId) (itemsOf cartId s)).
Proof.
  unfold itemsOf, updateItem. cbn [withItems cartItems].
  apply find_itemsOf_setQuantity.
Qed.

(** X7.  [updateCartItem] with a quantity from 1 to the stock sets the
    quantity of the item it found, whatever it was before: afterwards the
    cart's item for the product has exactly the requested quantity, and
    running the same request again changes nothing. *)
Theorem updateCartItem_sets_quantity (req : Request) (w : World)
  (userId productId q : Z) (cart : Cart) (e : CartItem) (p : Product) :
  Js.parseInt (params_userId req) = Some userId -> 1 <= userId ->
  Js.parseInt (params_productId req) = Some productId -> 1 <= productId ->
  body_quantity req = Some q ->
  findCart userId (db w) = Some cart ->
  find (fun i => i_productId i =? productId) (itemsOf (c_id cart) (db w))
  = Some e ->
  findProduct productId (db w) = Some p ->
  1 <= q <= p_stock p ->
  let w1 := snd (updateCartItem req w) in
  db w1 = updateItem (i_id e) q (db w)
  /\ find (fun i => i_productId i =? productId) (itemsOf (c_id cart) (db w1))
     = Some (mkItem (i_id e) (i_cartId e) (i_productId e) q)
  /\ db (snd (updateCartItem req w1)) = db w1.
Proof.
  intros Hu Hu1 Hpid Hpid1 Hq Hc Hf Hp Hr w1.
  assert (E1 : db w1 = updateItem (i_id e) q (db w)).
  { unfold w1.
    apply (updateCartItem_sets req w userId productId q cart e p);
      assumption. }
  assert (F1 : find (fun i => i_productId i =? productId)
                 (itemsOf (c_id cart) (db w1))
               = Some (mkItem (i_id e) (i_cartId e) (i_productId e) q)).
  { rewrite E1, find_itemsOf_updateItem, Hf. cbn [option_map].
    unfold bump. rewrite Z.eqb_refl. reflexivity. }
  split; [exact E1|]. split; [exact F1|].
  rewrite (updateCartItem_sets req w1 userId productId q cart
             (mkItem (i_id e) (i_cartId e) (i_productId e) q) p);
    try assumption.
  - cbn [i_id]. rewrite E1. apply updateItem_twice.
  - rewrite E1. exact Hc.
  - rewrite E1. exact Hp.
Qed.

Lemma updateCartItem_sets_quantity_witness :
  db (snd (updateCartItem (paramRequest 1 "1" "7" (Some 4)) worldWith3))
  = updateItem 1 4 (db worldWith3)
  /\ itemsOf 1 (db (snd (updateCartItem (paramRequest 1 "1" "7" (Some 4))
                           worldWith3)))
     = [mkItem 1 1 7 4].
Proof.
  pose proof (updateCartItem_sets_quantity
                (paramRequest 1 "1" "7" (Some 4)) worldWith3 1 7 4
                (mkCart 1 1) (mkItem 1 1 7 3) lamp
                eq_refl ltac:(lia) eq_refl ltac:(lia) eq_refl eq_refl
                eq_refl eq_refl ltac:(cbn; lia)) as (H1 & _ & _).
  split; [exact H1|]. rewrite H1. reflexivity.
Defined.

(* ------------------------------------------------------------------ *)
(** *** Adding twice *)

Lemma ensureCart_found (userId : Z) (s : Store) :
  findCart userId (snd (ensureCart userId s)) = Some (fst (ensureCart userId s)).
Proof.
  unfold ensureCart. destruct (findCart userId s) as [c|] eqn:Hc.
  - exact Hc.
  - rewrite (findCart_insert _ _ Hc). reflexivity.
Qed.

Lemma ensureCart_tables (userId : Z) (s : Store) :
  products (snd (ensureCart userId s)) = products s
  /\ cartItems (snd (ensureCart userId s)) = cartItems s
  /\ nextItemId (snd (ensureCart userId s)) = nextItemId s.
Proof.
  unfold ensureCart. destruct (findCart userId s); cbn; auto.
Qed.

Lemma addWrite_tables (cartId productId q stock : Z) (s : Store) :
  products (addWrite cartId productId q stock s) = products s
  /\ carts (addWrite cartId productId q stock s) = carts s.
Proof.
  unfold addWrite. destruct (find _ _) as [e|]; [|cbn; auto].
  destruct (_ >? _); cbn; auto.
Qed.

Lemma addToCart_db (req : Request) (w : World) (productId q : Z)
  (p : Product) :
  1 <= user_userId req ->
  body_productId req = Some productId ->
  body_quantity req = Some q ->
  findProduct productId (db w) = Some p ->
  p_isActive p = true ->
  1 <= p_stock p -> q <= p_stock p ->
  db (snd (addToCart req w))
  = addWrite (c_id (fst (ensureCart (user_userId req) (db w)))) productId q
      (p_stock p) (snd (ensureCart (user_userId req) (db w))).
Proof.
  intros Hu Hpid Hq Hp Hact Hs1 Hs.
  assert (Eu : (user_userId req <? 1) = false) by (apply Z.ltb_ge; lia).
  assert (E1 : (p_stock p <? 1) = false) by (apply Z.ltb_ge; lia).
  assert (E2 : (p_stock p <? q) = false) by (apply Z.ltb_ge; lia).
  unfold addToCart, ensureCart, addWrite. rewrite Eu, Hpid, Hq. numbers.
  unfold bind at 1. unfold_client. cbn [db calls]. rewrite Hp, Hact.
  cbn [negb]. rewrite E1, E2. unfold bind. cbn [db calls].
  destruct (findCart (user_userId req) (db w)) as [c|] eqn:Hc;
    cbn [option_map joinItems insertCart fst snd c_id db calls].
  - destruct (find _ (itemsOf (c_id c) (db w))) as [e|] eqn:Hf.
    + apply find_itemsOf_In in Hf. destruct Hf as (Hin & _ & _).
      destruct (i_quantity e + q >? p_stock p); [reflexivity|].
      cbn [db calls]. rewrite (In_hasItem _ _ Hin).
      rewrite respondUpdated_db. reflexivity.
    + rewrite respondUpdated_db. reflexivity.
  - match goal with
    | |- context [find ?f (itemsOf ?c ?s1)] =>
        destruct (find f (itemsOf c s1)) as [e|] eqn:Hf
    end.
    + apply find_itemsOf_In in Hf. destruct Hf as (Hin & _ & _).
      destruct (i_quantity e + q >? p_stock p); [reflexivity|].
      cbn [db calls]. rewrite (In_hasItem _ _ Hin).
      rewrite respondUpdated_db. reflexivity.
    + rewrite respondUpdated_db. reflexivity.
Qed.

Lemma setQuantity_fresh (id q : Z) (l : list CartItem) :
  Forall (fun i => i_id i < id) l -> setQuantity id q l = l.
Proof.
  unfold setQuantity. induction 1 as [|a l Ha _ IH]; cbn; [reflexivity|].
  rewrite IH. destruct (i_id a =? id) eqn:E; [lia|reflexivity].
Qed.

Lemma find_itemsOf_insertItem (cartId productId q : Z) (s : Store) :
  find (fun i => i_productId i =? productId) (itemsOf cartId s) = None ->
  find (fun i => i_productId i =? productId)
    (itemsOf cartId (insertItem cartId productId q s))
  = Some (mkItem (nextItemId s) cartId productId q).
Proof.
  unfold itemsOf. cbn [insertItem cartItems]. rewrite filter_app.
  cbn [filter i_cartId]. rewrite Z.eqb_refl.
  induction (filter _ (cartItems s)) as [|a l IH]; cbn [app find].
  - cbn. rewrite Z.eqb_refl. reflexivity.
  - destruct (i_productId a =? productId); [discriminate|]. exact IH.
Qed.

Lemma addWrite_adds_up (cartId productId q1 q2 stock : Z) (s : Store) :
  Forall (fun i => i_id i < nextItemId s) (cartItems s) ->
  0 <= q1 -> 0 <= q2 -> q1 + q2 <= stock ->
  (forall e, In e (itemsOf cartId s) -> i_productId e = productId ->
             i_quantity e + q1 + q2 <= stock) ->
  addWrite cartId productId q2 stock (addWrite cartId productId q1 stock s)
  = addWrite cartId productId (q1 + q2) stock s.
Proof.
  intros K H1 H2 Hs Hfit. unfold addWrite at 2 3.
  destruct (find _ (itemsOf cartId s)) as [e|] eqn:Hf.
  - pose proof (find_some _ _ Hf) as [He Hpe].
    assert (Hq : i_quantity e + q1 + q2 <= stock) by (apply Hfit; [exact He|lia]).
    assert (Ea : (i_quantity e + q1 >? stock) = false)
      by (rewrite Z.gtb_ltb; apply Z.ltb_ge; lia).
    assert (Eb : (i_quantity e + (q1 + q2) >? stock) = false)
      by (rewrite Z.gtb_ltb; apply Z.ltb_ge; lia).
    rewrite Ea, Eb. unfold addWrite.
    rewrite find_itemsOf_updateItem, Hf. cbn [option_map].
    unfold bump. rewrite Z.eqb_refl. cbn [i_quantity i_id].
    assert (Ec : (i_quantity e + q1 + q2 >? stock) = false)
      by (rewrite Z.gtb_ltb; apply Z.ltb_ge; lia).
    rewrite Ec, updateItem_twice. f_equal. lia.
  - unfold addWrite. rewrite (find_itemsOf_insertItem _ _ _ _ Hf).
    cbn [i_quantity i_id].
    assert (Ec : (q1 + q2 >? stock) = false)
      by (rewrite Z.gtb_ltb; apply Z.ltb_ge; lia).
    rewrite Ec. unfold updateItem, insertItem, withItems, setQuantity.
    cbn [users products carts cartItems nextCartId nextItemId].
    rewrite map_app. cbn [map i_id]. rewrite Z.eqb_refl.
    cbn [i_id i_cartId i_productId].
    fold (setQuantity (nextItemId s) (q1 + q2) (cartItems s)).
    rewrite (setQuantity_fresh _ _ _ K). reflexivity.
Qed.

(** X8.  Adding to a cart adds up: for an active product with stock for
    both, [addToCart] of [q1] followed by [addToCart] of [q2] leaves the
    store as one [addToCart] of [q1 + q2] does, whether or not the cart or the
    item existed before; the owner's cart then holds the product, with the
    earlier quantity raised by [q1 + q2]. *)
Theorem addToCart_adds_up (req : Request) (w : World) (productId q1 q2 : Z)
  (p : Product) :
  1 <= user_userId req ->
  body_productId req = Some productId ->
  findProduct productId (db w) = Some p ->
  p_isActive p = true ->
  1 <= q1 -> 1 <= q2 -> q1 + q2 <= p_stock p ->
  ItemKeys (db w) ->
  (forall e,
     In e (itemsOf (c_id (fst (ensureCart (user_userId req) (db w)))) (db w)) ->
     i_productId e = productId -> i_quantity e + q1 + q2 <= p_stock p) ->
  let w1 := snd (addToCart (withQuantity req q1) w) in
  let w2 := snd (addToCart (withQuantity req q2) w1) in
  db w2 = db (snd (addToCart (withQuantity req (q1 + q2)) w))
  /\ exists cart e,
       findCart (user_userId req) (db w2) = Some cart
       /\ find (fun i => i_productId i =? productId)
            (itemsOf (c_id cart) (db w2)) = Some e
       /\ i_quantity e
          = match find (fun i => i_productId i =? productId)
                    (itemsOf (c_id cart) (db w)) with
            | Some old => i_quantity old + q1 + q2
            | None => q1 + q2
            end.
Proof.
  intros Hu Hpid Hp Hact H1 H2 Hs [_ K] Hfit w1 w2.
  set (u := user_userId req) in *.
  set (c := fst (ensureCart u (db w))) in *.
  set (s1 := snd (ensureCart u (db w))).
  destruct (ensureCart_tables u (db w)) as (P1 & I1 & N1). fold s1 in P1, I1, N1.
  pose proof (ensureCart_found u (db w)) as C1. fold s1 c in C1.
  assert (D1 : db w1 = addWrite (c_id c) productId q1 (p_stock p) s1).
  { unfold w1.
    apply (addToCart_db (withQuantity req q1) w productId q1 p);
      auto; lia. }
  assert (D3 : db (snd (addToCart (withQuantity req (q1 + q2)) w))
               = addWrite (c_id c) productId (q1 + q2) (p_stock p) s1).
  { apply (addToCart_db (withQuantity req (q1 + q2)) w productId (q1 + q2) p);
      auto; lia. }
  destruct (addWrite_tables (c_id c) productId q1 (p_stock p) s1) as (P2 & C2).
  assert (C1' : findCart u (db w1) = Some c).
  { rewrite D1. unfold findCart. rewrite C2. exact C1. }
  assert (E1 : ensureCart u (db w1) = (c, db w1)).
  { unfold ensureCart. rewrite C1'. reflexivity. }
  assert (Hp1 : findProduct productId (db w1) = Some p).
  { rewrite D1. unfold findProduct. rewrite P2, P1. exact Hp. }
  assert (D2 : db w2 = addWrite (c_id c) productId q2 (p_stock p) (db w1)).
  { unfold w2.
    rewrite (addToCart_db (withQuantity req q2) w1 productId q2 p);
      auto; try lia.
    cbn [withQuantity user_userId]. fold u. rewrite E1. reflexivity. }
  assert (A : db w2 = addWrite (c_id c) productId (q1 + q2) (p_stock p) s1).
  { rewrite D2, D1. apply addWrite_adds_up; try lia.
    - rewrite I1, N1. exact K.
    - intros e He. apply Hfit. unfold itemsOf in *. rewrite <- I1. exact He. }
  split; [rewrite A, D3; reflexivity|].
  assert (I : itemsOf (c_id c) (db w) = itemsOf (c_id c) s1)
    by (unfold itemsOf; rewrite I1; reflexivity).
  exists c. rewrite A, I. unfold addWrite.
  destruct (find _ (itemsOf (c_id c) s1)) as [e|] eqn:Hf.
  - pose proof (find_some _ _ Hf) as [He Hpe].
    assert (Hq : i_quantity e + q1 + q2 <= p_stock p).
    { apply Hfit; [|lia]. unfold itemsOf in *. rewrite <- I1. exact He. }
    assert (Eb : (i_quantity e + (q1 + q2) >? p_stock p) = false)
      by (rewrite Z.gtb_ltb; apply Z.ltb_ge; lia).
    rewrite Eb.
    exists (mkItem (i_id e) (i_cartId e) (i_productId e)
              (i_quantity e + (q1 + q2))).
    split; [|split].
    + unfold findCart. cbn [updateItem withItems carts]. exact C1.
    + rewrite find_itemsOf_updateItem, Hf. cbn [option_map]. unfold bump.
      rewrite Z.eqb_refl. reflexivity.
    + cbn [i_quantity]. lia.
  - exists (mkItem (nextItemId s1) (c_id c) productId (q1 + q2)).
    split; [|split].
    + unfold findCart. cbn [insertItem carts]. exact C1.
    + apply find_itemsOf_insertItem. exact Hf.
    + reflexivity.
Qed.

Lemma addToCart_adds_up_witness :
  db (snd (addToCart (bodyRequest 1 7 3)
             (snd (addToCart (bodyRequest 1 7 2) world0))))
  = db (snd (addToCart (bodyRequest 1 7 5) world0))
  /\ cartItems (db (snd (addToCart (bodyRequest 1 7 5) world0)))
     = [mkItem 1 1 7 5].
Proof.
  split; [|reflexivity].
  refine (proj1 (addToCart_adds_up (bodyRequest 1 7 1) world0 7 2 3 lamp
                   _ eq_refl eq_refl eq_refl _ _ _ _ _)); cbn; try lia.
  split; constructor.
Defined.

(* ------------------------------------------------------------------ *)
(** *** Adding, then removing *)

Lemma deleteItem_insertItem (cartId productId q : Z) (s : Store) :
  Forall (fun i => i_id i < nextItemId s) (cartItems s) ->
  cartItems (deleteItem (nextItemId s) (insertItem cartId productId q s))
  = cartItems s.
Proof.
  intros K. cbn [deleteItem insertItem withItems cartItems nextItemId].
  rewrite filter_app. cbn [filter i_id]. rewrite Z.eqb_refl. cbn [negb].
  rewrite app_nil_r.
  induction K as [|a l Ha _ IH]; cbn [filter]; [reflexivity|].
  destruct (i_id a =? nextItemId s) eqn:E; [lia|]. cbn [negb].
  rewrite IH. reflexivity.
Qed.

(** X9.  Adding a product the cart does not hold, then removing it, gives
    back the item rows there were: [removeFromCart] deletes exactly the row
    [addToCart] inserted.  Only the id counter, and the cart row if it had
    to be created, remain. *)
Theorem add_then_remove (add remove : Request) (w : World)
  (productId q : Z) (p : Product) :
  1 <= user_userId add ->
  body_productId add = Some productId ->
  body_quantity add = Some q ->
  Js.parseInt (params_userId remove) = Some (user_userId add) ->
  Js.parseInt (params_productId remove) = Some productId ->
  1 <= productId ->
  findProduct productId (db w) = Some p ->
  p_isActive p = true ->
  1 <= p_stock p -> q <= p_stock p ->
  ItemKeys (db w) ->
  find (fun i => i_productId i =? productId)
    (itemsOf (c_id (fst (ensureCart (user_userId add) (db w)))) (db w)) = None ->
  let w2 := snd (removeFromCart remove (snd (addToCart add w))) in
  cartItems (db w2) = cartItems (db w)
  /\ nextItemId (db w2) = nextItemId (db w) + 1
  /\ carts (db w2) = carts (snd (ensureCart (user_userId add) (db w)))
  /\ products (db w2) = products (db w).
Proof.
  intros Hu Hpid Hq Hpu Hpp Hp1 Hp Hact Hs1 Hs [_ K] Hnone w2.
  set (u := user_userId add) in *.
  set (c := fst (ensureCart u (db w))) in *.
  set (s1 := snd (ensureCart u (db w))).
  destruct (ensureCart_tables u (db w)) as (P1 & I1 & N1). fold s1 in P1, I1, N1.
  pose proof (ensureCart_found u (db w)) as C1. fold s1 c in C1.
  assert (I : itemsOf (c_id c) (db w) = itemsOf (c_id c) s1)
    by (unfold itemsOf; rewrite I1; reflexivity).
  rewrite I in Hnone.
  assert (D1 : db (snd (addToCart add w)) = insertItem (c_id c) productId q s1).
  { rewrite (addToCart_db add w productId q p) by assumption.
    fold u c s1. unfold addWrite. rewrite Hnone. reflexivity. }
  assert (D2 : db w2 = deleteItem (nextItemId s1)
                         (insertItem (c_id c) productId q s1)).
  { unfold w2.
    rewrite (removeFromCart_found remove (snd (addToCart add w)) u productId c
               (mkItem (nextItemId s1) (c_id c) productId q));
      try assumption.
    - rewrite respondUpdated_db. cbn [db i_id]. rewrite D1. reflexivity.
    - rewrite D1. unfold findCart. cbn [insertItem carts]. exact C1.
    - rewrite D1. apply find_itemsOf_insertItem. exact Hnone. }
  rewrite D2. split; [|split; [|split]].
  - rewrite deleteItem_insertItem; [exact I1|]. rewrite I1, N1. exact K.
  - cbn. rewrite N1. reflexivity.
  - reflexivity.
  - cbn. exact P1.
Qed.

Lemma add_then_remove_witness :
  cartItems (db (snd (removeFromCart (paramRequest 2 "2" "7" None)
                        (snd (addToCart (bodyRequest 2 7 2) worldWith3)))))
  = cartItems (db worldWith3)
  /\ carts (db (snd (removeFromCart (paramRequest 2 "2" "7" None)
                       (snd (addToCart (bodyRequest 2 7 2) worldWith3)))))
     = [mkCart 1 1; mkCart 2 2].
Proof.
  assert (K : ItemKeys (db worldWith3)).
  { split; [repeat constructor; cbn; intuition discriminate|].
    repeat constructor; cbn; lia. }
  pose proof (add_then_remove (bodyRequest 2 7 2) (paramRequest 2 "2" "7" None)
                worldWith3 7 2 lamp ltac:(cbn; lia) eq_refl eq_refl eq_refl
                eq_refl ltac:(lia) eq_refl eq_refl ltac:(cbn; lia)
                ltac:(cbn; lia) K eq_refl) as (H1 & _ & H3 & _).
  split; [exact H1|]. rewrite H3. reflexivity.
Defined.

(* ------------------------------------------------------------------ *)
(** *** After clearing *)

(** X10.  After [clearCart] on an existing cart, [getCart] of the same
    owner answers 200 with that cart, no items and both totals 0, and a
    second [clearCart] succeeds again and changes nothing. *)
Theorem clearCart_then_getCart (clear get : Request) (w : World)
  (userId : Z) (cart : Cart) :
  Js.parseInt (params_userId clear) = Some userId -> 1 <= userId ->
  user_userId get = userId ->
  findCart userId (db w) = Some cart ->
  let w1 := snd (clearCart clear w) in
  fst (getCart get w1)
  = Ok (mkResponse 200 None (mkView (Some cart) [] 0 (Js.ofZ 0)))
  /\ db (snd (getCart get w1)) = db w1
  /\ fst (clearCart clear w1) = fst (clearCart clear w)
  /\ db (snd (clearCart clear w1)) = db w1.
Proof.
  intros Hu Hu1 Hg Hc w1.
  assert (R1 : clearCart clear w
               = (Ok (mkResponse 200 (Some "Cart cleared")
                        (mkView (Some cart) [] 0 (Js.ofZ 0))), w1)).
  { unfold w1. rewrite (clearCart_run clear w userId cart) by assumption.
    reflexivity. }
  assert (D1 : db w1 = deleteItemsOf (c_id cart) (db w)).
  { unfold w1. rewrite (clearCart_run clear w userId cart) by assumption.
    reflexivity. }
  assert (C1 : findCart userId (db w1) = Some cart).
  { rewrite D1. exact Hc. }
  assert (I1 : itemsOf (c_id cart) (db w1) = []).
  { rewrite D1. apply itemsOf_deleteItemsOf. }
  split; [|split; [|split]].
  - unfold getCart, bind. unfold_client. cbn [db calls]. rewrite Hg, C1.
    cbn [option_map]. unfold cartView, joinProducts. cbn [snd fst].
    rewrite I1. reflexivity.
  - unfold getCart, bind. unfold_client. cbn [db calls]. rewrite Hg, C1.
    cbn [option_map]. unfold cartView, joinProducts. cbn [snd fst].
    rewrite I1. reflexivity.
  - rewrite (clearCart_run clear w1 userId cart) by assumption.
    rewrite R1. reflexivity.
  - rewrite (clearCart_run clear w1 userId cart) by assumption.
    cbn [snd db]. rewrite D1.
    unfold deleteItemsOf, withItems.
    cbn [users products carts cartItems nextCartId nextItemId].
    f_equal. induction (cartItems (db w)) as [|a l IH]; [reflexivity|].
    cbn [filter]. destruct (i_cartId a =? c_id cart) eqn:E; cbn [negb filter].
    + exact IH.
    + rewrite E. cbn [negb]. rewrite IH. reflexivity.
Qed.

Lemma clearCart_then_getCart_witness :
  fst (getCart (bodyRequest 1 7 1)
         (snd (clearCart (paramRequest 1 "1" "7" None) worldTwoCarts)))
  = Ok (mkResponse 200 None
          (mkView (Some (mkCart 1 1)) [] 0 (Js.ofZ 0)))
  /\ itemsOf 2 (db (snd (clearCart (paramRequest 1 "1" "7" None)
                           worldTwoCarts)))
     = [mkItem 2 2 7 1].
Proof.
  split; [|reflexivity].
  exact (proj1 (clearCart_then_getCart (paramRequest 1 "1" "7" None)
                  (bodyRequest 1 7 1) worldTwoCarts 1 (mkCart 1 1)
                  eq_refl ltac:(lia) eq_refl eq_refl)).
Defined.

(* ================================================================== *)
(** ** Further properties of [authenticate] and the cart router *)
(* ================================================================== *)

Lemma substring_whole (s : string) : substring 0 (String.length s) s = s.
Proof. induction s as [|c s IH]; cbn; [reflexivity|]. rewrite IH. reflexivity. Qed.

Lemma bearer_prefix (a : string) :
  String.prefix "Bearer " a = true ->
  a = ("Bearer " ++ substring 7 (String.length a - 7) a)%string.
Proof.
  intros H.
  do 7 (destruct a as [|? a]; [discriminate H|];
        cbn [String.prefix] in H;
        match type of H with
        | (if ?d then _ else _) = true =>
            destruct d as [<-|]; [|discriminate H]
        end).
  cbn [String.length Nat.sub substring append].
  rewrite Nat.sub_0_r, substring_whole. reflexivity.
Qed.

Lemma bearer_token (token : string) :
  String.prefix "Bearer " ("Bearer " ++ token) = true
  /\ substring 7 (String.length ("Bearer " ++ token) - 7) ("Bearer " ++ token)
     = token.
Proof.
  split.
  - cbn [append String.prefix].
    repeat (destruct (ascii_dec _ _) as [_|N]; [|exfalso; apply N; reflexivity]).
    destruct token; reflexivity.
  - cbn [append String.length Nat.sub substring].
    rewrite Nat.sub_0_r. apply substring_whole.
Qed.

Lemma findUser_id (id : Z) (s : Store) (u : User) :
  findUser id s = Some u -> u_id u = id.
Proof.
  unfold findUser. intros H. apply find_some in H. destruct H as [_ H]. lia.
Qed.

(** X11.  [authenticate] lets a request through exactly when its header is
    "Bearer " followed by a non-empty token that [verifyToken] accepts and
    the user the token names is in the database and active; the id it
    attaches is that user's.  Every refusal is a 401, and the database is
    only read. *)
Theorem authenticate_accepts (verifyToken : string -> string + Z)
  (h : HttpRequest) (w : World) :
  (forall userId,
     fst (authenticate verifyToken h w) = Ok userId
     <-> exists token u,
           h_authorization h = Some ("Bearer " ++ token)%string
           /\ token <> EmptyString
           /\ verifyToken token = inr userId
           /\ findUser userId (db w) = Some u
           /\ u_isActive u = true)
  /\ (forall e, fst (authenticate verifyToken h w) = Throw e ->
                statusCode e = 401)
  /\ db (snd (authenticate verifyToken h w)) = db w.
Proof.
  split; [|split].
  - intros userId. split.
    + unfold authenticate.
      destruct (h_authorization h) as [[|c s]|]; try discriminate.
      destruct (String.prefix "Bearer " (String c s)) eqn:P;
        cbn [negb]; [|discriminate].
      pose proof (bearer_prefix _ P) as E.
      destruct (substring 7 _ (String c s)) as [|c' s'] eqn:T; [discriminate|].
      destruct (verifyToken (String c' s')) as [msg|decoded] eqn:V;
        [discriminate|].
      unfold bind. unfold_client. cbn [db calls].
      destruct (findUser decoded (db w)) as [u|] eqn:U; [|discriminate].
      destruct (u_isActive u) eqn:A; cbn [negb fst]; [|discriminate].
      intros H. inversion H; subst userId.
      pose proof (findUser_id _ _ _ U) as I.
      exists (String c' s'), u. rewrite I.
      split; [rewrite E at 1; reflexivity|].
      split; [discriminate|].
      split; [exact V|].
      split; [exact U|exact A].
    + intros (token & u & Hh & Ht & V & U & A).
      destruct (bearer_token token) as [P T].
      unfold authenticate. rewrite Hh.
      change ("Bearer " ++ token)%string
        with (String "B" ("earer " ++ token)%string) at 1.
      cbv iota. fold ("Bearer " ++ token)%string.
      change (String "B" ("earer " ++ token))%string
        with ("Bearer " ++ token)%string.
      rewrite P, T. cbn [negb].
      destruct token as [|c' s']; [contradiction Ht; reflexivity|].
      rewrite V. unfold bind. unfold_client. cbn [db calls].
      rewrite U, A. cbn [negb fst]. rewrite (findUser_id _ _ _ U).
      reflexivity.
  - intros e. unfold authenticate.
    destruct (h_authorization h) as [[|c s]|];
      try (intros H; inversion H; reflexivity).
    destruct (negb _); [intros H; inversion H; reflexivity|].
    destruct (substring _ _ _); [intros H; inversion H; reflexivity|].
    destruct (verifyToken _) as [msg|decoded];
      [intros H; inversion H; reflexivity|].
    unfold bind. unfold_client. cbn [db calls].
    destruct (findUser decoded (db w)) as [u|];
      [|intros H; inversion H; reflexivity].
    destruct (negb _); intros H; inversion H; reflexivity.
  - apply authenticate_db.
Qed.

Lemma authenticate_accepts_witness :
  fst (authenticate tokenOfUser1 (postItems (IntegerNumber 7) (IntegerNumber 1))
         worldWith100) = Ok 1
  /\ fst (authenticate tokenOfUser1 (mkHttp (Some "t") GET_cart Missing Missing)
            worldWith100)
     = Throw (UnauthorizedError
                "Invalid authorization format. Use: Bearer <token>").
Proof.
  split; [|reflexivity].
  apply (proj1 (authenticate_accepts tokenOfUser1
                  (postItems (IntegerNumber 7) (IntegerNumber 1))
                  worldWith100)).
  exists "t", (mkUser 1 true).
  split; [reflexivity|]. split; [discriminate|].
  split; [reflexivity|]. split; reflexivity.
Defined.

(** X12.  Behind the router the store changes only for an authenticated
    request on [GET /] or [POST /items], and then only by creating the cart
    of the authenticated user and writing one item of that cart.  A request
    that [authenticate] refuses, a [POST /items] whose product id or
    quantity its validator refuses, and every request on the [PUT] and
    [DELETE] routes leave the store as it is. *)
Theorem router_writes_for_authenticated (verifyToken : string -> string + Z)
  (h : HttpRequest) (w : World) :
  (db (snd (cartRouter verifyToken h w)) <> db w ->
   (h_route h = GET_cart \/ h_route h = POST_items)
   /\ exists userId,
        fst (authenticate verifyToken h w) = Ok userId
        /\ RunShape (Some userId) (db w)
             (db (snd (cartRouter verifyToken h w))))
  /\ (forall e,
        fst (authenticate verifyToken h w) = Throw e ->
        fst (cartRouter verifyToken h w) = Throw e
        /\ db (snd (cartRouter verifyToken h w)) = db w)
  /\ (h_route h = POST_items ->
      isInt (Some 1) None (h_productId h) = false
      \/ isInt (Some 1) (Some 100) (h_quantity h) = false ->
      (forall r, fst (cartRouter verifyToken h w) <> Ok r)
      /\ db (snd (cartRouter verifyToken h w)) = db w)
  /\ (h_route h <> GET_cart -> h_route h <> POST_items ->
      (forall r, fst (cartRouter verifyToken h w) <> Ok r)
      /\ db (snd (cartRouter verifyToken h w)) = db w).
Proof.
  pose proof (authenticate_db verifyToken h w) as D.
  split; [|split; [|split]].
  - intros N.
    destruct (cartRouter_cases verifyToken h w)
      as [E|(userId & w1 & A & [[R E]|[R E]])]; [contradiction|..];
      rewrite A in D; cbn [snd] in D; rewrite E, <- D.
    + split; [left; exact R|]. exists userId. rewrite A.
      split; [reflexivity|].
      apply (getCart_shape (handlerRequest userId h) w1).
    + split; [right; exact R|]. exists userId. rewrite A.
      split; [reflexivity|].
      apply (addToCart_shape (handlerRequest userId h) w1).
  - intros e A. rewrite cartRouter_run.
    destruct (authenticate verifyToken h w) as [[userId|err] w1];
      cbn [fst snd] in *; [discriminate A|].
    inversion A. subst e. split; [reflexivity|exact D].
  - intros R V. rewrite cartRouter_run.
    destruct (authenticate verifyToken h w) as [[userId|err] w1];
      cbn [fst snd] in *; [|split; [discriminate|exact D]].
    rewrite R. cbv zeta. unfold validateCartItem, check, bind.
    destruct V as [V|V]; rewrite V.
    + destruct (isInt (Some 1) (Some 100) (h_quantity h));
        cbn [app validate]; unfold throw; cbn [fst snd];
        (split; [discriminate|exact D]).
    + destruct (isInt (Some 1) None (h_productId h));
        cbn [app validate]; unfold throw; cbn [fst snd];
        (split; [discriminate|exact D]).
  - intros R1 R2.
    destruct (authenticate verifyToken h w) as [[userId|err] w1] eqn:A;
      cbn [fst snd] in D.
    2: { rewrite cartRouter_run, A. split; [discriminate|exact D]. }
    pose proof (routes_without_userId_fail verifyToken h w w1 userId A) as F.
    destruct (h_route h) eqn:R; try contradiction.
    + destruct (isInt (Some 1) (Some 100) (h_quantity h)) eqn:V.
      * rewrite (F eq_refl). split; [discriminate|exact D].
      * rewrite cartRouter_run, A, R. cbv zeta.
        unfold validateQuantityUpdate, check, bind. rewrite V.
        cbn [app validate]. unfold throw. split; [discriminate|exact D].
    + rewrite F. split; [discriminate|exact D].
    + rewrite F. split; [discriminate|exact D].
Qed.

Lemma router_writes_for_authenticated_witness :
  db (snd (cartRouter tokenOfUser1
             (postItems (IntegerNumber 7) (IntegerNumber 2)) worldWith100))
  <> db worldWith100
  /\ (h_route (postItems (IntegerNumber 7) (IntegerNumber 2)) = GET_cart
      \/ h_route (postItems (IntegerNumber 7) (IntegerNumber 2)) = POST_items)
  /\ db (snd (cartRouter tokenOfUser1
                (postItems (IntegerNumber 7) (Text "five")) worldWith100))
     = db worldWith100
  /\ cartRouter tokenOfUser1 (putItem "7" (IntegerNumber 2)) worldWith100
     = (Throw (ValidationError "Invalid user ID"),
        logged worldWith100 [user_findUnique 1]).
Proof.
  assert (N : db (snd (cartRouter tokenOfUser1
                         (postItems (IntegerNumber 7) (IntegerNumber 2))
                         worldWith100))
              <> db worldWith100)
    by (vm_compute; discriminate).
  split; [exact N|]. split.
  - destruct (router_writes_for_authenticated tokenOfUser1
                (postItems (IntegerNumber 7) (IntegerNumber 2)) worldWith100)
      as (W & _).
    destruct (W N) as (R & _). exact R.
  - split; [|reflexivity].
    destruct (router_writes_for_authenticated tokenOfUser1
                (postItems (IntegerNumber 7) (Text "five")) worldWith100)
      as (_ & _ & V & _).
    apply (V eq_refl). right. reflexivity.
Defined.

(* ------------------------------------------------------------------ *)
(** *** Quantities stay positive behind the validators *)

Lemma PositiveQuantities_added (q : Z) (s : Store) (l : list CartItem) :
  1 <= q -> PositiveQuantities s -> AddedOrRaised q s l ->
  Forall (fun i => 1 <= i_quantity i) l.
Proof.
  unfold PositiveQuantities.
  intros Hq P [->|[(cartId & productId & ->)|(e & Hin & ->)]].
  - exact P.
  - apply Forall_app. split; [exact P|]. constructor; [cbn; lia|constructor].
  - rewrite Forall_forall in P. apply Forall_forall. intros i Hi.
    unfold setQuantity in Hi. apply in_map_iff in Hi.
    destruct Hi as (y & <- & Hy).
    destruct (i_id y =? i_id e).
    + cbn [i_quantity]. specialize (P e Hin). lia.
    + apply P. exact Hy.
Qed.

Lemma cartRouter_positive (verifyToken : string -> string + Z)
  (h : HttpRequest) (w : World) :
  PositiveQuantities (db w) ->
  PositiveQuantities (db (snd (cartRouter verifyToken h w))).
Proof.
  intros P. unfold cartRouter. unfold bind at 1.
  pose proof (authenticate_db verifyToken h w) as D.
  destruct (authenticate verifyToken h w) as [[userId|err] w1];
    cbn [snd] in D; [|cbn [snd]; rewrite D; exact P].
  rewrite <- D in P.
  destruct (h_route h).
  - unfold PositiveQuantities. rewrite getCart_items. exact P.
  - unfold validateCartItem, check, bind.
    destruct (isInt (Some 1) None (h_productId h));
      destruct (isInt (Some 1) (Some 100) (h_quantity h)) eqn:V;
      cbn [app validate]; unfold ret, throw; try exact P.
    pose proof (addToCart_items (handlerRequest userId h) w1) as A.
    unfold handlerRequest in A at 1. cbn [body_quantity] in A.
    destruct (h_quantity h) as [|q|s|s passes|] eqn:Q; try discriminate V;
      cbn [asValue] in A.
    + cbn [isInt] in V. apply andb_prop in V. destruct V as [_ V].
      apply within_1_100 in V.
      apply (PositiveQuantities_added q (db w1)); [lia|exact P|exact A].
    + unfold PositiveQuantities. rewrite A. exact P.
    + unfold PositiveQuantities. rewrite A. exact P.
  - unfold validateQuantityUpdate, check, bind.
    destruct (isInt (Some 1) (Some 100) (h_quantity h));
      cbn [app validate]; unfold ret, throw; exact P.
  - exact P.
  - exact P.
Qed.

(** X13.  Behind the router no request, valid or not, authenticated or
    not, leaves an item with a quantity below 1: if every stored quantity
    is at least 1, it still is after any sequence of requests. *)
Theorem served_quantities_positive (verifyToken : string -> string + Z)
  (hs : list HttpRequest) (w : World) :
  PositiveQuantities (db w) ->
  PositiveQuantities (db (serve verifyToken hs w)).
Proof.
  revert w. induction hs as [|h hs IH]; intros w P; [exact P|].
  cbn [serve fold_left]. apply IH. apply cartRouter_positive. exact P.
Qed.

Lemma served_quantities_positive_witness :
  PositiveQuantities (db worldWith100)
  /\ PositiveQuantities
       (db (serve tokenOfUser1
              [postItems (IntegerNumber 7) (IntegerNumber 2);
               postItems (IntegerNumber 7) (IntegerNumber 0);
               postItems (IntegerNumber 7) (Text "5");
               postItems (Text "7") (IntegerNumber 5);
               deleteCartRoute]
              worldWith100))
  /\ cartItems (db (serve tokenOfUser1
                      [postItems (IntegerNumber 7) (IntegerNumber 2);
                       postItems (IntegerNumber 7) (IntegerNumber 0);
                       postItems (IntegerNumber 7) (Text "5");
                       postItems (Text "7") (IntegerNumber 5);
                       deleteCartRoute]
                      worldWith100))
     = [mkItem 1 1 7 102].
Proof.
  assert (P : PositiveQuantities (db worldWith100))
    by (repeat constructor; cbn; lia).
  split; [exact P|]. split; [|reflexivity].
  apply (served_quantities_positive tokenOfUser1 _ worldWith100 P).
Defined.

(** X14.  [addToCart] itself does not refuse a quantity below 1 (the
    validator in front of it does): called by a user id of at least 1 with
    such a quantity, a number, for an active product in stock, it stores
    it, as a new item with that quantity or by lowering the quantity of
    the item the cart holds, provided that item is within the stock. *)
Theorem addToCart_below_one (req : Request) (w : World) (productId q : Z)
  (p : Product) :
  1 <= user_userId req ->
  body_productId req = Some productId ->
  body_quantity req = Some q ->
  findProduct productId (db w) = Some p ->
  p_isActive p = true ->
  1 <= p_stock p -> q < 1 ->
  (forall e,
     In e (itemsOf (c_id (fst (ensureCart (user_userId req) (db w)))) (db w)) ->
     i_productId e = productId -> i_quantity e <= p_stock p) ->
  let s' := db (snd (addToCart req w)) in
  exists cart e,
    findCart (user_userId req) s' = Some cart
    /\ find (fun i => i_productId i =? productId) (itemsOf (c_id cart) s')
       = Some e
    /\ i_quantity e
       = match find (fun i => i_productId i =? productId)
                 (itemsOf (c_id cart) (db w)) with
         | Some old => i_quantity old + q
         | None => q
         end.
Proof.
  intros Hu Hpid Hq Hp Hact Hs1 Hq1 Hfit s'.
  set (u := user_userId req) in *.
  set (c := fst (ensureCart u (db w))) in *.
  set (s1 := snd (ensureCart u (db w))).
  destruct (ensureCart_tables u (db w)) as (P1 & I1 & N1). fold s1 in P1, I1, N1.
  pose proof (ensureCart_found u (db w)) as C1. fold s1 c in C1.
  assert (I : itemsOf (c_id c) (db w) = itemsOf (c_id c) s1)
    by (unfold itemsOf; rewrite I1; reflexivity).
  assert (D : s' = addWrite (c_id c) productId q (p_stock p) s1).
  { unfold s'. apply (addToCart_db req w productId q p); auto. lia. }
  exists c. rewrite D, I. unfold addWrite.
  destruct (find _ (itemsOf (c_id c) s1)) as [e|] eqn:Hf.
  - pose proof (find_some _ _ Hf) as [He Hpe].
    assert (Hle : i_quantity e <= p_stock p).
    { apply Hfit; [rewrite I; exact He|lia]. }
    assert (Eb : (i_quantity e + q >? p_stock p) = false)
      by (rewrite Z.gtb_ltb; apply Z.ltb_ge; lia).
    rewrite Eb.
    exists (mkItem (i_id e) (i_cartId e) (i_productId e) (i_quantity e + q)).
    split; [|split].
    + unfold findCart. cbn [updateItem withItems carts]. exact C1.
    + rewrite find_itemsOf_updateItem, Hf. cbn [option_map]. unfold bump.
      rewrite Z.eqb_refl. reflexivity.
    + reflexivity.
  - exists (mkItem (nextItemId s1) (c_id c) productId q).
    split; [|split].
    + unfold findCart. cbn [insertItem carts]. exact C1.
    + apply find_itemsOf_insertItem. exact Hf.
    + reflexivity.
Qed.

Lemma addToCart_below_one_witness :
  cartItems (db (snd (addToCart (bodyRequest 1 7 (-2)) worldWith3)))
  = [mkItem 1 1 7 1]
  /\ cartItems (db (snd (addToCart (bodyRequest 1 7 0) world0)))
     = [mkItem 1 1 7 0].
Proof.
  split; [|reflexivity].
  destruct (addToCart_below_one (bodyRequest 1 7 (-2)) worldWith3 7 (-2) lamp)
    as (cart & e & _ & _ & _); try reflexivity; try (cbn; lia).
  intros e [<-|[]] _. cbn. lia.
Defined.

(* ================================================================== *)
(** ** The admin writes and the cart *)
(* ================================================================== *)

Lemma findProduct_setProductActive (other id : Z) (b : bool) (s : Store) :
  findProduct other (withProducts s (setProductActive id b (products s)))
  = option_map (fun p => if p_id p =? id
                         then mkProduct (p_id p) (p_title p) (p_price p)
                                (p_thumbnail p) (p_stock p) b
                         else p)
      (findProduct other s).
Proof.
  unfold findProduct, setProductActive. cbn [withProducts products].
  induction (products s) as [|x l IH]; [reflexivity|].
  cbn [map find].
  destruct (p_id x =? id) eqn:E; cbn [p_id];
    destruct (p_id x =? other); cbn [option_map]; rewrite ?E; auto.
Qed.

Lemma findProduct_id (id : Z) (s : Store) (p : Product) :
  findProduct id s = Some p -> p_id p = id.
Proof.
  unfold findProduct. intros H. apply find_some in H. destruct H as [_ H]. lia.
Qed.

Lemma deleteProduct_run (params_id : option string) (w : World) (id : Z)
  (p : Product) :
  Js.parseInt params_id = Some id ->
  findProduct id (db w) = Some p ->
  deleteProduct params_id w
  = (Ok id,
     mkWorld (withProducts (db w) (setProductActive id false (products (db w))))
       (calls w ++ [product_findUnique id])).
Proof.
  intros Hid Hp. unfold deleteProduct. rewrite Hid.
  unfold bind, write. unfold_client. cbn [db calls]. rewrite Hp. reflexivity.
Qed.

(** X15.  [deleteProduct] is a soft delete.  For a product that exists it
    answers with the id and only clears [isActive] of that product: title,
    price and stock stay, other products, users, carts and items are
    untouched, so carts keep the product and every item still has its
    product; from then on [addToCart] refuses the product with "Product is
    not available" and writes nothing.  For an id without a product it
    fails with "Product not found", and without a readable id the client
    call fails; the database is unchanged in both cases. *)
Theorem deleteProduct_soft (params_id : option string) (w : World) :
  match Js.parseInt params_id with
  | None =>
      exists msg, deleteProduct params_id w = (Throw (InternalError msg), w)
  | Some id =>
      match findProduct id (db w) with
      | None =>
          deleteProduct params_id w
          = (Throw (NotFoundError "Product"), logged w [product_findUnique id])
      | Some p =>
          let w1 := snd (deleteProduct params_id w) in
          fst (deleteProduct params_id w) = Ok id
          /\ findProduct id (db w1)
             = Some (mkProduct (p_id p) (p_title p) (p_price p)
                       (p_thumbnail p) (p_stock p) false)
          /\ (forall other, other <> id ->
                findProduct other (db w1) = findProduct other (db w))
          /\ users (db w1) = users (db w)
          /\ carts (db w1) = carts (db w)
          /\ cartItems (db w1) = cartItems (db w)
          /\ (Referential (db w) -> Referential (db w1))
          /\ (forall req,
                1 <= user_userId req -> body_productId req = Some id ->
                addToCart req w1
                = (Throw (BadRequestError "Product is not available"),
                   logged w1 [product_findUnique id]))
      end
  end.
Proof.
  destruct (Js.parseInt params_id) as [id|] eqn:Hid.
  - destruct (findProduct id (db w)) as [p|] eqn:Hp.
    + cbv zeta. rewrite (deleteProduct_run params_id w id p Hid Hp).
      cbn [fst snd db].
      assert (F : findProduct id
                    (withProducts (db w)
                       (setProductActive id false (products (db w))))
                  = Some (mkProduct (p_id p) (p_title p) (p_price p)
                            (p_thumbnail p) (p_stock p) false)).
      { rewrite findProduct_setProductActive, Hp. cbn [option_map].
        rewrite (findProduct_id _ _ _ Hp), Z.eqb_refl. reflexivity. }
      split; [reflexivity|]. split; [exact F|].
      split; [|split; [reflexivity|split; [reflexivity|split; [reflexivity|]]]].
      * intros other Ho. rewrite findProduct_setProductActive.
        destruct (findProduct other (db w)) as [x|] eqn:Hx; [|reflexivity].
        cbn [option_map]. rewrite (findProduct_id _ _ _ Hx).
        destruct (other =? id) eqn:E; [lia|reflexivity].
      * split.
        -- intros R i Hi. rewrite findProduct_setProductActive.
           specialize (R i Hi). cbn [withProducts cartItems] in Hi.
           destruct (findProduct (i_productId i) (db w)); [discriminate|].
           contradiction R; reflexivity.
        -- intros req Hu Hb.
           apply (addToCart_inactive_product req
                    (mkWorld (withProducts (db w)
                                (setProductActive id false (products (db w))))
                       (calls w ++ [product_findUnique id]))
                    id _ Hu Hb F).
           reflexivity.
    + unfold deleteProduct. rewrite Hid. unfold bind. unfold_client.
      cbn [db calls]. rewrite Hp. reflexivity.
  - unfold deleteProduct. rewrite Hid. eexists. reflexivity.
Qed.

Lemma deleteProduct_soft_witness :
  fst (deleteProduct (Some "7") worldWith3) = Ok 7
  /\ fst (deleteProduct (Some (nbsp "7")) worldWith3) = Ok 7
  /\ deleteProduct (Some "x") worldWith3
     = (Throw (InternalError "Argument id must not be null"), worldWith3)
  /\ cartItems (db (snd (deleteProduct (Some "7") worldWith3)))
     = [mkItem 1 1 7 3]
  /\ fst (addToCart (bodyRequest 1 7 1) (snd (deleteProduct (Some "7") worldWith3)))
     = Throw (BadRequestError "Product is not available").
Proof.
  pose proof (deleteProduct_soft (Some "7") worldWith3) as H.
  change (Js.parseInt (Some "7")) with (Some 7) in H. cbv iota in H.
  change (findProduct 7 (db worldWith3)) with (Some lamp) in H.
  cbv iota zeta in H.
  destruct H as (H1 & _ & _ & _ & _ & H2 & _ & H3).
  split; [exact H1|]. split; [reflexivity|]. split; [reflexivity|].
  split; [exact H2|].
  rewrite (H3 (bodyRequest 1 7 1)); [reflexivity|cbn; lia|reflexivity].
Defined.

(* ------------------------------------------------------------------ *)
(** *** Deactivated users *)

Lemma findUser_setUserActive (other id : Z) (b : bool) (s : Store) :
  findUser other (withUsers s (setUserActive id b (users s)))
  = option_map (fun u => if u_id u =? id then mkUser (u_id u) b else u)
      (findUser other s).
Proof.
  unfold findUser, setUserActive. cbn [withUsers users].
  induction (users s) as [|x l IH]; [reflexivity|].
  cbn [map find].
  destruct (u_id x =? id) eqn:E; cbn [u_id];
    destruct (u_id x =? other); cbn [option_map]; rewrite ?E; auto.
Qed.

Lemma authenticate_run (verifyToken : string -> string + Z)
  (h : HttpRequest) (w : World) (token : string) (id : Z) :
  h_authorization h = Some ("Bearer " ++ token)%string ->
  token <> EmptyString ->
  verifyToken token = inr id ->
  authenticate verifyToken h w
  = (match findUser id (db w) with
     | None => Throw (UnauthorizedError "User no longer exists")
     | Some u =>
         if u_isActive u then Ok (u_id u)
         else Throw (UnauthorizedError "Account is deactivated")
     end,
     logged w [user_findUnique id]).
Proof.
  intros Hh Ht V. destruct (bearer_token token) as [P T].
  unfold authenticate. rewrite Hh.
  change ("Bearer " ++ token)%string
    with (String "B" ("earer " ++ token)%string) at 1.
  cbv iota. fold ("Bearer " ++ token)%string.
  change (String "B" ("earer " ++ token))%string
    with ("Bearer " ++ token)%string.
  rewrite P, T. cbn [negb].
  destruct token as [|c' s']; [contradiction Ht; reflexivity|].
  rewrite V. unfold bind. unfold_client. cbn [db calls].
  destruct (findUser id (db w)) as [u|]; [|reflexivity].
  destruct (u_isActive u); reflexivity.
Qed.

Lemma authenticate_decoded (verifyToken : string -> string + Z)
  (h : HttpRequest) (w : World) :
  (exists token id,
      h_authorization h = Some ("Bearer " ++ token)%string
      /\ token <> EmptyString /\ verifyToken token = inr id)
  \/ forall w', fst (authenticate verifyToken h w')
                = fst (authenticate verifyToken h w).
Proof.
  unfold authenticate.
  destruct (h_authorization h) as [[|c s]|]; try (right; reflexivity).
  destruct (String.prefix "Bearer " (String c s)) eqn:P;
    cbn [negb]; [|right; reflexivity].
  pose proof (bearer_prefix _ P) as E.
  destruct (substring 7 _ (String c s)) as [|c' s'] eqn:T;
    [right; reflexivity|].
  destruct (verifyToken (String c' s')) as [msg|decoded] eqn:V;
    [right; reflexivity|].
  left. exists (String c' s'), decoded.
  split; [rewrite E at 1; reflexivity|]. split; [discriminate|exact V].
Qed.

Lemma deactivateUser_run (params_id : option string) (actor : Z) (w : World)
  (id : Z) (u : User) :
  Js.parseInt params_id = Some id -> 1 <= id ->
  findUser id (db w) = Some u -> id <> actor ->
  deactivateUser params_id actor w
  = (Ok (mkUser id false),
     mkWorld (withUsers (db w) (setUserActive id false (users (db w))))
       (calls w ++ [user_findUnique id])).
Proof.
  intros Hid H1 Hu Ha.
  assert (E1 : (id <? 1) = false) by (apply Z.ltb_ge; lia).
  assert (E2 : (id =? actor) = false) by (apply Z.eqb_neq; exact Ha).
  unfold deactivateUser, requireId. rewrite Hid, E1.
  unfold bind, write. unfold_client. cbn [db calls]. rewrite Hu, E2.
  rewrite (findUser_id _ _ _ Hu). reflexivity.
Qed.

Lemma activateUser_run (params_id : option string) (w : World)
  (id : Z) (u : User) :
  Js.parseInt params_id = Some id -> 1 <= id ->
  findUser id (db w) = Some u ->
  activateUser params_id w
  = (Ok (mkUser id true),
     mkWorld (withUsers (db w) (setUserActive id true (users (db w))))
       (calls w ++ [user_findUnique id])).
Proof.
  intros Hid H1 Hu.
  assert (E1 : (id <? 1) = false) by (apply Z.ltb_ge; lia).
  unfold activateUser, requireId. rewrite Hid, E1.
  unfold bind, write. unfold_client. cbn [db calls]. rewrite Hu.
  rewrite (findUser_id _ _ _ Hu). reflexivity.
Qed.

(** X16.  A deactivated user is locked out, and an admin cannot lock
    itself out.  [deactivateUser] refuses the caller's own id; for another
    existing user it succeeds, and afterwards every cart request bearing a
    token of that user is refused with 401 "Account is deactivated" before
    any handler runs, while requests with tokens of other users are
    authenticated as before.  Carts and items are not touched. *)
Theorem deactivated_user_locked_out (verifyToken : string -> string + Z)
  (params_id : option string) (actor : Z) (w : World) (id : Z) (u : User) :
  Js.parseInt params_id = Some id -> 1 <= id ->
  findUser id (db w) = Some u ->
  let w1 := snd (deactivateUser params_id actor w) in
  if id =? actor
  then deactivateUser params_id actor w
       = (Throw (BadRequestError "You cannot deactivate your own account"),
          logged w [user_findUnique id])
  else
    fst (deactivateUser params_id actor w) = Ok (mkUser id false)
    /\ (forall h token,
          h_authorization h = Some ("Bearer " ++ token)%string ->
          token <> EmptyString ->
          verifyToken token = inr id ->
          cartRouter verifyToken h w1
          = (Throw (UnauthorizedError "Account is deactivated"),
             logged w1 [user_findUnique id]))
    /\ (forall h,
          (forall token,
             h_authorization h = Some ("Bearer " ++ token)%string ->
             verifyToken token <> inr id) ->
          fst (authenticate verifyToken h w1)
          = fst (authenticate verifyToken h w))
    /\ products (db w1) = products (db w)
    /\ carts (db w1) = carts (db w)
    /\ cartItems (db w1) = cartItems (db w).
Proof.
  intros Hid H1 Hu w1.
  destruct (id =? actor) eqn:Ea.
  - assert (E1 : (id <? 1) = false) by (apply Z.ltb_ge; lia).
    unfold deactivateUser, requireId. rewrite Hid, E1.
    unfold bind. unfold_client. cbn [db calls]. rewrite Hu, Ea. reflexivity.
  - apply Z.eqb_neq in Ea.
    assert (R : deactivateUser params_id actor w
                = (Ok (mkUser id false), w1)).
    { unfold w1. rewrite (deactivateUser_run params_id actor w id u);
        auto. }
    assert (D : db w1 = withUsers (db w) (setUserActive id false (users (db w)))).
    { unfold w1. rewrite (deactivateUser_run params_id actor w id u);
        auto. }
    rewrite R. cbn [fst].
    split; [reflexivity|]. split; [|split].
    + intros h token Hh Ht V. rewrite cartRouter_run.
      rewrite (authenticate_run verifyToken h w1 token id Hh Ht V).
      rewrite D, findUser_setUserActive, Hu. cbn [option_map].
      rewrite (findUser_id _ _ _ Hu), Z.eqb_refl. reflexivity.
    + intros h Hother.
      destruct (authenticate_decoded verifyToken h w)
        as [(token & decoded & Hh & Ht & V)|Hsame]; [|apply Hsame].
      rewrite (authenticate_run verifyToken h w1 token decoded Hh Ht V).
      rewrite (authenticate_run verifyToken h w token decoded Hh Ht V).
      cbn [fst]. rewrite D, findUser_setUserActive.
      destruct (findUser decoded (db w)) as [x|] eqn:Hx; [|reflexivity].
      cbn [option_map]. pose proof (findUser_id _ _ _ Hx) as I.
      destruct (u_id x =? id) eqn:E; [|reflexivity].
      exfalso. apply (Hother token Hh). rewrite V. f_equal. lia.
    + rewrite D. repeat split.
Qed.

Lemma deactivated_user_locked_out_witness :
  fst (deactivateUser (Some "1") 2 worldWith3) = Ok (mkUser 1 false)
  /\ fst (cartRouter tokenOfUser1 (withToken "t" deleteCartRoute)
            (snd (deactivateUser (Some "1") 2 worldWith3)))
     = Throw (UnauthorizedError "Account is deactivated")
  /\ cartItems (db (snd (deactivateUser (Some "1") 2 worldWith3)))
     = [mkItem 1 1 7 3].
Proof.
  pose proof (deactivated_user_locked_out tokenOfUser1 (Some "1") 2 worldWith3
                1 (mkUser 1 true) eq_refl ltac:(lia) eq_refl) as H.
  cbv zeta in H. change (1 =? 2) with false in H. cbv iota in H.
  destruct H as (H1 & H2 & _ & _ & _ & H3).
  split; [exact H1|]. split; [|exact H3].
  rewrite (H2 (withToken "t" deleteCartRoute) "t" eq_refl);
    [reflexivity|discriminate|reflexivity].
Defined.

Lemma setUserActive_restore (id : Z) (us : list User) :
  (forall x, In x us -> u_id x = id -> u_isActive x = true) ->
  setUserActive id true (setUserActive id false us) = us.
Proof.
  unfold setUserActive. intros H. rewrite map_map.
  rewrite <- (map_id us) at 2. apply map_ext_in. intros x Hx.
  destruct (u_id x =? id) eqn:E; cbn [u_id]; rewrite E; [|reflexivity].
  specialize (H x Hx). destruct x as [i a]. cbn in *.
  rewrite H by lia. reflexivity.
Qed.

(** X17.  [activateUser] undoes [deactivateUser]: where ids are unique and
    the user was active, deactivating and then activating gives back the
    database as it was, so a token of the user is accepted again; and
    [activateUser] succeeds for every existing user, active or not. *)
Theorem activate_undoes_deactivate (params_id : option string) (actor : Z)
  (w : World) (id : Z) (u : User) :
  Js.parseInt params_id = Some id -> 1 <= id ->
  findUser id (db w) = Some u -> id <> actor ->
  NoDup (map u_id (users (db w))) ->
  let w1 := snd (deactivateUser params_id actor w) in
  fst (activateUser params_id w1) = Ok (mkUser id true)
  /\ fst (activateUser params_id w) = Ok (mkUser id true)
  /\ findUser id (db (snd (activateUser params_id w1))) = Some (mkUser id true)
  /\ (u_isActive u = true -> db (snd (activateUser params_id w1)) = db w).
Proof.
  intros Hid H1 Hu Ha Hnd w1.
  assert (D : db w1 = withUsers (db w) (setUserActive id false (users (db w)))).
  { unfold w1. rewrite (deactivateUser_run params_id actor w id u);
      auto. }
  assert (U1 : findUser id (db w1) = Some (mkUser id false)).
  { rewrite D, findUser_setUserActive, Hu. cbn [option_map].
    rewrite (findUser_id _ _ _ Hu), Z.eqb_refl. reflexivity. }
  rewrite (activateUser_run params_id w1 id _ Hid H1 U1).
  rewrite (activateUser_run params_id w id _ Hid H1 Hu).
  cbn [fst snd db].
  split; [reflexivity|]. split; [reflexivity|]. split.
  - change (findUser id
              (withUsers (db w1) (setUserActive id true (users (db w1))))
            = Some (mkUser id true)).
    rewrite findUser_setUserActive, U1. cbn [option_map u_id].
    rewrite Z.eqb_refl. reflexivity.
  - intros Hact. rewrite D. cbn [withUsers users products carts cartItems
                                   nextCartId nextItemId].
    rewrite setUserActive_restore.
    + destruct (db w); reflexivity.
    + intros x Hx Hxid.
      assert (Hin : In u (users (db w))).
      { unfold findUser in Hu. apply find_some in Hu. tauto. }
      assert (x = u).
      { apply (NoDup_map_eq u_id (users (db w))); auto.
        rewrite (findUser_id _ _ _ Hu). exact Hxid. }
      subst x. exact Hact.
Qed.

Lemma activate_undoes_deactivate_witness :
  db (snd (activateUser (Some "1")
             (snd (deactivateUser (Some "1") 2 worldWith3))))
  = db worldWith3
  /\ fst (authenticate tokenOfUser1 deleteCartRoute
            (snd (activateUser (Some "1")
                    (snd (deactivateUser (Some "1") 2 worldWith3)))))
     = Ok 1.
Proof.
  assert (N : NoDup (map u_id (users (db worldWith3)))).
  { repeat constructor; cbn; intuition discriminate. }
  pose proof (activate_undoes_deactivate (Some "1") 2 worldWith3 1
                (mkUser 1 true) eq_refl ltac:(lia) eq_refl ltac:(lia) N)
    as (_ & _ & _ & H).
  split; [exact (H eq_refl)|reflexivity].
Defined.

(* ================================================================== *)
(** ** Properties of [middleware/authorize.js] *)
(* ================================================================== *)

Lemma includes_In (roles : list string) (r : string) :
  Authorize.includes roles r = true <-> In r roles.
Proof.
  unfold Authorize.includes. rewrite existsb_exists. split.
  - intros (x & Hx & E). apply String.eqb_eq in E. subst x. exact Hx.
  - intros H. exists r. split; [exact H|apply String.eqb_refl].
Qed.

Lemma authorize_next (roles : list string) (user : option Authorize.ReqUser) :
  Authorize.authorize roles user = Authorize.Next
  <-> exists u, user = Some u /\ In (Authorize.role u) roles.
Proof.
  unfold Authorize.authorize. destruct user as [u|].
  - destruct (Authorize.includes roles (Authorize.role u)) eqn:E; cbn [negb].
    + split; [|reflexivity]. intros _. exists u. split; [reflexivity|].
      apply includes_In. exact E.
    + split; [discriminate|]. intros (x & Hx & Hin). inversion Hx; subst x.
      apply includes_In in Hin. congruence.
  - split; [discriminate|]. intros (x & Hx & _). discriminate Hx.
Qed.

(** X18.  [authorize(...roles)] calls [next()] exactly for a request with
    a user whose role is one of [roles]: it refuses everybody when no role
    is listed, allowing more roles never turns a pass into a refusal, and
    a refusal is a 401 exactly when the request has no user and a 403
    naming the user's role otherwise. *)
Theorem authorize_by_role (roles : list string)
  (user : option Authorize.ReqUser) :
  (Authorize.authorize roles user = Authorize.Next
   <-> exists u, user = Some u /\ In (Authorize.role u) roles)
  /\ Authorize.authorize [] user <> Authorize.Next
  /\ (forall more,
        Authorize.authorize roles user = Authorize.Next ->
        Authorize.authorize (roles ++ more) user = Authorize.Next
        /\ Authorize.authorize (more ++ roles) user = Authorize.Next)
  /\ match Authorize.authorize roles user with
     | Authorize.Next => True
     | Authorize.Json status body =>
         (status = 401 /\ user = None)
         \/ (status = 403
             /\ exists u, user = Some u
                          /\ Authorize.b_yourRole body = Some (Authorize.role u)
                          /\ ~ In (Authorize.role u) roles)
     end.
Proof.
  split; [apply authorize_next|]. split; [|split].
  - intros H. apply authorize_next in H. destruct H as (u & _ & []).
  - intros more H. apply authorize_next in H. destruct H as (u & Hu & Hin).
    split; apply authorize_next; exists u; (split; [exact Hu|]);
      apply in_or_app; auto.
  - unfold Authorize.authorize. destruct user as [u|].
    + destruct (Authorize.includes roles (Authorize.role u)) eqn:E;
        cbn [negb]; [exact I|].
      right. split; [reflexivity|]. exists u. split; [reflexivity|].
      split; [reflexivity|]. intros Hin. apply includes_In in Hin. congruence.
    + left. split; reflexivity.
Qed.

Lemma authorize_by_role_witness :
  Authorize.authorize ["ADMIN"; "MODERATOR"]
    (Some (Authorize.mkReqUser 1 "MODERATOR")) = Authorize.Next
  /\ Authorize.authorize ["ADMIN"] (Some (Authorize.mkReqUser 1 "USER"))
     = Authorize.Json 403
         (Authorize.mkBody "error"
            "Forbidden: You do not have permission to perform this action"
            (Some (inl "ADMIN")) (Some "USER")).
Proof.
  split; [|reflexivity].
  apply (proj1 (authorize_by_role ["ADMIN"; "MODERATOR"]
                  (Some (Authorize.mkReqUser 1 "MODERATOR")))).
  exists (Authorize.mkReqUser 1 "MODERATOR").
  split; [reflexivity|]. right. left. reflexivity.
Defined.

(** X19.  [authorizeAdminOrOwner(check)] lets a request pass exactly when
    [authorize("ADMIN")] or [checkOwnership(check)] would; all three answer
    401 "Authentication required" to a request without a user, whatever
    the roles and the ownership check, and never consult the check then. *)
Theorem admin_or_owner (Req : Type) (user : Req -> option Authorize.ReqUser)
  (ownershipCheck : Req -> bool) (req : Req) :
  (Authorize.authorizeAdminOrOwner Req user ownershipCheck req = Authorize.Next
   <-> Authorize.authorize ["ADMIN"] (user req) = Authorize.Next
       \/ Authorize.checkOwnership Req user ownershipCheck req = Authorize.Next)
  /\ (user req = None ->
      forall roles check,
        Authorize.authorize roles (user req) = Authorize.authenticationRequired
        /\ Authorize.checkOwnership Req user check req
           = Authorize.authenticationRequired
        /\ Authorize.authorizeAdminOrOwner Req user check req
           = Authorize.authenticationRequired).
Proof.
  split.
  - unfold Authorize.authorizeAdminOrOwner, Authorize.checkOwnership,
      Authorize.authorize, Authorize.includes.
    destruct (user req) as [u|]; [|split; [discriminate|intros [H|H]; exact H]].
    cbn [existsb]. rewrite Bool.orb_false_r.
    destruct (Authorize.role u =? "ADMIN")%string; cbn [negb];
      [split; auto|].
    destruct (ownershipCheck req); cbn [negb].
    + split; auto.
    + split; [discriminate|intros [H|H]; discriminate H].
  - intros Hn roles check.
    unfold Authorize.authorizeAdminOrOwner, Authorize.checkOwnership,
      Authorize.authorize.
    rewrite Hn. repeat split.
Qed.

Lemma admin_or_owner_witness :
  Authorize.authorizeAdminOrOwner (option Authorize.ReqUser * Z) fst
    (fun req => match fst req with
                | Some u => Authorize.userId u =? snd req
                | None => false
                end)
    (Some (Authorize.mkReqUser 2 "USER"), 2) = Authorize.Next
  /\ Authorize.authorizeAdminOrOwner (option Authorize.ReqUser * Z) fst
       (fun _ => true) (None, 2)
     = Authorize.authenticationRequired.
Proof.
  split.
  - apply (proj1 (admin_or_owner (option Authorize.ReqUser * Z) fst _
                    (Some (Authorize.mkReqUser 2 "USER"), 2))).
    right. reflexivity.
  - apply (proj2 (admin_or_owner (option Authorize.ReqUser * Z) fst
                    (fun _ => true) (None, 2)) eq_refl ["ADMIN"]
             (fun _ => true)).
Defined.

(* ================================================================== *)
(** ** Properties of [utils/password.js] *)
(* ================================================================== *)


Lemma isValid_spec (p : Password.JsString) :
  Password.isValid (Password.validatePasswordStrength (Some p))
  = (8 <=? List.length p)%nat
    && Password.test 97 122 p && Password.test 65 90 p
    && Password.test 48 57 p.
Proof.
  unfold Password.validatePasswordStrength. cbn [Password.isValid].
  destruct p as [|c p]; [reflexivity|].
  set (q := c :: p).
  destruct (Nat.ltb_spec (List.length q) 8) as [L|L];
    [rewrite (proj2 (Nat.leb_gt 8 (List.length q)) L); reflexivity|].
  rewrite (proj2 (Nat.leb_le 8 (List.length q)) L).
  destruct (Password.test 97 122 q); [|reflexivity].
  destruct (Password.test 65 90 q); [|reflexivity].
  destruct (Password.test 48 57 q); reflexivity.
Qed.



(** X21.  A valid password stays valid when characters are added before
    or after it, and no password of fewer than 8 code units is valid. *)
Theorem password_extension (p before after : Password.JsString) :
  (Password.isValid (Password.validatePasswordStrength (Some p)) = true ->
   Password.isValid
     (Password.validatePasswordStrength (Some (before ++ p ++ after)%list)) = true)
  /\ ((List.length p < 8)%nat ->
      Password.isValid (Password.validatePasswordStrength (Some p)) = false).
Proof.
  split.
  - rewrite !isValid_spec. rewrite !Bool.andb_true_iff, !Nat.leb_le.
    unfold Password.test. rewrite !existsb_app, !length_app.
    intros [[[A ->] ->] ->]. rewrite !Bool.orb_true_r.
    repeat split. lia.
  - intros L. rewrite isValid_spec.
    rewrite (proj2 (Nat.leb_gt 8 (List.length p))) by exact L. reflexivity.
Qed.

Lemma password_extension_witness :
  Password.isValid
    (Password.validatePasswordStrength
       (Some [33; 80; 97; 115; 115; 119; 111; 114; 100; 49; 63]%N))
  = true
  /\ Password.isValid
       (Password.validatePasswordStrength (Some [80; 97; 49]%N)) = false.
Proof.
  split.
  - apply (proj1 (password_extension
                    [80; 97; 115; 115; 119; 111; 114; 100; 49]%N
                    [33]%N [63]%N)).
    reflexivity.
  - apply (proj2 (password_extension [80; 97; 49]%N [] [])). cbn. lia.
Defined.

(* ================================================================== *)
(** ** Properties of [deleteJobPosting] behind its route *)
(* ================================================================== *)

Lemma findJob_id (id : Z) (jobs : list Jobs.JobPosting) (j : Jobs.JobPosting) :
  Jobs.findJob id jobs = Some j -> Jobs.j_id j = id.
Proof.
  unfold Jobs.findJob. intros H. apply find_some in H. destruct H as [_ H]. lia.
Qed.

Lemma findJob_setJobActive (other id : Z) (b : bool)
  (jobs : list Jobs.JobPosting) :
  Jobs.findJob other (Jobs.setJobActive id b jobs)
  = option_map (fun j => if Jobs.j_id j =? id
                         then Jobs.mkJob (Jobs.j_id j) (Jobs.j_recruiterId j) b
                         else j)
      (Jobs.findJob other jobs).
Proof.
  unfold Jobs.findJob, Jobs.setJobActive.
  induction jobs as [|x l IH]; [reflexivity|].
  cbn [map find].
  destruct (Jobs.j_id x =? id) eqn:E; cbn [Jobs.j_id];
    destruct (Jobs.j_id x =? other); cbn [option_map]; rewrite ?E; auto.
Qed.

(** X22.  Who can delete a job posting.  For an existing posting,
    [DELETE /api/jobs/:id] deactivates it exactly when the user is an
    ADMIN, or a RECRUITER who owns the posting; it then answers with the
    id, keeps the row (a soft delete) and leaves every other posting as it
    is.  In every other case the table is unchanged.  The handler alone
    would also accept the owner whatever the role: the role check is the
    route's. *)
Theorem job_deleted_by_owner_or_admin (params_id : option string)
  (user : option Authorize.ReqUser) (jobs : list Jobs.JobPosting)
  (id : Z) (job : Jobs.JobPosting) :
  Js.parseInt params_id = Some id -> 1 <= id ->
  Jobs.findJob id jobs = Some job ->
  let allowed :=
    exists u, user = Some u
              /\ (Authorize.role u = "ADMIN"
                  \/ (Authorize.role u = "RECRUITER"
                      /\ Jobs.j_recruiterId job = Authorize.userId u)) in
  (allowed ->
   Jobs.deleteJobRoute params_id user jobs
   = (Jobs.Handled (Ok id), Jobs.setJobActive id false jobs)
   /\ Jobs.findJob id (Jobs.setJobActive id false jobs)
      = Some (Jobs.mkJob id (Jobs.j_recruiterId job) false)
   /\ forall other, other <> id ->
        Jobs.findJob other (Jobs.setJobActive id false jobs)
        = Jobs.findJob other jobs)
  /\ (~ allowed -> snd (Jobs.deleteJobRoute params_id user jobs) = jobs)
  /\ (forall u, Jobs.j_recruiterId job = Authorize.userId u ->
        Jobs.deleteJobPosting params_id u jobs
        = (Ok id, Jobs.setJobActive id false jobs)).
Proof.
  intros Hid H1 Hj allowed.
  assert (E1 : (id <? 1) = false) by (apply Z.ltb_ge; lia).
  assert (Hh : forall u,
             Jobs.deleteJobPosting params_id u jobs
             = if negb (Jobs.j_recruiterId job =? Authorize.userId u)
                  && negb (String.eqb (Authorize.role u) "ADMIN")
               then (Throw (Jobs.ForbiddenError
                              "You can only delete your own job postings"),
                     jobs)
               else (Ok id, Jobs.setJobActive id false jobs)).
  { intros u. unfold Jobs.deleteJobPosting. rewrite Hid, E1, Hj. reflexivity. }
  split; [|split].
  - intros (u & Hu & Hr). subst user. split; [|split].
    + unfold Jobs.deleteJobRoute, Authorize.authorize, Authorize.includes.
      cbn [existsb]. rewrite Hh.
      destruct Hr as [Hr|[Hr Ho]]; rewrite Hr.
      * cbn [String.eqb negb andb orb]. rewrite Bool.andb_false_r.
        cbn. reflexivity.
      * rewrite Ho, Z.eqb_refl. cbn. reflexivity.
    + rewrite findJob_setJobActive, Hj. cbn [option_map].
      rewrite (findJob_id _ _ _ Hj), Z.eqb_refl. reflexivity.
    + intros other Ho. rewrite findJob_setJobActive.
      destruct (Jobs.findJob other jobs) as [x|] eqn:Hx; [|reflexivity].
      cbn [option_map]. rewrite (findJob_id _ _ _ Hx).
      destruct (other =? id) eqn:E; [lia|reflexivity].
  - intros Hn. unfold Jobs.deleteJobRoute, Authorize.authorize,
      Authorize.includes.
    destruct user as [u|]; [|reflexivity]. cbn [existsb].
    rewrite Bool.orb_false_r.
    destruct (String.eqb_spec (Authorize.role u) "RECRUITER") as [Hr|Hr].
    + cbn [orb negb]. rewrite Hh.
      destruct (Jobs.j_recruiterId job =? Authorize.userId u) eqn:Eo.
      * exfalso. apply Hn. exists u. split; [reflexivity|].
        right. split; [exact Hr|lia].
      * rewrite Hr. cbn. reflexivity.
    + cbn [orb].
      destruct (String.eqb_spec (Authorize.role u) "ADMIN") as [Ha|Ha];
        cbn [negb]; [|reflexivity].
      exfalso. apply Hn. exists u. split; [reflexivity|]. left. exact Ha.
  - intros u Ho. rewrite Hh, Ho, Z.eqb_refl. reflexivity.
Qed.

Lemma job_deleted_by_owner_or_admin_witness :
  Jobs.deleteJobRoute (Some "3") (Some (Authorize.mkReqUser 5 "RECRUITER"))
    [Jobs.mkJob 2 5 true; Jobs.mkJob 3 5 true]
  = (Jobs.Handled (Ok 3), [Jobs.mkJob 2 5 true; Jobs.mkJob 3 5 false])
  /\ snd (Jobs.deleteJobRoute (Some "3")
            (Some (Authorize.mkReqUser 6 "RECRUITER"))
            [Jobs.mkJob 2 5 true; Jobs.mkJob 3 5 true])
     = [Jobs.mkJob 2 5 true; Jobs.mkJob 3 5 true].
Proof.
  pose proof (job_deleted_by_owner_or_admin (Some "3")
                (Some (Authorize.mkReqUser 5 "RECRUITER"))
                [Jobs.mkJob 2 5 true; Jobs.mkJob 3 5 true] 3
                (Jobs.mkJob 3 5 true) eq_refl ltac:(lia) eq_refl)
    as (H & _ & _).
  split; [|reflexivity].
  apply H. exists (Authorize.mkReqUser 5 "RECRUITER").
  split; [reflexivity|]. right. split; reflexivity.
Defined.

(* ================================================================== *)
(** ** Properties of the review controller *)
(* ================================================================== *)

Lemma updateRating_reviews (id : Z) (v : Js.number) (d : Reviews.Db) :
  Reviews.d_reviews (snd (Reviews.updateRating id v d)) = Reviews.d_reviews d
  /\ Reviews.d_nextId (snd (Reviews.updateRating id v d)) = Reviews.d_nextId d.
Proof.
  unfold Reviews.updateRating. destruct (existsb _ _); split; reflexivity.
Qed.

Lemma createReview_cases (p : option string) (u : Authorize.ReqUser)
  (b : Reviews.Body) (d : Reviews.Db) :
  Reviews.createReview p u b d
  = (fst (Reviews.createReview p u b d), d)
  \/ exists productId rating product,
       Js.parseInt p = Some productId
       /\ Reviews.rating b = Some rating
       /\ 1 <= rating <= 5
       /\ Reviews.findProduct productId d = Some product
       /\ Reviews.pr_isActive product = true
       /\ Reviews.findFirst productId (Authorize.userId u) d = None
       /\ let review :=
            Reviews.mkReview (Reviews.d_nextId d) productId
              (Authorize.userId u) rating
              (Reviews.commentOrNull (Reviews.comment b)) in
          let d1 := Reviews.insertReview review d in
          snd (Reviews.createReview p u b d)
          = snd (Reviews.updateRating productId
                   (Reviews.average (Reviews.reviewsOf productId d1)) d1)
          /\ (forall e, fst (Reviews.createReview p u b d) = Throw e ->
                        statusCode e = 500)
          /\ (forall r, fst (Reviews.createReview p u b d) = Ok r ->
                        r = review).
Proof.
  unfold Reviews.createReview.
  destruct (Js.parseInt p) as [productId|]; [|left; reflexivity].
  destruct (productId <? 1); [left; reflexivity|].
  destruct (Reviews.rating b) as [rating|]; [|left; reflexivity].
  destruct (rating =? 0) eqn:E0; [left; reflexivity|].
  destruct (rating <? 1) eqn:E1; [left; reflexivity|].
  destruct (rating >? 5) eqn:E5; [left; reflexivity|].
  cbn [orb].
  destruct (Reviews.findProduct productId d) as [product|] eqn:Hp;
    [|left; reflexivity].
  destruct (Reviews.pr_isActive product) eqn:Ha; cbn [negb];
    [|left; reflexivity].
  destruct (Reviews.findFirst productId (Authorize.userId u) d) eqn:Hf;
    [left; reflexivity|].
  right. exists productId, rating, product.
  apply Z.ltb_ge in E1. rewrite Z.gtb_ltb in E5. apply Z.ltb_ge in E5.
  repeat (split; [first [reflexivity | assumption | lia]|]).
  cbv zeta.
  unfold Reviews.updateRating.
  destruct (existsb _ _); cbn [fst snd].
  - split; [reflexivity|]. split; [discriminate|].
    intros r H. inversion H. reflexivity.
  - split; [reflexivity|]. split; [|discriminate].
    intros e H. inversion H. reflexivity.
Qed.

Lemma updateReview_cases (p : option string) (u : Authorize.ReqUser)
  (b : Reviews.Body) (d : Reviews.Db) :
  Reviews.updateReview p u b d
  = (fst (Reviews.updateReview p u b d), d)
  \/ exists id review,
       Js.parseInt p = Some id
       /\ Reviews.findReview id d = Some review
       /\ (Reviews.r_userId review = Authorize.userId u
           \/ Authorize.role u = "ADMIN")
       /\ (forall x, Reviews.rating b = Some x -> 1 <= x <= 5)
       /\ let d1 :=
            Reviews.withReviews d
              (map (fun r => if Reviews.r_id r =? id
                             then Reviews.applyUpdate b r else r)
                 (Reviews.d_reviews d)) in
          snd (Reviews.updateReview p u b d)
          = match Reviews.rating b with
            | Some _ =>
                snd (Reviews.updateRating (Reviews.r_productId review)
                       (Reviews.average
                          (Reviews.reviewsOf (Reviews.r_productId review) d1))
                       d1)
            | None => d1
            end.
Proof.
  unfold Reviews.updateReview.
  destruct (Js.parseInt p) as [id|]; [|left; reflexivity].
  destruct (id <? 1); [left; reflexivity|].
  destruct (Reviews.findReview id d) as [review|] eqn:Hr;
    [|left; reflexivity].
  destruct (Reviews.r_userId review =? Authorize.userId u) eqn:Eo;
    destruct (String.eqb_spec (Authorize.role u) "ADMIN") as [Ea|Ea];
    cbn [negb andb]; try (left; reflexivity).
  all: destruct (Reviews.rating b) as [x|] eqn:Hx.
  all: try (destruct (x <? 1) eqn:E1; [left; reflexivity|];
            destruct (x >? 5) eqn:E5; [left; reflexivity|]; cbn [orb];
            apply Z.ltb_ge in E1; rewrite Z.gtb_ltb in E5;
            apply Z.ltb_ge in E5).
  all: right; exists id, review.
  all: split; [reflexivity|]; split; [exact Hr|].
  all: split; [first [left; lia | right; exact Ea]|].
  all: split; [intros y Hy; inversion Hy; subst; lia|].
  all: cbv zeta; try reflexivity.
  all: destruct (Reviews.updateRating _ _ _) as [[?|?] ?]; reflexivity.
Qed.

Lemma deleteReview_cases (p : option string) (u : Authorize.ReqUser)
  (d : Reviews.Db) :
  Reviews.deleteReview p u d = (fst (Reviews.deleteReview p u d), d)
  \/ exists id review,
       Js.parseInt p = Some id
       /\ Reviews.findReview id d = Some review
       /\ (Reviews.r_userId review = Authorize.userId u
           \/ Authorize.role u = "MODERATOR"
           \/ Authorize.role u = "ADMIN")
       /\ let d1 :=
            Reviews.withReviews d
              (filter (fun r => negb (Reviews.r_id r =? id))
                 (Reviews.d_reviews d)) in
          Reviews.deleteReview p u d
          = Reviews.updateRating (Reviews.r_productId review)
              (Reviews.displayed
                 (Reviews.reviewsOf (Reviews.r_productId review) d1))
              d1.
Proof.
  unfold Reviews.deleteReview.
  destruct (Js.parseInt p) as [id|]; [|left; reflexivity].
  destruct (id <? 1); [left; reflexivity|].
  destruct (Reviews.findReview id d) as [review|] eqn:Hr;
    [|left; reflexivity].
  cbv zeta.
  destruct (Reviews.r_userId review =? Authorize.userId u) eqn:Eo;
    destruct (String.eqb_spec (Authorize.role u) "MODERATOR") as [Em|Em];
    destruct (String.eqb_spec (Authorize.role u) "ADMIN") as [Ea|Ea];
    cbn [negb andb]; try (left; reflexivity).
  all: right; exists id, review.
  all: split; [reflexivity|]; split; [exact Hr|].
  all: split; [first [left; lia | right; left; exact Em
                     | right; right; exact Ea]|].
  all: reflexivity.
Qed.

(* ------------------------------------------------------------------ *)
(** *** One review per user and product *)

Lemma findFirst_none_notin (productId userId : Z) (d : Reviews.Db) :
  Reviews.findFirst productId userId d = None ->
  ~ In (productId, userId)
      (map (fun r => (Reviews.r_productId r, Reviews.r_userId r))
         (Reviews.d_reviews d)).
Proof.
  unfold Reviews.findFirst. intros H Hin. apply in_map_iff in Hin.
  destruct Hin as (r & E & Hr). inversion E; subst.
  apply (find_none _ _ H) in Hr. rewrite !Z.eqb_refl in Hr. discriminate Hr.
Qed.

Lemma step_keeps_reviews (q : Reviews.Request) (d : Reviews.Db) :
  Reviews.ReviewKeys d /\ Reviews.OneReviewEach d /\ Reviews.RatingsInRange d ->
  Reviews.ReviewKeys (Reviews.step q d)
  /\ Reviews.OneReviewEach (Reviews.step q d)
  /\ Reviews.RatingsInRange (Reviews.step q d).
Proof.
  unfold Reviews.ReviewKeys, Reviews.OneReviewEach, Reviews.RatingsInRange.
  intros ((Kn & Kl) & U & G).
  destruct q as [p u b|p u b|p u]; cbn [Reviews.step].
  - destruct (createReview_cases p u b d)
      as [E|(pid & x & product & _ & _ & Hx & _ & _ & Hf & H)].
    + rewrite E. cbn [snd]. auto.
    + cbv zeta in H. destruct H as (E & _). rewrite E.
      destruct (updateRating_reviews pid
                  (Reviews.average (Reviews.reviewsOf pid
                     (Reviews.insertReview
                        (Reviews.mkReview (Reviews.d_nextId d) pid
                           (Authorize.userId u) x
                           (Reviews.commentOrNull (Reviews.comment b))) d)))
                  (Reviews.insertReview
                     (Reviews.mkReview (Reviews.d_nextId d) pid
                        (Authorize.userId u) x
                        (Reviews.commentOrNull (Reviews.comment b))) d))
        as [-> ->].
      cbn [Reviews.insertReview Reviews.d_reviews Reviews.d_nextId].
      rewrite !map_app. cbn [map Reviews.r_id Reviews.r_productId
                               Reviews.r_userId].
      split; [split|split].
      * apply NoDup_snoc; [exact Kn|]. intros Hin. apply in_map_iff in Hin.
        destruct Hin as (r & Hr & Hin). rewrite Forall_forall in Kl.
        apply Kl in Hin. lia.
      * apply Forall_app. split.
        -- eapply Forall_impl; [|exact Kl]. cbn. intros; lia.
        -- constructor; [cbn; lia|constructor].
      * apply NoDup_snoc; [exact U|]. apply findFirst_none_notin. exact Hf.
      * apply Forall_app. split; [exact G|].
        constructor; [cbn; exact Hx|constructor].
  - destruct (updateReview_cases p u b d)
      as [E|(id & review & _ & _ & _ & Hx & H)].
    + rewrite E. cbn [snd]. auto.
    + cbv zeta in H.
      assert (R : Reviews.d_reviews (snd (Reviews.updateReview p u b d))
                  = map (fun r => if Reviews.r_id r =? id
                                  then Reviews.applyUpdate b r else r)
                      (Reviews.d_reviews d)
                  /\ Reviews.d_nextId (snd (Reviews.updateReview p u b d))
                     = Reviews.d_nextId d).
      { rewrite H. destruct (Reviews.rating b); [|split; reflexivity].
        match goal with
        | |- context [Reviews.updateRating ?a ?v ?s] =>
            destruct (updateRating_reviews a v s) as [-> ->]
        end.
        split; reflexivity. }
      destruct R as [-> ->].
      assert (Same : forall (f : Reviews.Review -> Z),
                 (forall r, f (Reviews.applyUpdate b r) = f r) ->
                 map f (map (fun r => if Reviews.r_id r =? id
                                      then Reviews.applyUpdate b r else r)
                          (Reviews.d_reviews d))
                 = map f (Reviews.d_reviews d)).
      { intros f Hf. rewrite map_map. apply map_ext. intros r.
        destruct (Reviews.r_id r =? id); [apply Hf|reflexivity]. }
      split; [split|split].
      * rewrite Same; [exact Kn|reflexivity].
      * apply Forall_forall. intros r Hr. apply in_map_iff in Hr.
        destruct Hr as (y & <- & Hy). rewrite Forall_forall in Kl.
        specialize (Kl y Hy).
        destruct (Reviews.r_id y =? id); [cbn|]; exact Kl.
      * rewrite map_map.
        erewrite map_ext; [exact U|]. intros r. cbn.
        destruct (Reviews.r_id r =? id); reflexivity.
      * apply Forall_forall. intros r Hr. apply in_map_iff in Hr.
        destruct Hr as (y & <- & Hy). rewrite Forall_forall in G.
        specialize (G y Hy).
        destruct (Reviews.r_id y =? id); [|exact G].
        unfold Reviews.applyUpdate. cbn [Reviews.r_rating].
        destruct (Reviews.rating b) as [x|]; [apply Hx; reflexivity|exact G].
  - destruct (deleteReview_cases p u d) as [E|(id & review & _ & _ & _ & H)].
    + rewrite E. cbn [snd]. auto.
    + cbv zeta in H. rewrite H.
      match goal with
      | |- context [Reviews.updateRating ?a ?v ?s] =>
          destruct (updateRating_reviews a v s) as [-> ->]
      end.
      cbn [Reviews.withReviews Reviews.d_reviews Reviews.d_nextId].
      split; [split|split].
      * apply NoDup_map_filter. exact Kn.
      * apply Forall_filter. exact Kl.
      * apply NoDup_map_filter. exact U.
      * apply Forall_filter. exact G.
Qed.

(** X23.  Over every sequence of create, update and delete requests, each
    run to its end before the next: no user ever has two reviews of one
    product, and every stored rating is from 1 to 5. *)
Theorem one_review_per_user_and_product (qs : list Reviews.Request)
  (d : Reviews.Db) :
  Reviews.ReviewKeys d -> Reviews.OneReviewEach d -> Reviews.RatingsInRange d ->
  Reviews.OneReviewEach (Reviews.run qs d)
  /\ Reviews.RatingsInRange (Reviews.run qs d).
Proof.
  intros K U G.
  assert (H : Reviews.ReviewKeys (Reviews.run qs d)
              /\ Reviews.OneReviewEach (Reviews.run qs d)
              /\ Reviews.RatingsInRange (Reviews.run qs d)).
  { revert d K U G. induction qs as [|q qs IH]; intros d K U G.
    - cbn. auto.
    - cbn [Reviews.run fold_left].
      destruct (step_keeps_reviews q d (conj K (conj U G))) as (K' & U' & G').
      apply IH; assumption. }
  tauto.
Qed.

Lemma one_review_per_user_and_product_witness :
  Reviews.d_reviews
    (Reviews.run
       [Reviews.Create (Some "7") (Authorize.mkReqUser 1 "USER")
          (Reviews.mkBody (Some 4) None);
        Reviews.Create (Some "7") (Authorize.mkReqUser 1 "USER")
          (Reviews.mkBody (Some 5) None);
        Reviews.Update (Some "1") (Authorize.mkReqUser 1 "USER")
          (Reviews.mkBody (Some 9) None)]
       (Reviews.mkDb [Reviews.mkProductRow 7 true (Js.ofZ 0)] [] 1))
  = [Reviews.mkReview 1 7 1 4 None]
  /\ Reviews.OneReviewEach
       (Reviews.run
          [Reviews.Create (Some "7") (Authorize.mkReqUser 1 "USER")
             (Reviews.mkBody (Some 4) None);
           Reviews.Create (Some "7") (Authorize.mkReqUser 1 "USER")
             (Reviews.mkBody (Some 5) None);
           Reviews.Update (Some "1") (Authorize.mkReqUser 1 "USER")
             (Reviews.mkBody (Some 9) None)]
          (Reviews.mkDb [Reviews.mkProductRow 7 true (Js.ofZ 0)] [] 1)).
Proof.
  split; [reflexivity|].
  apply one_review_per_user_and_product.
  - split; constructor.
  - constructor.
  - constructor.
Defined.

(* ------------------------------------------------------------------ *)
(** *** Who may change a review *)

Lemma findReview_filter (id other : Z) (d : Reviews.Db) :
  Reviews.findReview other
    (Reviews.withReviews d
       (filter (fun r => negb (Reviews.r_id r =? id)) (Reviews.d_reviews d)))
  = if other =? id then None else Reviews.findReview other d.
Proof.
  unfold Reviews.findReview. cbn [Reviews.withReviews Reviews.d_reviews].
  induction (Reviews.d_reviews d) as [|x xs IH]; cbn [filter find].
  - destruct (other =? id); reflexivity.
  - destruct (Reviews.r_id x =? id) eqn:E; cbn [negb find].
    + rewrite IH. destruct (other =? id) eqn:E'; [reflexivity|].
      destruct (Reviews.r_id x =? other) eqn:E''; [lia|reflexivity].
    + destruct (Reviews.r_id x =? other) eqn:E''; [|exact IH].
      destruct (other =? id) eqn:E'; [lia|reflexivity].
Qed.

(** X24.  Who may change a review that exists.  [updateReview] refuses
    with 403 exactly the users who are neither the author nor an ADMIN;
    [deleteReview] refuses exactly those who are neither the author, nor a
    MODERATOR, nor an ADMIN; a refusal writes nothing.  So a moderator can
    delete the review of somebody else but cannot edit it.  A delete that
    is not refused removes the review and no other. *)
Theorem review_permissions (p : option string) (u : Authorize.ReqUser)
  (b : Reviews.Body) (d : Reviews.Db) (id : Z) (review : Reviews.Review) :
  Js.parseInt p = Some id -> 1 <= id ->
  Reviews.findReview id d = Some review ->
  let author := Reviews.r_userId review = Authorize.userId u in
  let role := Authorize.role u in
  (Reviews.updateReview p u b d
   = (Throw (Reviews.ForbiddenError "You can only update your own reviews"), d)
   <-> ~ author /\ role <> "ADMIN")
  /\ (Reviews.deleteReview p u d
      = (Throw (Reviews.ForbiddenError
                  "You do not have permission to delete this review"), d)
      <-> ~ author /\ role <> "MODERATOR" /\ role <> "ADMIN")
  /\ (author \/ role = "MODERATOR" \/ role = "ADMIN" ->
      Reviews.findReview id (snd (Reviews.deleteReview p u d)) = None
      /\ forall other, other <> id ->
           Reviews.findReview other (snd (Reviews.deleteReview p u d))
           = Reviews.findReview other d).
Proof.
  intros Hid H1 Hr author role.
  assert (E1 : (id <? 1) = false) by (apply Z.ltb_ge; lia).
  split; [|split].
  - unfold Reviews.updateReview. rewrite Hid, E1, Hr.
    destruct (Z.eqb_spec (Reviews.r_userId review) (Authorize.userId u))
      as [Eo|Eo];
      destruct (String.eqb_spec (Authorize.role u) "ADMIN") as [Ea|Ea];
      cbn [negb andb].
    4: { split; [intros _; split; assumption|reflexivity]. }
    all: split; [|intros [A B]; contradiction].
    all: destruct (Reviews.rating b) as [x|];
      [destruct ((x <? 1) || (x >? 5))|];
      unfold Reviews.updateRating;
      repeat match goal with
             | |- context [existsb ?f ?l] => destruct (existsb f l)
             end;
      intros H; inversion H.
  - unfold Reviews.deleteReview. rewrite Hid, E1, Hr. cbv zeta.
    destruct (Z.eqb_spec (Reviews.r_userId review) (Authorize.userId u))
      as [Eo|Eo];
      destruct (String.eqb_spec (Authorize.role u) "MODERATOR") as [Em|Em];
      destruct (String.eqb_spec (Authorize.role u) "ADMIN") as [Ea|Ea];
      cbn [negb andb].
    8: { split; [intros _; repeat split; assumption|reflexivity]. }
    all: split; [|intros (A & B & C); contradiction].
    all: unfold Reviews.updateRating; destruct (existsb _ _);
      intros H; inversion H.
  - intros Hallowed.
    assert (H : Reviews.deleteReview p u d
                = Reviews.updateRating (Reviews.r_productId review)
                    (Reviews.displayed
                       (Reviews.reviewsOf (Reviews.r_productId review)
                          (Reviews.withReviews d
                             (filter (fun r => negb (Reviews.r_id r =? id))
                                (Reviews.d_reviews d)))))
                    (Reviews.withReviews d
                       (filter (fun r => negb (Reviews.r_id r =? id))
                          (Reviews.d_reviews d)))).
    { unfold Reviews.deleteReview. rewrite Hid, E1, Hr. cbv zeta.
      destruct (Z.eqb_spec (Reviews.r_userId review) (Authorize.userId u))
        as [Eo|Eo];
        destruct (String.eqb_spec (Authorize.role u) "MODERATOR") as [Em|Em];
        destruct (String.eqb_spec (Authorize.role u) "ADMIN") as [Ea|Ea];
        cbn [negb andb]; try reflexivity.
      exfalso. unfold author, role in Hallowed. tauto. }
    rewrite H.
      unfold Reviews.findReview at 1 2.
      match goal with
      | |- context [Reviews.updateRating ?a ?v ?s] =>
          destruct (updateRating_reviews a v s) as [-> _]
      end.
      fold (Reviews.findReview id
              (Reviews.withReviews d
                 (filter (fun r => negb (Reviews.r_id r =? id))
                    (Reviews.d_reviews d)))).
      rewrite (findReview_filter id id d), Z.eqb_refl.
      split; [reflexivity|]. intros other Ho.
      fold (Reviews.findReview other
              (Reviews.withReviews d
                 (filter (fun r => negb (Reviews.r_id r =? id))
                    (Reviews.d_reviews d)))).
      rewrite (findReview_filter id other d).
      destruct (other =? id) eqn:E; [lia|reflexivity].
Qed.

Lemma review_permissions_witness :
  fst (Reviews.updateReview (Some "1") (Authorize.mkReqUser 9 "MODERATOR")
         (Reviews.mkBody (Some 1) None)
         (Reviews.mkDb [Reviews.mkProductRow 7 true (Js.ofZ 4)]
            [Reviews.mkReview 1 7 1 4 None] 2))
  = Throw (Reviews.ForbiddenError "You can only update your own reviews")
  /\ Reviews.d_reviews
       (snd (Reviews.deleteReview (Some "1")
               (Authorize.mkReqUser 9 "MODERATOR")
               (Reviews.mkDb [Reviews.mkProductRow 7 true (Js.ofZ 4)]
                  [Reviews.mkReview 1 7 1 4 None] 2)))
     = [].
Proof.
  pose proof (review_permissions (Some "1") (Authorize.mkReqUser 9 "MODERATOR")
                (Reviews.mkBody (Some 1) None)
                (Reviews.mkDb [Reviews.mkProductRow 7 true (Js.ofZ 4)]
                   [Reviews.mkReview 1 7 1 4 None] 2)
                1 (Reviews.mkReview 1 7 1 4 None)
                eq_refl ltac:(lia) eq_refl) as (H & _ & _).
  cbv zeta in H. split; [|reflexivity].
  rewrite (proj2 H); [reflexivity|].
  split; cbn; discriminate.
Defined.

(* ------------------------------------------------------------------ *)
(** *** The rating of a product follows its reviews *)

Lemma fold_left_ratings (l : list Reviews.Review) (a : Js.number) :
  fold_left (fun sum r => Js.add sum (Js.ofZ (Reviews.r_rating r))) l a
  = fold_left (fun sum x => Js.add sum (Js.ofZ x)) (map Reviews.r_rating l) a.
Proof.
  revert a. induction l as [|x l IH]; intros a; [reflexivity|].
  cbn [map fold_left]. apply IH.
Qed.

Lemma displayed_ext (l1 l2 : list Reviews.Review) :
  map Reviews.r_rating l1 = map Reviews.r_rating l2 ->
  Reviews.displayed l1 = Reviews.displayed l2.
Proof.
  intros E.
  assert (L : List.length l1 = List.length l2).
  { rewrite <- (length_map Reviews.r_rating l1),
      <- (length_map Reviews.r_rating l2), E. reflexivity. }
  unfold Reviews.displayed, Reviews.average, Reviews.sumRatings.
  rewrite !fold_left_ratings, E, L. reflexivity.
Qed.

Lemma displayed_nonempty (l : list Reviews.Review) (r : Reviews.Review) :
  In r l -> Reviews.displayed l = Reviews.average l.
Proof.
  intros H. unfold Reviews.displayed. destruct l; [contradiction|reflexivity].
Qed.

Lemma synced_same (d d1 : Reviews.Db) :
  Reviews.d_products d1 = Reviews.d_products d ->
  (forall pid, map Reviews.r_rating (Reviews.reviewsOf pid d1)
               = map Reviews.r_rating (Reviews.reviewsOf pid d)) ->
  Reviews.Synced d -> Reviews.Synced d1.
Proof.
  intros P E S p Hp. rewrite P in Hp. rewrite (S p Hp).
  apply displayed_ext. symmetry. apply E.
Qed.

Lemma synced_after (pid : Z) (v : Js.number) (d d1 : Reviews.Db) :
  Reviews.d_products d1 = Reviews.d_products d ->
  (forall other, other <> pid ->
     map Reviews.r_rating (Reviews.reviewsOf other d1)
     = map Reviews.r_rating (Reviews.reviewsOf other d)) ->
  v = Reviews.displayed (Reviews.reviewsOf pid d1) ->
  Reviews.Synced d ->
  Reviews.Synced (snd (Reviews.updateRating pid v d1)).
Proof.
  intros P E V S. unfold Reviews.updateRating.
  destruct (existsb _ (Reviews.d_products d1)) eqn:X; cbn [snd].
  - intros p Hp. cbn [Reviews.d_products] in Hp. apply in_map_iff in Hp.
    destruct Hp as (y & <- & Hy). rewrite P in Hy.
    change (Reviews.reviewsOf ?a (Reviews.mkDb ?ps (Reviews.d_reviews d1) ?n))
      with (Reviews.reviewsOf a d1).
    destruct (Reviews.pr_id y =? pid) eqn:Ey.
    + cbn [Reviews.pr_rating Reviews.pr_id].
      assert (Reviews.pr_id y = pid) as -> by lia. exact V.
    + rewrite (S y Hy). apply displayed_ext. symmetry. apply E. lia.
  - intros p Hp.
    assert (Hne : Reviews.pr_id p <> pid).
    { intros Heq.
      assert (T : existsb (fun p0 => Reviews.pr_id p0 =? pid)
                    (Reviews.d_products d1) = true).
      { apply existsb_exists. exists p. split; [exact Hp|lia]. }
      congruence. }
    rewrite P in Hp. rewrite (S p Hp). apply displayed_ext. symmetry.
    apply E. exact Hne.
Qed.

Lemma rows_with_id (id : Z) (d : Reviews.Db) (review : Reviews.Review) :
  NoDup (map Reviews.r_id (Reviews.d_reviews d)) ->
  Reviews.findReview id d = Some review ->
  In review (Reviews.d_reviews d)
  /\ forall r, In r (Reviews.d_reviews d) -> Reviews.r_id r = id -> r = review.
Proof.
  intros N H. unfold Reviews.findReview in H. apply find_some in H.
  destruct H as [Hin Hid]. split; [exact Hin|].
  intros r Hr E. apply (NoDup_map_eq Reviews.r_id (Reviews.d_reviews d));
    auto. lia.
Qed.

Lemma ratings_after_update (id pid other : Z) (b : Reviews.Body)
  (l : list Reviews.Review) :
  (forall r, In r l -> Reviews.r_id r = id -> Reviews.r_productId r = pid) ->
  other <> pid \/ Reviews.rating b = None ->
  map Reviews.r_rating
    (filter (fun r => Reviews.r_productId r =? other)
       (map (fun r => if Reviews.r_id r =? id
                      then Reviews.applyUpdate b r else r) l))
  = map Reviews.r_rating (filter (fun r => Reviews.r_productId r =? other) l).
Proof.
  intros H C. induction l as [|x l IH]; [reflexivity|].
  cbn [map filter].
  assert (IH' := IH (fun r Hr => H r (or_intror Hr))). clear IH.
  destruct (Reviews.r_id x =? id) eqn:E.
  - change (Reviews.r_productId (Reviews.applyUpdate b x))
      with (Reviews.r_productId x).
    destruct (Reviews.r_productId x =? other) eqn:Ep.
    + destruct C as [C|C].
      * exfalso. apply C. rewrite <- (H x (or_introl eq_refl)); lia.
      * cbn [map].
        change (Reviews.r_rating (Reviews.applyUpdate b x))
          with (match Reviews.rating b with
                | Some v => v
                | None => Reviews.r_rating x
                end).
        rewrite C, IH'. reflexivity.
    + exact IH'.
  - destruct (Reviews.r_productId x =? other); cbn [map]; rewrite IH';
      reflexivity.
Qed.

Lemma reviews_after_delete (id pid other : Z) (l : list Reviews.Review) :
  (forall r, In r l -> Reviews.r_id r = id -> Reviews.r_productId r = pid) ->
  other <> pid ->
  filter (fun r => Reviews.r_productId r =? other)
    (filter (fun r => negb (Reviews.r_id r =? id)) l)
  = filter (fun r => Reviews.r_productId r =? other) l.
Proof.
  intros H C. induction l as [|x l IH]; [reflexivity|].
  cbn [filter].
  assert (IH' := IH (fun r Hr => H r (or_intror Hr))). clear IH.
  destruct (Reviews.r_id x =? id) eqn:E; cbn [negb filter].
  - destruct (Reviews.r_productId x =? other) eqn:Ep; [|exact IH'].
    exfalso. apply C. rewrite <- (H x (or_introl eq_refl)); lia.
  - destruct (Reviews.r_productId x =? other); rewrite IH'; reflexivity.
Qed.

Lemma step_synced (q : Reviews.Request) (d : Reviews.Db) :
  Reviews.ReviewKeys d -> Reviews.Synced d -> Reviews.Synced (Reviews.step q d).
Proof.
  intros [Kn Kl] S.
  destruct q as [p u b|p u b|p u]; cbn [Reviews.step].
  - destruct (createReview_cases p u b d)
      as [E|(pid & x & product & _ & _ & _ & _ & _ & _ & H)].
    + rewrite E. exact S.
    + cbv zeta in H. destruct H as (E & _). rewrite E.
      apply (synced_after pid _ d); [reflexivity| | |exact S].
      * intros other Ho. unfold Reviews.reviewsOf.
        cbn [Reviews.insertReview Reviews.d_reviews]. rewrite filter_app.
        cbn [filter Reviews.r_productId].
        destruct (pid =? other) eqn:Ep; [lia|]. rewrite app_nil_r.
        reflexivity.
      * symmetry.
        apply (displayed_nonempty _
                 (Reviews.mkReview (Reviews.d_nextId d) pid
                    (Authorize.userId u) x
                    (Reviews.commentOrNull (Reviews.comment b)))).
        unfold Reviews.reviewsOf. apply filter_In.
        cbn [Reviews.insertReview Reviews.d_reviews Reviews.r_productId].
        split; [apply in_or_app; right; left; reflexivity|apply Z.eqb_refl].
  - destruct (updateReview_cases p u b d)
      as [E|(id & review & _ & Hr & _ & _ & H)].
    + rewrite E. exact S.
    + cbv zeta in H. rewrite H.
      destruct (rows_with_id id d review Kn Hr) as [Hin Huniq].
      assert (Hpid : forall r, In r (Reviews.d_reviews d) ->
                               Reviews.r_id r = id ->
                               Reviews.r_productId r
                               = Reviews.r_productId review).
      { intros r Hr' E. rewrite (Huniq r Hr' E). reflexivity. }
      destruct (Reviews.rating b) as [x|] eqn:Hx.
      * apply (synced_after (Reviews.r_productId review) _ d);
          [reflexivity| | |exact S].
        -- intros other Ho. unfold Reviews.reviewsOf.
           cbn [Reviews.withReviews Reviews.d_reviews].
           apply (ratings_after_update id (Reviews.r_productId review));
             [exact Hpid|left; exact Ho].
        -- symmetry.
           apply (displayed_nonempty _ (Reviews.applyUpdate b review)).
           unfold Reviews.reviewsOf. apply filter_In.
           cbn [Reviews.withReviews Reviews.d_reviews].
           split; [|cbn; apply Z.eqb_refl].
           apply in_map_iff. exists review. split; [|exact Hin].
           unfold Reviews.findReview in Hr. apply find_some in Hr.
           destruct Hr as [_ ->]. reflexivity.
      * apply (synced_same d); [reflexivity| |exact S].
        intros pid. unfold Reviews.reviewsOf.
        cbn [Reviews.withReviews Reviews.d_reviews].
        apply (ratings_after_update id (Reviews.r_productId review));
          [exact Hpid|right; exact Hx].
  - destruct (deleteReview_cases p u d) as [E|(id & review & _ & Hr & _ & H)].
    + rewrite E. exact S.
    + cbv zeta in H. rewrite H.
      destruct (rows_with_id id d review Kn Hr) as [Hin Huniq].
      apply (synced_after (Reviews.r_productId review) _ d);
        [reflexivity| |reflexivity|exact S].
      intros other Ho. unfold Reviews.reviewsOf.
      cbn [Reviews.withReviews Reviews.d_reviews].
      rewrite (reviews_after_delete id (Reviews.r_productId review));
        [reflexivity| |exact Ho].
      intros r Hr' E. rewrite (Huniq r Hr' E). reflexivity.
Qed.

(** X25.  The rating of a product follows its reviews: if every product
    shows the average of its reviews (0 when it has none), review ids are
    distinct, no user has two reviews of one product and the stored
    ratings are from 1 to 5, then every product still shows the average of
    its reviews after any sequence of create, update and delete requests.
    Each write of a review of a product is followed by the recomputation
    for that product, and touches no other. *)
Theorem product_rating_follows_reviews (qs : list Reviews.Request)
  (d : Reviews.Db) :
  Reviews.ReviewKeys d -> Reviews.OneReviewEach d -> Reviews.RatingsInRange d ->
  Reviews.Synced d ->
  Reviews.Synced (Reviews.run qs d).
Proof.
  revert d. induction qs as [|q qs IH]; intros d K U G S; [exact S|].
  cbn [Reviews.run fold_left].
  destruct (step_keeps_reviews q d (conj K (conj U G))) as (K' & U' & G').
  apply IH; try assumption. apply step_synced; assumption.
Qed.

Lemma product_rating_follows_reviews_witness :
  Reviews.Synced
    (Reviews.run
       [Reviews.Create (Some "7") (Authorize.mkReqUser 1 "USER")
          (Reviews.mkBody (Some 4) None);
        Reviews.Create (Some "7") (Authorize.mkReqUser 2 "USER")
          (Reviews.mkBody (Some 5) (Some (Some "Bright")));
        Reviews.Delete (Some "1") (Authorize.mkReqUser 3 "MODERATOR")]
       (Reviews.mkDb [Reviews.mkProductRow 7 true (Js.ofZ 0)] [] 1))
  /\ Reviews.run
       [Reviews.Create (Some "7") (Authorize.mkReqUser 1 "USER")
          (Reviews.mkBody (Some 4) None);
        Reviews.Create (Some "7") (Authorize.mkReqUser 2 "USER")
          (Reviews.mkBody (Some 5) (Some (Some "Bright")))]
       (Reviews.mkDb [Reviews.mkProductRow 7 true (Js.ofZ 0)] [] 1)
     = Reviews.mkDb [Reviews.mkProductRow 7 true (Js.ratio false 9 2)]
         [Reviews.mkReview 1 7 1 4 None;
          Reviews.mkReview 2 7 2 5 (Some "Bright")] 3.
Proof.
  split; [|vm_compute; reflexivity].
  apply product_rating_follows_reviews.
  - split; constructor.
  - constructor.
  - constructor.
  - intros p [<-|[]]. reflexivity.
Defined.

(* ------------------------------------------------------------------ *)
(** *** Reviewing twice *)

Lemma findProduct_updateRating (id pid : Z) (v : Js.number) (d : Reviews.Db)
  (p : Reviews.ProductRow) :
  Reviews.findProduct id d = Some p ->
  exists v',
    Reviews.findProduct id (snd (Reviews.updateRating pid v d))
    = Some (Reviews.mkProductRow (Reviews.pr_id p) (Reviews.pr_isActive p) v').
Proof.
  unfold Reviews.updateRating, Reviews.findProduct.
  destruct (existsb _ _); cbn [snd Reviews.d_products].
  - induction (Reviews.d_products d) as [|x l IH]; [discriminate|].
    cbn [map find].
    destruct (Reviews.pr_id x =? pid) eqn:E; cbn [Reviews.pr_id];
      destruct (Reviews.pr_id x =? id) eqn:E'.
    + intros H. inversion H; subst x. eexists. reflexivity.
    + exact IH.
    + intros H. inversion H; subst x. exists (Reviews.pr_rating p).
      destruct p; reflexivity.
    + exact IH.
  - intros H. exists (Reviews.pr_rating p). rewrite H. destruct p; reflexivity.
Qed.

Lemma createReview_ok (p : option string) (u : Authorize.ReqUser)
  (b : Reviews.Body) (d : Reviews.Db) (r : Reviews.Review) :
  fst (Reviews.createReview p u b d) = Ok r ->
  exists productId rating product,
    Js.parseInt p = Some productId
    /\ (productId <? 1) = false
    /\ Reviews.findProduct productId d = Some product
    /\ Reviews.pr_isActive product = true
    /\ Reviews.findFirst productId (Authorize.userId u) d = None
    /\ r = Reviews.mkReview (Reviews.d_nextId d) productId
             (Authorize.userId u) rating
             (Reviews.commentOrNull (Reviews.comment b))
    /\ snd (Reviews.createReview p u b d)
       = snd (Reviews.updateRating productId
                (Reviews.average
                   (Reviews.reviewsOf productId (Reviews.insertReview r d)))
                (Reviews.insertReview r d)).
Proof.
  unfold Reviews.createReview.
  destruct (Js.parseInt p) as [pid|]; [|discriminate].
  destruct (pid <? 1) eqn:Ep; [discriminate|].
  destruct (Reviews.rating b) as [x|]; [|discriminate].
  destruct ((x =? 0) || (x <? 1) || (x >? 5)); [discriminate|].
  destruct (Reviews.findProduct pid d) as [product|] eqn:Hprod;
    [|discriminate].
  destruct (Reviews.pr_isActive product) eqn:Hact; cbn [negb];
    [|discriminate].
  destruct (Reviews.findFirst pid (Authorize.userId u) d) eqn:Hf;
    [discriminate|].
  cbv zeta. unfold Reviews.updateRating.
  destruct (existsb _ _) eqn:X; cbn [fst snd]; [|discriminate].
  intros H. inversion H; subst r.
  exists pid, x, product. repeat split; try assumption.
  cbn [Reviews.insertReview Reviews.d_products] in *. rewrite X. reflexivity.
Qed.

(** X26.  A review is created once: after a [createReview] that answered
    with the new review, a second [createReview] of the same user for the
    same product, whatever rating from 1 to 5 and comment it brings, is
    refused with "You have already reviewed this product" and changes
    nothing. *)
Theorem review_created_once (p : option string) (u : Authorize.ReqUser)
  (b b' : Reviews.Body) (d : Reviews.Db) (r : Reviews.Review) (x' : Z) :
  fst (Reviews.createReview p u b d) = Ok r ->
  Reviews.rating b' = Some x' -> 1 <= x' <= 5 ->
  let d1 := snd (Reviews.createReview p u b d) in
  In r (Reviews.d_reviews d1)
  /\ Reviews.r_userId r = Authorize.userId u
  /\ Reviews.createReview p u b' d1
     = (Throw (BadRequestError "You have already reviewed this product"), d1).
Proof.
  intros Hok Hb' Hx' d1.
  destruct (createReview_ok p u b d r Hok)
    as (pid & x & product & Hp & Ep & Hprod & Hact & Hf & Hr & E).
  assert (R1 : Reviews.d_reviews d1 = (Reviews.d_reviews d ++ [r])%list).
  { unfold d1. rewrite E.
    match goal with
    | |- context [Reviews.updateRating ?a ?v ?s] =>
        destruct (updateRating_reviews a v s) as [-> _]
    end.
    reflexivity. }
  split; [rewrite R1; apply in_or_app; right; left; reflexivity|].
  split; [rewrite Hr; reflexivity|].
  assert (P1 : exists v',
             Reviews.findProduct pid d1
             = Some (Reviews.mkProductRow (Reviews.pr_id product)
                       (Reviews.pr_isActive product) v')).
  { unfold d1. rewrite E. apply findProduct_updateRating. exact Hprod. }
  destruct P1 as (v' & P1).
  assert (F1 : Reviews.findFirst pid (Authorize.userId u) d1 = Some r).
  { unfold Reviews.findFirst. rewrite R1. clear R1. revert Hf.
    unfold Reviews.findFirst.
    induction (Reviews.d_reviews d) as [|y l IH]; cbn [app find].
    - intros _. rewrite Hr. cbn. rewrite !Z.eqb_refl. reflexivity.
    - destruct ((Reviews.r_productId y =? pid)
                && (Reviews.r_userId y =? Authorize.userId u));
        [discriminate|exact IH]. }
  assert (E0 : ((x' =? 0) || (x' <? 1) || (x' >? 5)) = false).
  { destruct (Z.eqb_spec x' 0); [lia|].
    destruct (Z.ltb_spec x' 1); [lia|].
    rewrite Z.gtb_ltb. destruct (Z.ltb_spec 5 x'); [lia|reflexivity]. }
  unfold Reviews.createReview. rewrite Hp, Ep, Hb', E0, P1.
  cbn [Reviews.pr_isActive]. rewrite Hact. cbn [negb]. rewrite F1.
  reflexivity.
Qed.

Lemma review_created_once_witness :
  Reviews.createReview (Some "7") (Authorize.mkReqUser 1 "USER")
    (Reviews.mkBody (Some 2) None)
    (snd (Reviews.createReview (Some "7") (Authorize.mkReqUser 1 "USER")
            (Reviews.mkBody (Some 4) None)
            (Reviews.mkDb [Reviews.mkProductRow 7 true (Js.ofZ 0)] [] 1)))
  = (Throw (BadRequestError "You have already reviewed this product"),
     Reviews.mkDb [Reviews.mkProductRow 7 true (Js.ofZ 4)]
       [Reviews.mkReview 1 7 1 4 None] 2).
Proof.
  destruct (review_created_once (Some "7") (Authorize.mkReqUser 1 "USER")
              (Reviews.mkBody (Some 4) None) (Reviews.mkBody (Some 2) None)
              (Reviews.mkDb [Reviews.mkProductRow 7 true (Js.ofZ 0)] [] 1)
              (Reviews.mkReview 1 7 1 4 None) 2
              eq_refl eq_refl ltac:(lia)) as (_ & _ & H).
  rewrite H. vm_compute. reflexivity.
Defined.
